(** * Event pattern engine: the log analyzer and the session-improvement hook

    A shallow embedding of [src/analysis/log_analyzer.py] (class
    [PatternDetector], [LogAnalyzer.analyze_log_file]) and of
    [src/hooks/session_improvement.py] ([detect_patterns],
    [find_tool_sequences], [find_error_patterns],
    [calculate_session_metrics], [analyze_session]), followed by the
    command sequences and the score of [CrossProjectLearner], the
    recommendations of [LogAnalyzer] and the events that
    [src/analysis/recommendation_engine.py] reads back from an analysis.

    Conventions of the embedding:
    - a value read from a JSON log is a [pyval]; a JSON object is an
      association list whose first binding of a key is the effective one;
    - a Python number is the rational [Q] it denotes, be it an int or a
      float (a double). The medians of NumPy, the comparisons of the
      performance detector, the success score of a session and the
      success rate of a workflow are computed on doubles: the result of
      each operation is rounded to the nearest double, and the conversion
      of an int too large for a double raises [OverflowError]. The success
      rate of an agent and the metrics of a session are kept as exact
      sums and quotients. The infinities and NaN are not modelled;
    - text is held in a [string], one character of the code points 0 to
      255 per item; [lower] and [split] are Python's on these characters;
    - a Python exception is the [Raise] outcome of a computation. *)

From Stdlib Require Import Ascii QArith Qcanon Qround Qabs Qpower Lqa.
From stdpp Require Import gmap strings list sorting.

Local Open Scope string_scope.
Local Open Scope list_scope.

(** ** Python values and the built-in operations the sources use *)

Module Py.

#[warnings="-register-all"]
Inductive pyval : Type :=
  | PNone
  | PBool (b : bool)
  | PNum (q : Q)
  | PStr (s : string)
  | PList (l : list pyval)
  | PDict (d : list (string * pyval)).

Abbreviation dict := (list (string * pyval)).

Inductive exn : Type :=
  | AttributeError
  | TypeError
  | ValueError
  | JSONDecodeError
  | OverflowError.

Inductive result (A : Type) : Type :=
  | Ok (a : A)
  | Raise (e : exn).
Arguments Ok {A} a.
Arguments Raise {A} e.

Definition rbind {A B} (r : result A) (k : A -> result B) : result B :=
  match r with
  | Ok a => k a
  | Raise e => Raise e
  end.

Declare Scope result_scope.
Delimit Scope result_scope with result.
Notation "x <~ r ; k" := (rbind r (fun x => k))
  (at level 100, r at next level, right associativity) : result_scope.

(** A filter whose predicate may raise; items are tested in order. *)
Fixpoint filter_r {A} (p : A -> result bool) (l : list A) : result (list A) :=
  match l with
  | [] => Ok []
  | x :: l' =>
      (b <~ p x;
       rest <~ filter_r p l';
       Ok (if b then x :: rest else rest))%result
  end.

Fixpoint map_r {A B} (f : A -> result B) (l : list A) : result (list B) :=
  match l with
  | [] => Ok []
  | x :: l' =>
      (y <~ f x;
       rest <~ map_r f l';
       Ok (y :: rest))%result
  end.

(** [bool(v)]: the truth value Python gives to [v]. *)
Definition truthy (v : pyval) : bool :=
  match v with
  | PNone => false
  | PBool b => b
  | PNum q => negb (Qeq_bool q 0)
  | PStr s => negb (String.eqb s "")
  | PList l => match l with [] => false | _ => true end
  | PDict d => match d with [] => false | _ => true end
  end.

(** [d.get(k)] and [d.get(k, default)]. *)
Fixpoint dict_lookup (d : dict) (k : string) : option pyval :=
  match d with
  | [] => None
  | (k', v) :: d' => if String.eqb k' k then Some v else dict_lookup d' k
  end.

Definition dict_get (d : dict) (k : string) (default : pyval) : pyval :=
  match dict_lookup d k with
  | Some v => v
  | None => default
  end.

(** [v.get(k, default)] on an arbitrary value: only a dict has [get]. *)
Definition py_get (v : pyval) (k : string) (default : pyval) : result pyval :=
  match v with
  | PDict d => Ok (dict_get d k default)
  | _ => Raise AttributeError
  end.

(** [v == s] for a string literal [s]. *)
Definition eq_str (v : pyval) (s : string) : bool :=
  match v with
  | PStr t => String.eqb t s
  | _ => false
  end.

(** The numeric value of an int, float or bool; nothing else is a number. *)
Definition as_num (v : pyval) : option Q :=
  match v with
  | PBool true => Some 1%Q
  | PBool false => Some 0%Q
  | PNum q => Some q
  | _ => None
  end.

Fixpoint nums_of (l : list pyval) : option (list Q) :=
  match l with
  | [] => Some []
  | v :: l' =>
      match as_num v, nums_of l' with
      | Some q, Some qs => Some (q :: qs)
      | _, _ => None
      end
  end.

(** [a > b] on rationals, as a boolean. *)
Definition Qgtb (a b : Q) : bool := negb (Qle_bool a b).

(** *** Floats

    A Python [float] and a NumPy [float64] are IEEE 754 binary64 numbers
    (doubles). A double is held as the rational it denotes, and an
    operation on doubles is the exact operation followed by [round64], the
    rounding to the nearest double, ties to the even significand. A
    double has 53 significant bits and its last bit weighs at least
    [2^-1074]; [floor_log2 q] is the exponent [e] with
    [2^e <= |q| < 2^(e+1)]. The exponent of [round64] has no upper bound:
    the infinities are not modelled. *)

Definition pow2 (e : Z) : Q := 2 ^ e.

Definition floor_log2 (q : Q) : Z :=
  let e := (Z.log2 (Z.abs (Qnum q)) - Z.log2 (Zpos (Qden q)))%Z in
  if Qle_bool (pow2 e) (Qabs q) then e else (e - 1)%Z.

Definition round_half_even (x : Q) : Z :=
  let f := Qfloor x in
  match Qcompare (x - inject_Z f)%Q (1 # 2)%Q with
  | Lt => f
  | Gt => (f + 1)%Z
  | Eq => if Z.even f then f else (f + 1)%Z
  end.

Definition round64 (q : Q) : Q :=
  if Qeq_bool q 0 then 0%Q
  else
    let u := Z.max (floor_log2 q - 52) (-1074) in
    Qred (inject_Z (round_half_even (q / pow2 u)) * pow2 u).

(** [float(n)] on a number: an int is rounded to the nearest double, and
    an int that would round to [2^1024] or beyond raises; a float is
    already a double and is returned as it is. *)
Definition overflow_threshold : Q := inject_Z (2 ^ 1024 - 2 ^ 970).

Definition to_float64 (q : Q) : result Q :=
  if Qle_bool overflow_threshold (Qabs q) then Raise OverflowError
  else Ok (round64 q).

(** [l[-n:]]: the last [n] items of [l] (all of [l] when it is shorter). *)
Definition last_n {A} (n : nat) (l : list A) : list A :=
  drop (length l - n) l.

(** *** Strings: [lower], [split], [replace(" ", "_")]

    A character of a [string] is one of the code points 0 to 255. On
    these [str.lower] works character by character: it adds 32 to the
    letters A to Z (65 to 90) and to the letters 192 to 222 other than the
    multiplication sign 215, and keeps every other character. *)

Definition lower_char (c : ascii) : ascii :=
  let n := nat_of_ascii c in
  if ((65 <=? n)%nat && (n <=? 90)%nat)
     || ((192 <=? n)%nat && (n <=? 222)%nat && negb (n =? 215)%nat)
  then ascii_of_nat (n + 32) else c.

Fixpoint py_lower (s : string) : string :=
  match s with
  | EmptyString => EmptyString
  | String c s' => String (lower_char c) (py_lower s')
  end.

(** Whitespace of [str.split()]: tab, newline, vertical tab, form feed,
    carriage return, the separators 28 to 31, the space, the next-line
    character 133 and the no-break space 160. *)
Definition py_isspace (c : ascii) : bool :=
  let n := nat_of_ascii c in
  ((9 <=? n)%nat && (n <=? 13)%nat) || ((28 <=? n)%nat && (n <=? 32)%nat)
  || (n =? 133)%nat || (n =? 160)%nat.

Definition push_word (w : string) (ws : list string) : list string :=
  match w with
  | EmptyString => ws
  | _ => w :: ws
  end.

(** [split_run s] is the word that starts at the head of [s] (empty when
    [s] starts with whitespace) and the words after it. *)
Fixpoint split_run (s : string) : string * list string :=
  match s with
  | EmptyString => (EmptyString, [])
  | String c s' =>
      let '(w, ws) := split_run s' in
      if py_isspace c then (EmptyString, push_word w ws) else (String c w, ws)
  end.

Definition py_split (s : string) : list string :=
  let '(w, ws) := split_run s in push_word w ws.

Fixpoint replace_space (s : string) : string :=
  match s with
  | EmptyString => EmptyString
  | String c s' =>
      String (if Ascii.eqb c " "%char then "_"%char else c) (replace_space s')
  end.

(** [s[:n]] on a string. *)
Fixpoint str_take (n : nat) (s : string) : string :=
  match n, s with
  | S n', String c s' => String c (str_take n' s')
  | _, _ => EmptyString
  end.

(** *** [numpy.median] on a list of values

    NumPy holds a list of numbers below [2^63] in magnitude as an array of
    [int64] or of [float64] and computes the median on doubles: the array
    is sorted, and the median is the middle item, or the mean of the two
    middle items when the length is even, their sum being rounded before
    it is halved. The model converts the items of every list to doubles; a
    list with a larger integer, which NumPy holds as an array of Python
    objects, is outside of what the model follows. A list with an item that
    is not a number raises. *)

Fixpoint insert_sorted (x : Q) (l : list Q) : list Q :=
  match l with
  | [] => [x]
  | y :: l' => if Qle_bool x y then x :: l else y :: insert_sorted x l'
  end.

Definition sort_Q (l : list Q) : list Q := foldr insert_sorted [] l.

(** The order of two numbers in lowest terms, as doubles are held. *)
Definition canon_le (x y : Q) : Prop := (x <= y)%Q ∧ Qred x = x ∧ Qred y = y.

(** [numpy.mean] of two doubles. *)
Definition mean_of_two (a b : Q) : Q := round64 (round64 (a + b) / 2).

(** The median of a list of doubles. *)
Definition median64 (l : list Q) : Q :=
  let s := sort_Q l in
  let n := length s in
  if Nat.even n
  then mean_of_two (nth (n / 2 - 1) s 0%Q) (nth (n / 2) s 0%Q)
  else nth (n / 2) s 0%Q.

Definition np_median (l : list pyval) : result Q :=
  match nums_of l with
  | Some qs => (doubles <~ map_r to_float64 qs; Ok (median64 doubles))%result
  | None => Raise TypeError
  end.

(** [sum(l)] over a list of values, starting from the int 0. *)
Definition py_sum (l : list pyval) : result Q :=
  match nums_of l with
  | Some qs => Ok (foldr Qplus 0%Q qs)
  | None => Raise TypeError
  end.

(** *** Hashable values as dictionary keys

    A list or a dict is unhashable. Python identifies the keys [1], [1.0]
    and [True]; a key is therefore kept as a canonical rational. *)

Inductive pykey : Type :=
  | KNone
  | KNum (q : Qc)
  | KStr (s : string).

Global Instance pykey_eq_dec : EqDecision pykey.
Proof. solve_decision. Defined.

Global Instance pykey_countable : Countable pykey.
Proof.
  refine (inj_countable'
    (fun k => match k with
              | KNone => inl ()
              | KNum q => inr (inl q)
              | KStr s => inr (inr s)
              end)
    (fun x => match x with
              | inl _ => KNone
              | inr (inl q) => KNum q
              | inr (inr s) => KStr s
              end) _).
  by intros [].
Defined.

Definition hash_key (v : pyval) : result pykey :=
  match v with
  | PNone => Ok KNone
  | PBool true => Ok (KNum (Q2Qc 1))
  | PBool false => Ok (KNum (Q2Qc 0))
  | PNum q => Ok (KNum (Q2Qc q))
  | PStr s => Ok (KStr s)
  | PList _ | PDict _ => Raise TypeError
  end.

(** [a == b]. Numbers and bools compare by value, lists item by item,
    dicts by their bindings whatever their order. *)
Fixpoint py_eqb (a b : pyval) : bool :=
  match a, b with
  | PNone, PNone => true
  | PStr s, PStr t => String.eqb s t
  | PBool x, PBool y => Bool.eqb x y
  | PBool x, PNum q => Qeq_bool (if x then 1 else 0) q
  | PNum q, PBool y => Qeq_bool q (if y then 1 else 0)
  | PNum q, PNum r => Qeq_bool q r
  | PList l, PList m =>
      (fix items (l m : list pyval) : bool :=
         match l, m with
         | [], [] => true
         | x :: l', y :: m' => py_eqb x y && items l' m'
         | _, _ => false
         end) l m
  | PDict d, PDict e =>
      (length d =? length e)%nat
      && (fix bindings (d : dict) : bool :=
            match d with
            | [] => true
            | (k, v) :: d' =>
                match dict_lookup e k with
                | Some w => py_eqb v w && bindings d'
                | None => false
                end
            end) d
  | _, _ => false
  end.

(** [{**d, k: v}]: the binding of [k] is replaced where it stands, or added
    at the end. *)
Fixpoint dict_set (d : dict) (k : string) (v : pyval) : dict :=
  match d with
  | [] => [(k, v)]
  | (k', v') :: d' =>
      if String.eqb k' k then (k', v) :: d' else (k', v') :: dict_set d' k v
  end.

(** An int as a value. *)
Definition PInt (n : nat) : pyval := PNum (inject_Z (Z.of_nat n)).

(** [v[:n]]: a string or a list can be sliced; [None], a number or a bool
    cannot (a dict cannot be either: its failure is taken as the same
    exception). *)
Definition py_slice_to (n : nat) (v : pyval) : result pyval :=
  match v with
  | PStr s => Ok (PStr (str_take n s))
  | PList l => Ok (PList (take n l))
  | _ => Raise TypeError
  end.

(** Iterating a value with [for x in v]: a list yields its items, a dict
    its keys, a string its characters; nothing else is iterable. *)
Fixpoint chars_of (s : string) : list pyval :=
  match s with
  | EmptyString => []
  | String c s' => PStr (String c EmptyString) :: chars_of s'
  end.

Definition py_iter (v : pyval) : result (list pyval) :=
  match v with
  | PList l => Ok l
  | PDict d => Ok (map (fun kv => PStr (fst kv)) d)
  | PStr s => Ok (chars_of s)
  | PNone | PBool _ | PNum _ => Raise TypeError
  end.

End Py.

(** ** [src/analysis/log_analyzer.py] *)

Module LogAnalyzer.
Import Py.

(** *** [LogEvent] *)

Record LogEvent : Type := mkLogEvent {
  event_type : pyval;
  session_id : pyval;
  timestamp : pyval;
  data : dict;
  metrics : pyval;
  project_path : pyval
}.

(** The dataclass constructor followed by [__post_init__]: a [metrics] of
    [None] becomes the empty dict. *)
Definition new_LogEvent (event_type session_id timestamp : pyval)
    (data : dict) (metrics : pyval) : LogEvent :=
  {| event_type := event_type;
     session_id := session_id;
     timestamp := timestamp;
     data := data;
     metrics := match metrics with PNone => PDict [] | m => m end;
     project_path := PNone |}.

(** *** Findings *)

Record performance_issue : Type := {
  pi_type : string;
  pi_tool_name : pyval;
  pi_execution_time : pyval;
  pi_baseline : Q;
  pi_severity : string
}.

Record error_pattern : Type := {
  ep_type : string;
  ep_tool_name : pyval;
  ep_error_message : pyval;
  ep_occurrence_count : nat;
  ep_severity : string
}.

Record success_indicator : Type := {
  si_type : string;
  si_agent_name : pyval;
  si_success_rate : Q;
  si_sample_size : nat
}.

Record anomaly : Type := {
  an_type : string;
  an_session_duration : pyval;
  an_baseline_median : Q;
  an_severity : string
}.

Record event_analysis : Type := {
  performance_issues : list performance_issue;
  error_patterns : list error_pattern;
  success_indicators : list success_indicator;
  anomalies : list anomaly
}.

(** *** [PatternDetector]: its state and the monad of its methods

    [command_timings] and [agent_success_rates] are [defaultdict(list)]:
    a key that was never written reads as the empty list.
    [recent_events] is the [deque(maxlen=1000)], oldest event first.
    The attribute [session_patterns] is set by [__init__] and never read
    or written again; it is left out. *)

Record PatternDetector : Type := mkPatternDetector {
  command_timings : gmap pykey (list pyval);
  agent_success_rates : gmap pykey (list pyval);
  recent_events : list LogEvent
}.

(** [PatternDetector.__init__]. *)
Definition init : PatternDetector :=
  {| command_timings := ∅; agent_success_rates := ∅; recent_events := [] |}.

(** A method runs on the detector, returns a value or raises, and leaves
    the detector as it mutated it up to that point. *)
Definition M (A : Type) : Type := PatternDetector -> result A * PatternDetector.

Definition ret {A} (a : A) : M A := fun self => (Ok a, self).

Definition bind {A B} (m : M A) (k : A -> M B) : M B :=
  fun self =>
    match m self with
    | (Ok a, self') => k a self'
    | (Raise e, self') => (Raise e, self')
    end.

Definition lift {A} (r : result A) : M A := fun self => (r, self).

Definition get_self : M PatternDetector := fun self => (Ok self, self).

Declare Scope det_scope.
Delimit Scope det_scope with det.
Notation "'do' x <- m ; k" := (bind m (fun x => k))
  (at level 10, x name, m at level 100, k at level 200) : det_scope.
Local Open Scope det_scope.

Definition history (m : gmap pykey (list pyval)) (k : pykey) : list pyval :=
  default [] (m !! k).

(** [self.command_timings[k].append(v)]; returns the list after the append. *)
Definition append_timing (k : pykey) (v : pyval) : M (list pyval) :=
  fun self =>
    let l := history (command_timings self) k ++ [v] in
    (Ok l, {| command_timings := <[k := l]> (command_timings self);
              agent_success_rates := agent_success_rates self;
              recent_events := recent_events self |}).

(** [self.agent_success_rates[k].append(v)]. *)
Definition append_success (k : pykey) (v : pyval) : M (list pyval) :=
  fun self =>
    let l := history (agent_success_rates self) k ++ [v] in
    (Ok l, {| command_timings := command_timings self;
              agent_success_rates := <[k := l]> (agent_success_rates self);
              recent_events := recent_events self |}).

(** [self.recent_events.append(event)] on the deque of capacity 1000. *)
Definition maxlen : nat := 1000.

Definition append_recent (event : LogEvent) : M unit :=
  fun self =>
    (Ok tt, {| command_timings := command_timings self;
               agent_success_rates := agent_success_rates self;
               recent_events := last_n maxlen (recent_events self ++ [event]) |}).

(** *** [_similarity_score] *)

(** [set(text.lower().split())]; a value that is not a string has no
    [lower]. *)
Definition word_set (s : string) : gset string :=
  list_to_set (py_split (py_lower s)).

Definition words_of (text : pyval) : result (gset string) :=
  match text with
  | PStr s => Ok (word_set s)
  | _ => Raise AttributeError
  end.

Definition is_empty_set (X : gset string) : bool := bool_decide (X = ∅).

Definition jaccard (words1 words2 : gset string) : Q :=
  if is_empty_set words1 || is_empty_set words2 then 0%Q
  else
    let intersection := words1 ∩ words2 in
    let union := words1 ∪ words2 in
    if is_empty_set union then 0%Q
    else (inject_Z (Z.of_nat (size intersection))
          / inject_Z (Z.of_nat (size union)))%Q.

Definition _similarity_score (text1 text2 : pyval) : result Q :=
  (words1 <~ words_of text1;
   words2 <~ words_of text2;
   Ok (jaccard words1 words2))%result.

(** The score of two strings, which [_similarity_score] returns on them. *)
Definition similarity (a b : string) : Q := jaccard (word_set a) (word_set b).

(** *** [_detect_performance_issues]

    The baseline is a [numpy.float64]: the comparison converts the
    execution time to a double, and the products [baseline * 2] and
    [baseline * 3] are rounded. *)

Definition _detect_performance_issues (event : LogEvent)
    : M (list performance_issue) :=
  if eq_str (event_type event) "tool_use" && truthy (metrics event) then
    do execution_time <- lift (py_get (metrics event) "execution_time" (PNum 0));
    let tool_name := dict_get (data event) "tool_name" (PStr "unknown") in
    do k <- lift (hash_key tool_name);
    do timings <- append_timing k execution_time;
    let recent_timings := last_n 20 timings in
    if (5 <? length recent_timings)%nat then
      do baseline <- lift (np_median recent_timings);
      match as_num execution_time with
      | None => lift (Raise TypeError)
      | Some t =>
          do time <- lift (to_float64 t);
          if Qgtb time (round64 (baseline * 2)) then
            ret [ {| pi_type := "slow_tool_execution";
                     pi_tool_name := tool_name;
                     pi_execution_time := execution_time;
                     pi_baseline := baseline;
                     pi_severity :=
                       if Qgtb time (round64 (baseline * 3))
                       then "high" else "medium" |} ]
          else ret []
      end
    else ret []
  else ret [].

(** *** [_detect_error_patterns] *)

Definition is_similar_error (error_msg : pyval) (e : LogEvent) : result bool :=
  if eq_str (event_type e) "tool_use"
     && truthy (dict_get (data e) "error" PNone)
  then (score <~ _similarity_score (dict_get (data e) "error" PNone) error_msg;
        Ok (Qgtb score (8 # 10)))%result
  else Ok false.

Definition _detect_error_patterns (event : LogEvent) : M (list error_pattern) :=
  if eq_str (event_type event) "tool_use"
     && truthy (dict_get (data event) "error" PNone)
  then
    let error_msg := dict_get (data event) "error" PNone in
    let tool_name := dict_get (data event) "tool_name" (PStr "unknown") in
    do self <- get_self;
    do similar_errors <- lift (filter_r (is_similar_error error_msg)
                                        (recent_events self));
    if (3 <? length similar_errors)%nat then
      ret [ {| ep_type := "recurring_error";
               ep_tool_name := tool_name;
               ep_error_message := error_msg;
               ep_occurrence_count := length similar_errors;
               ep_severity := "high" |} ]
    else ret []
  else ret [].

(** *** [_detect_success_indicators] *)

Definition _detect_success_indicators (event : LogEvent)
    : M (list success_indicator) :=
  if eq_str (event_type event) "agent_complete" then
    let agent_name := dict_get (data event) "agent_name" (PStr "unknown") in
    let success := dict_get (data event) "success" (PBool false) in
    do k <- lift (hash_key agent_name);
    do rates <- append_success k success;
    let recent_successes := last_n 10 rates in
    if (5 <=? length recent_successes)%nat then
      do total <- lift (py_sum recent_successes);
      let success_rate :=
        (total / inject_Z (Z.of_nat (length recent_successes)))%Q in
      if Qgtb success_rate (8 # 10) then
        ret [ {| si_type := "high_success_agent";
                 si_agent_name := agent_name;
                 si_success_rate := success_rate;
                 si_sample_size := length recent_successes |} ]
      else ret []
    else ret []
  else ret [].

(** *** [_detect_anomalies], [analyze_event], [analyze_log_file]

    [is_outlier samples x] stands for scikit-learn's
    [IsolationForest(contamination=0.1, random_state=42)] fitted on
    [samples] and asked whether it predicts [-1] for [x]. *)

Section Analyze.
Variable is_outlier : list Q -> Q -> bool.

Definition session_duration_of (e : LogEvent) : result pyval :=
  py_get (metrics e) "session_duration" (PNum 0).

Definition has_duration (e : LogEvent) : bool :=
  eq_str (event_type e) "session_end" && truthy (metrics e).

Definition _detect_anomalies (event : LogEvent) : M (list anomaly) :=
  if eq_str (event_type event) "session_end" then
    do session_duration <- lift (session_duration_of event);
    do self <- get_self;
    do recent_durations <-
      lift (map_r session_duration_of
                  (filter (fun e => has_duration e = true) (recent_events self)));
    if (10 <? length recent_durations)%nat then
      match nums_of recent_durations, as_num session_duration with
      | Some samples, Some x =>
          if is_outlier samples x then
            do baseline_median <- lift (np_median recent_durations);
            ret [ {| an_type := "unusual_session_duration";
                     an_session_duration := session_duration;
                     an_baseline_median := baseline_median;
                     an_severity := "medium" |} ]
          else ret []
      | _, _ => lift (Raise ValueError)
      end
    else ret []
  else ret [].

Definition analyze_event (event : LogEvent) : M event_analysis :=
  do _u <- append_recent event;
  do perf <- _detect_performance_issues event;
  do errs <- _detect_error_patterns event;
  do succ <- _detect_success_indicators event;
  do anom <- _detect_anomalies event;
  ret {| performance_issues := perf;
         error_patterns := errs;
         success_indicators := succ;
         anomalies := anom |}.

(** [any(event_analysis.values())]. *)
Definition any_values (a : event_analysis) : bool :=
  negb (bool_decide (performance_issues a = []))
  || negb (bool_decide (error_patterns a = []))
  || negb (bool_decide (success_indicators a = []))
  || negb (bool_decide (anomalies a = [])).

(** What opening and parsing the log file gave. *)
Inductive log_file : Type :=
  | FileMissing
  | FileNotJson
  | FileJson (log_data : pyval).

(** The result dict of [analyze_log_file]. Its ['recommendations'] entry is
    computed from ['patterns'] alone and is left out. *)
Inductive analysis_results : Type :=
  | LogFileNotFound
  | FailedToAnalyze (e : exn)
  | Results (event_count : nat) (patterns : list (LogEvent * event_analysis)).

(** The conversion loop; [now i] is the clock text read for entry [i]. *)
Definition event_of_entry (now : string) (entry : pyval) : option LogEvent :=
  match entry with
  | PDict d =>
      Some (new_LogEvent (dict_get d "event_type" (PStr "unknown"))
                         (dict_get d "session_id" (PStr "unknown"))
                         (dict_get d "timestamp" (PStr now))
                         d
                         (dict_get d "metrics" (PDict [])))
  | _ => None
  end.

Fixpoint events_of (now : nat -> string) (i : nat) (entries : list pyval)
    : list LogEvent :=
  match entries with
  | [] => []
  | entry :: rest =>
      match event_of_entry (now i) entry with
      | Some ev => ev :: events_of now (S i) rest
      | None => events_of now (S i) rest
      end
  end.

(** The analysis loop over the converted events. *)
Fixpoint analyze_events (events : list LogEvent)
    : M (list (LogEvent * event_analysis)) :=
  match events with
  | [] => ret []
  | event :: rest =>
      do event_analysis <- analyze_event event;
      do patterns <- analyze_events rest;
      ret (if any_values event_analysis
           then (event, event_analysis) :: patterns
           else patterns)
  end.

(** [LogAnalyzer.analyze_log_file]: the detector of the analyzer is the
    state; every exception of the body ends in the handler at the end. *)
Definition analyze_log_file (now : nat -> string) (file : log_file)
    (pattern_detector : PatternDetector) : analysis_results * PatternDetector :=
  match file with
  | FileMissing => (LogFileNotFound, pattern_detector)
  | FileNotJson => (FailedToAnalyze JSONDecodeError, pattern_detector)
  | FileJson log_data =>
      match py_iter log_data with
      | Raise e => (FailedToAnalyze e, pattern_detector)
      | Ok entries =>
          let events := events_of now 0 entries in
          match analyze_events events pattern_detector with
          | (Ok patterns, detector') =>
              (Results (length events) patterns, detector')
          | (Raise e, detector') => (FailedToAnalyze e, detector')
          end
      end
  end.

(** A caller that feeds a stream to [analyze_event] one event at a time:
    the detector after the stream, and the result of each call. *)
Definition run (events : list LogEvent) (self : PatternDetector)
    : PatternDetector :=
  fold_left (fun st event => snd (analyze_event event st)) events self.

Fixpoint run_results (events : list LogEvent) (self : PatternDetector)
    : list (result event_analysis) :=
  match events with
  | [] => []
  | event :: rest =>
      let '(r, self') := analyze_event event self in
      r :: run_results rest self'
  end.

End Analyze.

(** *** Conditions on events, as the statements below use them *)

(** A [tool_use] event whose metrics dict holds the execution time [v]. *)
Definition timed (event : LogEvent) (v : pyval) : Prop :=
  event_type event = PStr "tool_use"
  ∧ ∃ m, metrics event = PDict m ∧ dict_lookup m "execution_time" = Some v.

(** A [tool_use] event whose metrics dict is not empty and has no
    execution time. *)
Definition untimed (event : LogEvent) : Prop :=
  event_type event = PStr "tool_use"
  ∧ ∃ m, metrics event = PDict m ∧ m ≠ []
         ∧ dict_lookup m "execution_time" = None.

(** The tool name of the event hashes to the key [k]. *)
Definition tool_key (event : LogEvent) (k : pykey) : Prop :=
  hash_key (dict_get (data event) "tool_name" (PStr "unknown")) = Ok k.

(** An [agent_complete] event of the agent with key [k] and flag [v]. *)
Definition completes (event : LogEvent) (k : pykey) (v : pyval) : Prop :=
  event_type event = PStr "agent_complete"
  ∧ hash_key (dict_get (data event) "agent_name" (PStr "unknown")) = Ok k
  ∧ dict_get (data event) "success" (PBool false) = v.

(** A [tool_use] event whose error field is the non-empty text [msg]. *)
Definition fails_with (event : LogEvent) (msg : string) : Prop :=
  event_type event = PStr "tool_use"
  ∧ dict_lookup (data event) "error" = Some (PStr msg)
  ∧ msg ≠ "".

(** Every error field of the window that the error detector reads is text. *)
Definition errors_are_text (window : list LogEvent) : Prop :=
  ∀ e, e ∈ window →
    eq_str (event_type e) "tool_use"
    && truthy (dict_get (data e) "error" PNone) = true →
    ∃ s, dict_get (data e) "error" PNone = PStr s.

(** Every timing stored by the detector is a number; the execution time of
    an event, when its metrics hold one, is a number. *)
Definition numeric_timings (self : PatternDetector) : Prop :=
  ∀ k, ∃ qs, nums_of (history (command_timings self) k) = Some qs.

Definition numeric_time (event : LogEvent) : Prop :=
  ∀ m v, metrics event = PDict m → dict_lookup m "execution_time" = Some v →
         ∃ t, as_num v = Some t.

(** A number below [2^63] in magnitude, which NumPy holds as an [int64]
    or as a [float64]. *)
Definition in_range (q : Q) : Prop := (Qabs q < inject_Z (2 ^ 63))%Q.

(** A whole number below [2^50] in magnitude. *)
Definition small_whole (q : Q) : Prop :=
  ∃ z : Z, q = inject_Z z ∧ (Z.abs z < 2 ^ 50)%Z.

(** [b] is the median of the numbers [qs] as NumPy computes it: the
    doubles of the numbers are put in order, and [b] is the middle one or,
    for an even count, the mean of the two middle ones, their sum rounded
    and then halved. *)
Definition median_of_doubles (qs : list Q) (b : Q) : Prop :=
  ∃ s, s ≡ₚ map round64 qs ∧ StronglySorted Qle s
       ∧ b = (if Nat.even (length qs)
              then round64 (round64 (nth (length qs / 2 - 1) s 0
                                     + nth (length qs / 2) s 0) / 2)
              else nth (length qs / 2) s 0)%Q.

(** [b] is the median of the numbers [qs] in exact arithmetic. *)
Definition exact_median (qs : list Q) (b : Q) : Prop :=
  ∃ s, s ≡ₚ qs ∧ StronglySorted Qle s
       ∧ (b == if Nat.even (length qs)
               then (nth (length qs / 2 - 1) s 0 + nth (length qs / 2) s 0) / 2
               else nth (length qs / 2) s 0)%Q.

(** The claim that, from 6 recorded timings on, a slow execution is
    reported exactly when the time exceeds twice the median of the last 20
    timings, with severity high exactly when it exceeds three times that
    median, the numbers being compared as they are. *)
Definition exact_slow_rule : Prop :=
  ∀ event v k self t qs baseline,
    timed event v → tool_key event k → as_num v = Some t →
    nums_of (last_n 20 (history (command_timings self) k ++ [v])) = Some qs →
    (6 <= length (history (command_timings self) k ++ [v]))%nat →
    exact_median qs baseline →
    ∃ issues,
      fst (_detect_performance_issues event self) = Ok issues
      ∧ (issues ≠ [] ↔ (baseline * 2 < t)%Q)
      ∧ ∀ i, i ∈ issues → (pi_severity i = "high" ↔ (baseline * 3 < t)%Q).


(** The claim that the stored histories never exceed their bounds. *)
Definition histories_bounded (self : PatternDetector) : Prop :=
  ∀ k, (length (history (command_timings self) k) <= 20)%nat
       ∧ (length (history (agent_success_rates self) k) <= 10)%nat.

(** The claim that a default 0 recorded for a tool is among the timings of
    every later baseline of that tool. *)
Definition zero_stays_in_baseline (is_outlier : list Q -> Q -> bool) : Prop :=
  ∀ event k self events,
    untimed event → tool_key event k →
    PNum 0 ∈ last_n 20
      (history (command_timings
                  (run is_outlier events
                       (snd (analyze_event is_outlier event self)))) k).

(** *** Text, as the statements on the similarity score use it *)

Fixpoint chars (s : string) : list ascii :=
  match s with
  | EmptyString => []
  | String c s' => c :: chars s'
  end.

(** The whitespace characters below code point 256. *)
Definition whitespace : list nat :=
  [9; 10; 11; 12; 13; 28; 29; 30; 31; 32; 133; 160]%nat.

Definition is_blank (c : ascii) : Prop := nat_of_ascii c ∈ whitespace.

(** [d] is the lower-case letter of the upper-case letter [c]. *)
Definition upper_lower (c d : ascii) : Prop :=
  ((65 <= nat_of_ascii c <= 90)%nat
   ∨ ((192 <= nat_of_ascii c <= 222)%nat ∧ nat_of_ascii c ≠ 215%nat))
  ∧ nat_of_ascii d = (nat_of_ascii c + 32)%nat.

Definition no_upper (c : ascii) : Prop := ∀ d, ¬ upper_lower c d.

(** Two texts that differ in the case of their letters only. *)
Definition same_letter (c d : ascii) : Prop :=
  c = d ∨ upper_lower c d ∨ upper_lower d c.

Definition same_up_to_case (a b : string) : Prop :=
  Forall2 same_letter (chars a) (chars b).

(** A word: a text that is not empty and has no whitespace. *)
Definition is_word (w : string) : Prop :=
  w ≠ "" ∧ Forall (λ c, ¬ is_blank c) (chars w).

(** The test of the error detector on an event of a window whose error
    fields are text: a [tool_use] event with a non-empty error that scores
    above 0.8 against [msg]. *)
Definition similar_to (msg : string) (e : LogEvent) : bool :=
  eq_str (event_type e) "tool_use"
  && match dict_get (data e) "error" PNone with
     | PStr s => negb (String.eqb s "") && Qgtb (similarity s msg) (8 # 10)
     | _ => false
     end.

(** The claim that four [tool_use] events with one and the same non-empty
    error text make the fourth call report a recurring error. *)
Definition identical_errors_recur (is_outlier : list Q -> Q -> bool) : Prop :=
  ∀ (tool msg : string), msg ≠ "" →
    ∃ a p,
      last (run_results is_outlier
              (repeat (new_LogEvent (PStr "tool_use") (PStr "s1") (PStr "t")
                         [ ("event_type", PStr "tool_use");
                           ("tool_name", PStr tool); ("error", PStr msg) ]
                         (PDict [])) 4) init)
      = Some (Ok a)
      ∧ error_patterns a = [p]
      ∧ ep_type p = "recurring_error"
      ∧ (4 <= ep_occurrence_count p)%nat.

(** The claim that an exception of a detector never ends the analysis of
    a log: every log of entries is analysed to a result with its patterns. *)
Definition stream_never_aborted (is_outlier : list Q -> Q -> bool) : Prop :=
  ∀ now entries self,
    ∃ n patterns,
      fst (analyze_log_file is_outlier now (FileJson (PList entries)) self)
      = Results n patterns.

End LogAnalyzer.

(** ** Sample inputs *)

Module Samples.
Import Py LogAnalyzer.

(** A [tool_use] entry of tool [tool] that took [t] seconds. *)
Definition timed_tool_use (tool : string) (t : Q) : LogEvent :=
  new_LogEvent (PStr "tool_use") (PStr "s1") (PStr "2025-01-10T10:00:00Z")
    [ ("event_type", PStr "tool_use"); ("tool_name", PStr tool);
      ("metrics", PDict [ ("execution_time", PNum t) ]) ]
    (PDict [ ("execution_time", PNum t) ]).

(** A [tool_use] entry of tool [tool] that failed with [error]. *)
Definition failed_tool_use (tool : string) (error : pyval) : LogEvent :=
  new_LogEvent (PStr "tool_use") (PStr "s1") (PStr "2025-01-10T10:00:00Z")
    [ ("event_type", PStr "tool_use"); ("tool_name", PStr tool);
      ("error", error) ]
    (PDict []).

(** The texts [ÉCHEC DISQUE] and [échec disque]: É is the character 201
    and é the character 233. *)
Definition echec_upper : string :=
  String "201" "CHEC DISQUE".
Definition echec_lower : string :=
  String "233" "chec disque".

(** [Full], a tab, [disk now]. *)
Definition tabbed : string := "Full" +:+ String "009" "disk now".

(** A [tool_use] entry whose metrics carry a memory figure only. *)
Definition untimed_tool_use (tool : string) : LogEvent :=
  new_LogEvent (PStr "tool_use") (PStr "s1") (PStr "2025-01-10T10:00:00Z")
    [ ("event_type", PStr "tool_use"); ("tool_name", PStr tool);
      ("metrics", PDict [ ("memory_mb", PNum 12) ]) ]
    (PDict [ ("memory_mb", PNum 12) ]).

(** An [agent_complete] entry of agent [agent] with the given flag. *)
Definition agent_complete (agent : string) (success : pyval) : LogEvent :=
  new_LogEvent (PStr "agent_complete") (PStr "s1") (PStr "2025-01-10T10:00:00Z")
    [ ("event_type", PStr "agent_complete"); ("agent_name", PStr agent);
      ("success", success) ]
    (PDict []).

(** The doubles that Python prints as [0.1] and [0.30000000000000004]. *)
Definition tenth : Q := 3602879701896397 # 36028797018963968.
Definition three_tenths : Q := 1351079888211149 # 4503599627370496.

(** An outlier test that flags nothing. *)
Definition no_outlier (samples : list Q) (x : Q) : bool := false.

(** Log entries as [json.load] gives them. *)
Definition failed_entry (tool : string) (error : pyval) : pyval :=
  PDict [ ("event_type", PStr "tool_use"); ("session_id", PStr "s1");
          ("timestamp", PStr "2025-01-10T10:00:00Z");
          ("tool_name", PStr tool); ("error", error) ].

Definition clock (i : nat) : string := "2025-01-10T12:00:00".

End Samples.

(** ** [src/hooks/session_improvement.py]

    The passes build plain dicts, and so does the embedding. *)

Module SessionImprovement.
Import Py.

Section Passes.

(** [str(v)] for a value that is neither a string, [None] nor a bool (the
    text of a number, a list or a dict). *)
Variable repr_value : pyval -> string.

(** [hashlib.md5(json.dumps(tools).encode()).hexdigest()[:8]]. *)
Variable md5_hex8 : list pyval -> string.

(** [str(v)], as an f-string formats [v]. *)
Definition py_str (v : pyval) : string :=
  match v with
  | PStr s => s
  | PNone => "None"
  | PBool true => "True"
  | PBool false => "False"
  | _ => repr_value v
  end.

Definition tool_name_of (log : dict) : pyval := dict_get log "tool_name" PNone.

(** *** [detect_patterns] *)

(** [(logs[i], logs[i+1], logs[i+2])] for [i] in [range(len(logs) - 2)]. *)
Fixpoint windows3 (logs : list dict) : list (dict * dict * dict) :=
  match logs with
  | a :: rest =>
      match rest with
      | b :: c :: _ => (a, b, c) :: windows3 rest
      | _ => []
      end
  | [] => []
  end.

Abbreviation triple := (pyval * pyval * pyval)%type.
Abbreviation key3 := (pykey * pykey * pykey)%type.

(** The first loop: the tuples appended to [tool_sequences]. *)
Definition tool_triple (w : dict * dict * dict) : option triple :=
  let '(a, b, c) := w in
  if truthy (tool_name_of a) && truthy (tool_name_of b)
     && truthy (tool_name_of c)
  then Some (tool_name_of a, tool_name_of b, tool_name_of c)
  else None.

Definition tool_sequences_of (logs : list dict) : list triple :=
  omap tool_triple (windows3 logs).

(** [Counter(tool_sequences)]: one entry per distinct tuple, in the order
    of first occurrence, keeping the tuple that came first. *)
Definition hash_triple (t : triple) : result key3 :=
  let '(a, b, c) := t in
  (ka <~ hash_key a; kb <~ hash_key b; kc <~ hash_key c; Ok (ka, kb, kc))%result.

Fixpoint counter_add (k : key3) (t : triple) (acc : list (key3 * triple * nat))
    : list (key3 * triple * nat) :=
  match acc with
  | [] => [(k, t, 1%nat)]
  | (k', t', n) :: acc' =>
      if decide (k' = k) then (k', t', S n) :: acc'
      else (k', t', n) :: counter_add k t acc'
  end.

Fixpoint Counter_from (acc : list (key3 * triple * nat)) (l : list triple)
    : result (list (key3 * triple * nat)) :=
  match l with
  | [] => Ok acc
  | t :: l' => (k <~ hash_triple t; Counter_from (counter_add k t acc) l')%result
  end.

Definition Counter (l : list triple) : result (list (key3 * triple * nat)) :=
  Counter_from [] l.

Definition suggested_name (sequence : triple) : string :=
  let '(first, _, last) := sequence in
  replace_space (py_lower (py_str first +:+ "_" +:+ py_str last +:+ "_flow")).

Definition tool_sequence_pattern (sequence : triple) (count : nat) : pyval :=
  let '(first, second, last) := sequence in
  PDict [ ("type", PStr "tool_sequence");
          ("sequence", PList [first; second; last]);
          ("occurrences", PInt count);
          ("potential_command", PBool true);
          ("suggested_name", PStr (suggested_name sequence)) ].

Definition repeated_sequences (counts : list (key3 * triple * nat)) : list pyval :=
  omap (fun '(_, sequence, count) =>
          if (2 <=? count)%nat then Some (tool_sequence_pattern sequence count)
          else None) counts.

(** [v == False]. *)
Definition is_False (v : pyval) : bool := py_eqb v (PBool false).

Definition error_retry_pattern (log : dict) : pyval :=
  PDict [ ("type", PStr "error_retry");
          ("tool", tool_name_of log);
          ("error", dict_get log "error" (PStr "Unknown error"));
          ("potential_hook", PBool true);
          ("suggested_improvement", PStr "Add validation or error prevention") ].

(** The second loop runs over the same index range as the first. *)
Definition error_retries (logs : list dict) : list pyval :=
  omap (fun '(a, b, _) =>
          if is_False (dict_get a "success" PNone)
             && py_eqb (tool_name_of b) (tool_name_of a)
          then Some (error_retry_pattern a) else None) (windows3 logs).

Definition detect_patterns (logs : list dict) : result (list pyval) :=
  (sequence_counts <~ Counter (tool_sequences_of logs);
   Ok (repeated_sequences sequence_counts ++ error_retries logs))%result.

(** *** [find_tool_sequences]

    The success rate is the quotient of two ints, which Python rounds to
    the nearest double. *)

Definition sequence_entry (log : dict) : dict :=
  [ ("tool", tool_name_of log);
    ("success", dict_get log "success" (PBool true));
    ("timestamp", dict_get log "timestamp" PNone) ].

Definition entry_tools (current_sequence : list dict) : list pyval :=
  map (fun t => dict_get t "tool" PNone) current_sequence.

Definition count_successes (current_sequence : list dict) : nat :=
  length (filter (fun t => truthy (dict_get t "success" PNone) = true)
                 current_sequence).

Definition workflow_record (current_sequence : list dict) : pyval :=
  PDict [ ("id", PStr (md5_hex8 (entry_tools current_sequence)));
          ("length", PInt (length current_sequence));
          ("tools", PList (entry_tools current_sequence));
          ("success_rate",
            PNum (round64
                    (inject_Z (Z.of_nat (count_successes current_sequence))
                     / inject_Z (Z.of_nat (length current_sequence)))));
          ("potential_agent", PBool true) ].

(** One turn of the loop on the pair [(sequences, current_sequence)]. *)
Definition tool_step (st : list pyval * list dict) (log : dict)
    : list pyval * list dict :=
  let '(sequences, current_sequence) := st in
  if truthy (tool_name_of log) then
    let current_sequence := current_sequence ++ [sequence_entry log] in
    if (5 <=? length current_sequence)%nat then
      (sequences ++ [workflow_record current_sequence],
       last_n 2 current_sequence)
    else (sequences, current_sequence)
  else (sequences, current_sequence).

Definition find_tool_sequences (logs : list dict) : list pyval :=
  fst (fold_left tool_step logs ([], [])).

(** *** [find_error_patterns] *)

Definition is_failure (log : dict) : bool :=
  negb (truthy (dict_get log "success" (PBool true))).

(** The f-string that keys [error_groups]. *)
Definition error_key_of (log : dict) : result string :=
  (head50 <~ py_slice_to 50 (dict_get log "error" (PStr "unknown"));
   Ok (py_str (dict_get log "tool_name" PNone) +:+ ":" +:+ py_str head50))%result.

Definition new_group (log : dict) : dict :=
  [ ("tool", dict_get log "tool_name" PNone);
    ("error", dict_get log "error" PNone);
    ("occurrences", PInt 0);
    ("timestamps", PList []) ].

(** [occurrences += 1] and [timestamps.append(ts)] on a group; the count is
    kept beside the dict to avoid reading it back. *)
Definition bump_group (g : dict * nat * list pyval) (ts : pyval)
    : dict * nat * list pyval :=
  let '(d, n, tss) := g in
  (dict_set (dict_set d "occurrences" (PInt (S n)))
            "timestamps" (PList (tss ++ [ts])),
   S n, tss ++ [ts]).

Fixpoint group_add (key : string) (log : dict)
    (groups : list (string * (dict * nat * list pyval)))
    : list (string * (dict * nat * list pyval)) :=
  match groups with
  | [] => [(key, bump_group (new_group log, 0%nat, [])
                            (dict_get log "timestamp" PNone))]
  | (key', g) :: groups' =>
      if String.eqb key' key
      then (key', bump_group g (dict_get log "timestamp" PNone)) :: groups'
      else (key', g) :: group_add key log groups'
  end.

Fixpoint error_groups_from (groups : list (string * (dict * nat * list pyval)))
    (logs : list dict)
    : result (list (string * (dict * nat * list pyval))) :=
  match logs with
  | [] => Ok groups
  | log :: logs' =>
      if is_failure log then
        (key <~ error_key_of log;
         error_groups_from (group_add key log groups) logs')%result
      else error_groups_from groups logs'
  end.

Definition error_pattern_of (g : dict * nat * list pyval) : result pyval :=
  let '(error_data, _, _) := g in
  (head100 <~ py_slice_to 100 (dict_get error_data "error" PNone);
   Ok (PDict (error_data ++
              [ ("potential_hook", PBool true);
                ("suggested_hook_type", PStr "PreToolUse");
                ("recommendation",
                  PStr ("Add validation to prevent '" +:+ py_str head100 +:+ "'")) ])))%result.

Definition find_error_patterns (logs : list dict) : result (list pyval) :=
  (error_groups <~ error_groups_from [] logs;
   map_r (fun kg => error_pattern_of (snd kg))
         (filter (fun kg => (2 <= snd (fst (snd kg)))%nat) error_groups))%result.

(** *** [calculate_session_metrics] *)

Definition has_tool (log : dict) : bool := truthy (tool_name_of log).

Definition execution_time_of (log : dict) : pyval :=
  dict_get log "execution_time" (PNum 0).

(** [max(tool_logs, key=...)]: the first log with the greatest key; [best]
    and [kbest] are the maximum so far. *)
Fixpoint max_from (best : dict) (kbest : Q) (l : list (dict * Q)) : dict :=
  match l with
  | [] => best
  | (log, k) :: l' =>
      if Qgtb k kbest then max_from log k l' else max_from best kbest l'
  end.

(** Once some key is a number, [max] raises as soon as it meets a key of
    another kind, whatever the position of that key. *)
Definition py_max_by_time (tool_logs : list dict) : result dict :=
  match tool_logs, nums_of (map execution_time_of tool_logs) with
  | log :: rest, Some (k :: ks) => Ok (max_from log k (zip rest ks))
  | _, _ => Raise TypeError
  end.

Definition metrics_dict (total unique : nat) (error_rate total_time average : Q)
    (longest : pyval) : pyval :=
  PDict [ ("total_tools_used", PInt total);
          ("unique_tools", PInt unique);
          ("error_rate", PNum error_rate);
          ("total_execution_time", PNum total_time);
          ("average_execution_time", PNum average);
          ("longest_operation", longest) ].

Definition calculate_session_metrics (logs : list dict) : result pyval :=
  let tool_logs := filter (fun log => has_tool log = true) logs in
  let total := length tool_logs in
  (keys <~ map_r (fun log => hash_key (tool_name_of log)) tool_logs;
   let unique := size (list_to_set keys : gset pykey) in
   match tool_logs with
   | [] => Ok (metrics_dict total unique 0 0 0 PNone)
   | _ =>
       let error_count :=
         length (filter (fun log => is_failure log = true) tool_logs) in
       let error_rate :=
         (inject_Z (Z.of_nat error_count) / inject_Z (Z.of_nat total))%Q in
       let execution_times :=
         filter (fun t => truthy t = true)
                (map (fun log => dict_get log "execution_time" PNone) tool_logs) in
       match execution_times with
       | [] => Ok (metrics_dict total unique error_rate 0 0 PNone)
       | _ =>
           total_time <~ py_sum execution_times;
           let average :=
             (total_time / inject_Z (Z.of_nat (length execution_times)))%Q in
           max_time_log <~ py_max_by_time tool_logs;
           Ok (metrics_dict total unique error_rate total_time average
                 (PDict [ ("tool", tool_name_of max_time_log);
                          ("time", execution_time_of max_time_log) ]))
       end
   end)%result.

(** *** Closed forms used in the statements below *)

(** The number of workflow records that [n] tool-bearing events give. *)
Definition workflow_count (n : nat) : nat :=
  if (n <? 5)%nat then 0%nat else S ((n - 5) / 3).

(** The entries of the tool-bearing events of a session, in order. *)
Definition tool_entries (logs : list dict) : list dict :=
  map sequence_entry (filter (fun log => has_tool log = true) logs).

(** [t] hashes to the key [k]; the number of tuples of [l] that do. *)
Definition has_key (k : key3) (t : triple) : bool :=
  match hash_triple t with
  | Ok k' => bool_decide (k' = k)
  | Raise _ => false
  end.

Definition occurrences (k : key3) (l : list triple) : nat :=
  length (filter (fun t => has_key k t = true) l).

(** The count that a [Counter] holds for the key [k]. *)
Fixpoint counted (k : key3) (acc : list (key3 * triple * nat)) : nat :=
  match acc with
  | [] => 0%nat
  | (k', _, n) :: acc' => if decide (k' = k) then n else counted k acc'
  end.

(** The keys of a [Counter], and the property that each of its entries
    holds a tuple that hashes to the key of the entry. *)
Definition keys_of (acc : list (key3 * triple * nat)) : list key3 :=
  map (fun x => fst (fst x)) acc.

Definition entries_hashed (acc : list (key3 * triple * nat)) : Prop :=
  ∀ k t n, (k, t, n) ∈ acc → hash_triple t = Ok k.

(** *** The files under [~/.claude/logs] and the clock

    A file of the directory is absent from [files], unreadable (an
    [IOError] or a [JSONDecodeError] on reading it) or holds a JSON value.
    [datetime.now()] reads [time] and lets it advance. A write fails with
    an [IOError] when [write_fails] is set, in the way that [failure]
    tells: at the opening of the file, which is then left as it was, or
    after the opening, which has emptied the file; what was written
    before the failure is then a part of the text, which does not parse,
    or, when the failure comes with the closing of the file, all of it. *)

Inductive file_content : Type :=
  | Unreadable
  | Json (v : pyval).

Inductive write_failure : Type :=
  | AtOpen
  | AfterOpen (complete : bool).

Record world : Type := mkWorld {
  files : gmap string file_content;
  time : nat;
  write_fails : bool;
  failure : write_failure
}.

Definition W (A : Type) : Type := world -> result A * world.

(** The text [datetime.now().isoformat()] gives at each instant. *)
Variable isoformat : nat -> string.

(** [list.sort(key=...)] of the Python runtime, on the items paired with
    their keys; it raises when two keys cannot be compared. *)
Variable list_sort : list (pyval * dict) -> result (list dict).

Definition now (w : world) : string * world :=
  (isoformat (time w),
   {| files := files w; time := S (time w); write_fails := write_fails w;
      failure := failure w |}).

(** *** [load_session_logs] *)

Definition log_files : list string :=
  [ "session_start"; "pre_tool_use"; "post_tool_use";
    "user_prompt_submit"; "notifications"; "stop" ].

Definition json_name (base : string) : string := base +:+ ".json".

(** The comprehension over one parsed file: an item that is not a dict has
    no [get]. *)
Fixpoint session_entries (session_id : pyval) (log_type : string)
    (logs : list pyval) : result (list dict) :=
  match logs with
  | [] => Ok []
  | PDict log :: logs' =>
      (rest <~ session_entries session_id log_type logs';
       Ok (if py_eqb (dict_get log "session_id" PNone) session_id
           then dict_set log "log_type" (PStr log_type) :: rest
           else rest))%result
  | _ :: _ => Raise AttributeError
  end.

Definition entries_of_file (session_id : pyval) (fs : gmap string file_content)
    (base : string) : result (list dict) :=
  match fs !! json_name base with
  | Some (Json (PList logs)) => session_entries session_id base logs
  | Some (Json _) | Some Unreadable | None => Ok []
  end.

Fixpoint entries_of_files (session_id : pyval) (fs : gmap string file_content)
    (bases : list string) : result (list dict) :=
  match bases with
  | [] => Ok []
  | base :: bases' =>
      (entries <~ entries_of_file session_id fs base;
       rest <~ entries_of_files session_id fs bases';
       Ok (entries ++ rest))%result
  end.

Definition load_session_logs (session_id : pyval)
    (fs : gmap string file_content) : result (list dict) :=
  (session_logs <~ entries_of_files session_id fs log_files;
   list_sort (map (fun log => (dict_get log "timestamp" (PStr ""), log))
                  session_logs))%result.

(** *** [save_for_batch_processing] *)

Definition improvements_file : string := "pending_improvements.json".

Definition existing_improvements (fs : gmap string file_content) : pyval :=
  match fs !! improvements_file with
  | Some (Json v) => v
  | Some Unreadable | None => PList []
  end.

Definition save_for_batch_processing (analysis : pyval) : W unit :=
  fun w =>
    match existing_improvements (files w) with
    | PList existing =>
        let improvements := existing ++ [analysis] in
        let improvements :=
          if (100 <? length improvements)%nat
          then last_n 100 improvements else improvements in
        (Ok tt,
         {| files :=
              if write_fails w then
                match failure w with
                | AtOpen => files w
                | AfterOpen false => <[improvements_file := Unreadable]> (files w)
                | AfterOpen true =>
                    <[improvements_file := Json (PList improvements)]> (files w)
                end
              else <[improvements_file := Json (PList improvements)]> (files w);
            time := time w;
            write_fails := write_fails w;
            failure := failure w |})
    | _ => (Raise AttributeError, w)
    end.

(** *** [analyze_session] *)

(** The dict literal bound to [analysis]. *)
Definition analysis_dict (session_id : pyval) (timestamp : string)
    (session_logs : list dict) : result dict :=
  (patterns <~ detect_patterns session_logs;
   let tool_sequences := find_tool_sequences session_logs in
   error_sequences <~ find_error_patterns session_logs;
   metrics <~ calculate_session_metrics session_logs;
   Ok [ ("session_id", session_id);
        ("timestamp", PStr timestamp);
        ("total_events", PInt (length session_logs));
        ("patterns", PList patterns);
        ("tool_sequences", PList tool_sequences);
        ("error_sequences", PList error_sequences);
        ("metrics", metrics) ])%result.

Definition len_of (v : pyval) : nat :=
  match v with
  | PList l => length l
  | _ => 0
  end.

Definition analyze_session (event : pyval) : W pyval :=
  fun w =>
    match py_get event "session_id" PNone with
    | Raise e => (Raise e, w)
    | Ok session_id =>
        if negb (truthy session_id) then
          (Ok (PDict [ ("error", PStr "No session_id provided");
                       ("analyzed", PBool false) ]), w)
        else
          match load_session_logs session_id (files w) with
          | Raise e => (Raise e, w)
          | Ok [] =>
              (Ok (PDict [ ("analyzed", PBool true);
                           ("session_id", session_id);
                           ("patterns_found", PInt 0);
                           ("message", PStr "No logs found for session") ]), w)
          | Ok session_logs =>
              let '(timestamp, w1) := now w in
              match analysis_dict session_id timestamp session_logs with
              | Raise e => (Raise e, w1)
              | Ok analysis =>
                  let patterns := dict_get analysis "patterns" PNone in
                  let error_sequences :=
                    dict_get analysis "error_sequences" PNone in
                  if truthy patterns || truthy error_sequences then
                    match save_for_batch_processing (PDict analysis) w1 with
                    | (Raise e, w2) => (Raise e, w2)
                    | (Ok _, w2) =>
                        (Ok (PDict
                           [ ("analyzed", PBool true);
                             ("session_id", session_id);
                             ("patterns_found", PInt (len_of patterns));
                             ("tool_sequences_found",
                               PInt (len_of (dict_get analysis "tool_sequences"
                                                      PNone)));
                             ("errors_found", PInt (len_of error_sequences));
                             ("saved_for_improvement", PBool true) ]), w2)
                    end
                  else
                    (Ok (PDict
                       [ ("analyzed", PBool true);
                         ("session_id", session_id);
                         ("patterns_found", PInt 0);
                         ("message", PStr "No significant patterns detected") ]),
                     w1)
              end
          end
    end.

(** Whether [existing_improvements.append] can be called: the pending file
    is absent, unreadable, or holds a list. *)
Definition appendable (fs : gmap string file_content) : bool :=
  match existing_improvements fs with
  | PList _ => true
  | _ => false
  end.

(** Two log directories with the same six log files. *)
Definition same_logs (fs fs' : gmap string file_content) : Prop :=
  ∀ base, base ∈ log_files → fs' !! json_name base = fs !! json_name base.

End Passes.

End SessionImprovement.

(** ** Sample sessions *)

Module SessionSamples.
Import Py SessionImprovement.

(** Stand-ins for the text of a non-string value and for the MD5 prefix. *)
Definition repr_text (v : pyval) : string := "<value>".
Definition hash_text (tools : list pyval) : string := "0f1e2d3c".

Definition tool_log (tool : string) : dict :=
  [ ("session_id", PStr "s1"); ("tool_name", PStr tool);
    ("success", PBool true); ("timestamp", PStr "2025-01-10T10:00:00Z") ].

Definition seven_logs : list dict :=
  map tool_log [ "Read"; "Grep"; "Edit"; "Bash"; "Read"; "Grep"; "Edit" ].

(** A stable sort of items whose keys are all text, as [list.sort] does it
    on such keys. *)
Fixpoint insert_by_text (k : string) (x : dict) (l : list (string * dict))
    : list (string * dict) :=
  match l with
  | [] => [(k, x)]
  | (k', y) :: l' =>
      if String.ltb k' k then (k', y) :: insert_by_text k x l' else (k, x) :: l
  end.

Fixpoint text_keys (l : list (pyval * dict)) : option (list (string * dict)) :=
  match l with
  | [] => Some []
  | (PStr k, x) :: l' => option_map (cons (k, x)) (text_keys l')
  | _ :: _ => None
  end.

Definition sort_by_text (l : list (pyval * dict)) : result (list dict) :=
  match text_keys l with
  | Some kl =>
      Ok (map snd (foldr (fun kx acc => insert_by_text (fst kx) (snd kx) acc)
                         [] kl))
  | None => Raise TypeError
  end.

Definition clock_text (t : nat) : string :=
  match t with
  | O => "2025-01-10T12:00:00"
  | _ => "2025-01-10T12:00:01"
  end.

(** A log directory whose [post_tool_use.json] holds the seven events. *)
Definition sample_world : world :=
  {| files := {[ "post_tool_use.json" := Json (PList (map PDict seven_logs)) ]};
     time := 0;
     write_fails := false;
     failure := AtOpen |}.

(** The same directory on a disk that fills up while a file is written. *)
Definition full_disk : world :=
  {| files := {[ "post_tool_use.json" := Json (PList (map PDict seven_logs));
                 "pending_improvements.json" := Json (PList [PStr "old"]) ]};
     time := 0;
     write_fails := true;
     failure := AfterOpen false |}.

End SessionSamples.

(** ** Further conditions and readings used in the statements below *)

Module LogAnalyzerMore.
Import Py LogAnalyzer.

(** [isinstance(entry, dict)]. *)
Definition is_dict (v : pyval) : bool :=
  match v with
  | PDict _ => true
  | _ => false
  end.


End LogAnalyzerMore.

(** ** Further sample inputs *)

Module MoreSamples.
Import Py LogAnalyzer.

(** A [session_end] entry with the given duration. *)
Definition session_end (duration : Q) : LogEvent :=
  new_LogEvent (PStr "session_end") (PStr "s1") (PStr "2025-01-10T10:00:00Z")
    [ ("event_type", PStr "session_end");
      ("metrics", PDict [ ("session_duration", PNum duration) ]) ]
    (PDict [ ("session_duration", PNum duration) ]).

(** An outlier test that rejects everything. *)
Definition all_outliers (samples : list Q) (x : Q) : bool := true.

End MoreSamples.

(** ** Well-formed events *)

Module WellFormed.
Import Py LogAnalyzer.







End WellFormed.

(** ** Further readings of a session *)

Module SessionMore.
Import Py SessionImprovement.

(** The number of failed events of a session. *)
Definition failures (logs : list dict) : nat :=
  length (filter (fun log => is_failure log = true) logs).

(** The occurrences counted over all groups of errors. *)
Definition grouped (groups : list (string * (dict * nat * list pyval))) : nat :=
  foldr (fun kg acc => (snd (fst (snd kg)) + acc)%nat) 0%nat groups.

(** A group whose dict shows its count and its timestamps and keeps the
    error it was opened with. *)
Definition group_ok (g : dict * nat * list pyval) : Prop :=
  let '(d, n, tss) := g in
  dict_lookup d "occurrences" = Some (PInt n)
  ∧ dict_lookup d "timestamps" = Some (PList tss)
  ∧ length tss = n
  ∧ (1 <= n)%nat.

(** The groups start with the group of [key], opened by an event without
    an [error] entry and counting [m] events or more. *)
Definition head_group (key : string) (m : nat)
    (groups : list (string * (dict * nat * list pyval))) : Prop :=
  ∃ d n tss rest,
    groups = (key, (d, n, tss)) :: rest
    ∧ dict_lookup d "error" = Some PNone ∧ (m <= n)%nat.

End SessionMore.

(** ** Sample sessions *)

Module SessionMoreSamples.
Import Py SessionImprovement.

(** A failed tool call that carries an error text, and one that does not. *)
Definition failed_with (tool error ts : string) : dict :=
  [ ("session_id", PStr "s1"); ("tool_name", PStr tool);
    ("success", PBool false); ("error", PStr error); ("timestamp", PStr ts) ].

Definition failed_silently (tool ts : string) : dict :=
  [ ("session_id", PStr "s1"); ("tool_name", PStr tool);
    ("success", PBool false); ("timestamp", PStr ts) ].

Definition timed_log (tool : string) (seconds : Q) : dict :=
  [ ("session_id", PStr "s1"); ("tool_name", PStr tool);
    ("success", PBool true); ("execution_time", PNum seconds) ].

End SessionMoreSamples.

(** ** A timed session and its metrics *)

Module MetricsSamples.
Import Py SessionImprovement SessionMoreSamples.

Definition two_timed : list dict :=
  [ timed_log "Read" 2; timed_log "Bash" 5 ].


End MetricsSamples.

(** ** Events that no detector looks at *)

Module Quiet.
Import Py LogAnalyzer.

(** An event that is neither an [agent_complete] nor a [session_end], and
    when it is a [tool_use] has empty metrics and no error. *)
Definition ignored (e : LogEvent) : bool :=
  if eq_str (event_type e) "tool_use"
  then negb (truthy (metrics e))
       && negb (truthy (dict_get (data e) "error" PNone))
  else negb (eq_str (event_type e) "agent_complete")
       && negb (eq_str (event_type e) "session_end").

(** The analysis of an event without any finding. *)
Definition no_findings : event_analysis :=
  {| performance_issues := []; error_patterns := [];
     success_indicators := []; anomalies := [] |}.

End Quiet.

(** ** [CrossProjectLearner]: command sequences and their score *)

Module CrossProject.
Import Py.

(** [min(a, b)] and [max(a, b)]: the first argument wins a tie. *)
Definition py_min2 (a b : Q) : Q := if Qgtb a b then b else a.
Definition py_max2 (a b : Q) : Q := if Qgtb b a then b else a.

(** *** [_calculate_success_score] *)

Definition error_count (session_entries : list dict) : nat :=
  length (filter (fun entry => truthy (dict_get entry "error" PNone) = true)
                 session_entries).

Definition execution_times (session_entries : list dict) : list pyval :=
  map (fun entry => dict_get entry "execution_time" (PNum 0)) session_entries.

(** [sum(values)] as Python adds: from the int [0], one value after the
    other. The total is an int, and exact, while the values are ints; from
    the first float on it is a float, rounded after each addition, an int
    being converted to a float before it is added. Here a number with a
    fractional part is a float and a whole number is read as an int.
    [sum_values float acc l] continues from the total [acc], a float or
    not, and returns the total with its kind. *)
Definition is_whole (q : Q) : bool := Qeq_bool (inject_Z (Qfloor q)) q.

Fixpoint sum_values (float : bool) (acc : Q) (l : list pyval)
    : result (bool * Q) :=
  match l with
  | [] => Ok (float, acc)
  | v :: l' =>
      match as_num v with
      | None => Raise TypeError
      | Some x =>
          if float || negb (is_whole x) then
            (a <~ (if float then Ok acc else to_float64 acc);
             b <~ to_float64 x;
             sum_values true (round64 (a + b)) l')%result
          else sum_values false (acc + x) l'
      end
  end.

(** The score is computed on floats: the products, the quotient and the
    differences are rounded, [0.2] is the double nearest to 2/10, and the
    division by [10.0] converts an int total to a float. *)
Definition _calculate_success_score (session_entries : list dict) : result Q :=
  (summed <~ sum_values false 0 (execution_times session_entries);
   let '(float, total_time) := summed in
   let error_penalty :=
     round64 (inject_Z (Z.of_nat (error_count session_entries))
              * round64 (2 # 10)) in
   total <~ (if float : bool then Ok total_time else to_float64 total_time);
   let time_penalty := py_min2 (round64 (total / 10)) 1 in
   Ok (py_max2 0 (round64 (round64 (1 - error_penalty) - time_penalty))))%result.

(** *** [_extract_command_sequences] *)

(** [session_groups]: a [defaultdict(list)]; an entry of the list is a key,
    the session id that was first used for it and the entries of the
    session, sessions in the order of their first entry. *)
Abbreviation session_groups := (list (pykey * (pyval * list dict))).

(** [session_groups[session_id].append(entry)]. *)
Fixpoint group_append (k : pykey) (session_id : pyval) (entry : dict)
    (groups : session_groups) : session_groups :=
  match groups with
  | [] => [(k, (session_id, [entry]))]
  | (k', (sid, entries)) :: groups' =>
      if decide (k' = k) then (k', (sid, entries ++ [entry])) :: groups'
      else (k', (sid, entries)) :: group_append k session_id entry groups'
  end.

(** The grouping loop: only a dict with a [session_id] key is kept. *)
Fixpoint group_sessions (groups : session_groups) (log_data : list pyval)
    : result session_groups :=
  match log_data with
  | [] => Ok groups
  | PDict entry :: rest =>
      match dict_lookup entry "session_id" with
      | Some session_id =>
          (k <~ hash_key session_id;
           group_sessions (group_append k session_id entry groups) rest)%result
      | None => group_sessions groups rest
      end
  | _ :: rest => group_sessions groups rest
  end.

Definition command_sequence (session_entries : list dict) : list pyval :=
  map (fun entry => dict_get entry "tool_name" (PStr "unknown")) session_entries.

Definition sequence_record (g : pyval * list dict) : result pyval :=
  let '(session_id, session_entries) := g in
  (score <~ _calculate_success_score session_entries;
   Ok (PDict [ ("session_id", session_id);
               ("command_sequence", PList (command_sequence session_entries));
               ("success_indicators", PNum score) ]))%result.

Definition _extract_command_sequences (log_data : pyval) : result (list pyval) :=
  (entries <~ py_iter log_data;
   groups <~ group_sessions [] entries;
   map_r (fun g => sequence_record (snd g))
         (filter (fun g => (3 <= length (snd (snd g)))%nat) groups))%result.

(** *** Readings used in the statements below *)

(** The entries of [log_data] that belong to the session with key [k]. *)
Definition in_session (k : pykey) (v : pyval) : option dict :=
  match v with
  | PDict entry =>
      match dict_lookup entry "session_id" with
      | Some session_id =>
          match hash_key session_id with
          | Ok k' => if decide (k' = k) then Some entry else None
          | Raise _ => None
          end
      | None => None
      end
  | _ => None
  end.

Definition session_members (k : pykey) (log_data : list pyval) : list dict :=
  omap (in_session k) log_data.

(** The entries of [log_data] that belong to some session. *)
Definition has_session (v : pyval) : bool :=
  match v with
  | PDict entry =>
      match dict_lookup entry "session_id" with
      | Some _ => true
      | None => false
      end
  | _ => false
  end.

Definition with_session (log_data : list pyval) : nat :=
  length (filter (fun v => has_session v = true) log_data).

(** The entries that [session_groups] holds for the key [k]. *)
Fixpoint group_entries (k : pykey) (groups : session_groups) : list dict :=
  match groups with
  | [] => []
  | (k', (_, entries)) :: groups' =>
      if decide (k' = k) then entries else group_entries k groups'
  end.

(** The groups are those of the distinct sessions of [seen], each under
    the key of its session id. *)
Definition groups_of (seen : list pyval) (groups : session_groups) : Prop :=
  NoDup (map fst groups)
  ∧ (∀ k sid entries, (k, (sid, entries)) ∈ groups → hash_key sid = Ok k)
  ∧ ∀ k, group_entries k groups = session_members k seen.

Definition grouped_entries (groups : session_groups) : nat :=
  foldr (fun g acc => (length (snd (snd g)) + acc)%nat) 0%nat groups.

End CrossProject.

(** ** Sample entries of a tool log *)

Module CrossProjectSamples.
Import Py.

Definition used (session tool : string) (seconds : Q) : pyval :=
  PDict [ ("session_id", PStr session); ("tool_name", PStr tool);
          ("execution_time", PNum seconds) ].

Definition three_uses : list dict :=
  [ [ ("session_id", PStr "s1"); ("tool_name", PStr "Read");
      ("execution_time", PNum 1) ];
    [ ("session_id", PStr "s1"); ("tool_name", PStr "Edit");
      ("execution_time", PNum 2); ("error", PStr "no match") ];
    [ ("session_id", PStr "s1"); ("tool_name", PStr "Bash");
      ("execution_time", PNum 1) ] ].

End CrossProjectSamples.

(** ** [src/analysis/recommendation_engine.py]: the events handed to the
    optimisers *)

Module Engine.
Import Py LogAnalyzer.

(** [LogEvent.to_dict], that is [dataclasses.asdict]. *)
Definition to_dict (e : LogEvent) : dict :=
  [ ("event_type", event_type e);
    ("session_id", session_id e);
    ("timestamp", timestamp e);
    ("data", PDict (data e));
    ("metrics", metrics e);
    ("project_path", project_path e) ].

(** The [LogEvent] that [_extract_events_from_analysis] builds from the
    [event] entry of a pattern; [now] is the clock text read for the
    default of the timestamp. The record of the embedding holds a dict as
    [data]: there is no event for another value, which [to_dict] never
    writes. *)
Definition event_of_data (now : string) (event_data : dict) : option LogEvent :=
  match dict_get event_data "data" (PDict []) with
  | PDict d =>
      Some (new_LogEvent (dict_get event_data "event_type" (PStr "unknown"))
                         (dict_get event_data "session_id" (PStr "unknown"))
                         (dict_get event_data "timestamp" (PStr now))
                         d
                         (dict_get event_data "metrics" (PDict [])))
  | _ => None
  end.

(** [_extract_events_from_analysis]: the error results have no [patterns]
    key; every pattern of an analysis has its [event] key, written by
    [analyze_log_file] with [to_dict]. *)
Definition _extract_events_from_analysis (now : nat -> string)
    (analysis_result : analysis_results) : list LogEvent :=
  match analysis_result with
  | Results _ patterns =>
      omap id (imap (fun i pattern => event_of_data (now i) (to_dict (fst pattern)))
                    patterns)
  | LogFileNotFound | FailedToAnalyze _ => []
  end.

Section Load.
Variable is_outlier : list Q -> Q -> bool.

(** [_load_recent_events] on the two standard log files; the analyzer of
    the engine keeps its detector from one file to the next. [now1] and
    [now2] are the clocks of the two analyses, [now3] and [now4] those of
    the two extractions. *)
Definition _load_recent_events (now1 now2 now3 now4 : nat -> string)
    (post_tool_use user_prompt_submit : log_file)
    (pattern_detector : PatternDetector) : list LogEvent * PatternDetector :=
  let '(analysis1, detector1) :=
    analyze_log_file is_outlier now1 post_tool_use pattern_detector in
  let '(analysis2, detector2) :=
    analyze_log_file is_outlier now2 user_prompt_submit detector1 in
  (_extract_events_from_analysis now3 analysis1
   ++ _extract_events_from_analysis now4 analysis2, detector2).

End Load.

(** The events of the patterns of an analysis. *)
Definition events_with_findings (analysis_result : analysis_results)
    : list LogEvent :=
  match analysis_result with
  | Results _ patterns => map fst patterns
  | LogFileNotFound | FailedToAnalyze _ => []
  end.

(** An event as the constructor leaves it when no project path is given. *)
Definition constructed (e : LogEvent) : Prop :=
  metrics e ≠ PNone ∧ project_path e = PNone.

End Engine.

(** ** [LogAnalyzer._generate_recommendations] *)

Module Advice.
Import Py LogAnalyzer.

(** [len(v)]. *)
Definition py_len (v : pyval) : result nat :=
  match v with
  | PStr s => Ok (String.length s)
  | PList l => Ok (length l)
  | PDict d => Ok (length d)
  | PNone | PBool _ | PNum _ => Raise TypeError
  end.

(** [v + "..."]: only text can be joined to text. *)
Definition add_dots (v : pyval) : result pyval :=
  match v with
  | PStr s => Ok (PStr (s +:+ "..."))
  | _ => Raise TypeError
  end.

(** The keys of the dict that [analyze_event] returns, in its order. *)
Inductive category : Type :=
  | performance_issues_key
  | error_patterns_key
  | success_indicators_key
  | anomalies_key.

#[global] Instance category_eq_dec : EqDecision category.
Proof. solve_decision. Defined.

(** [pattern_groups]: the categories in the order in which they were first
    written, and the issues gathered under each. *)
Record pattern_groups : Type := {
  categories : list category;
  performance_group : list performance_issue;
  error_group : list error_pattern;
  success_group : list success_indicator;
  anomaly_group : list anomaly
}.

Definition no_groups : pattern_groups :=
  {| categories := []; performance_group := []; error_group := [];
     success_group := []; anomaly_group := [] |}.

(** [if issues: pattern_groups[category].extend(issues)], for the order of
    the keys. *)
Definition note {A} (c : category) (issues : list A) (cs : list category)
    : list category :=
  match issues with
  | [] => cs
  | _ :: _ => if decide (c ∈ cs) then cs else cs ++ [c]
  end.

Definition group_pattern (g : pattern_groups)
    (pattern : LogEvent * event_analysis) : pattern_groups :=
  let analysis := snd pattern in
  {| categories :=
       note anomalies_key (anomalies analysis)
         (note success_indicators_key (success_indicators analysis)
            (note error_patterns_key (error_patterns analysis)
               (note performance_issues_key (performance_issues analysis)
                  (categories g))));
     performance_group := performance_group g ++ performance_issues analysis;
     error_group := error_group g ++ error_patterns analysis;
     success_group := success_group g ++ success_indicators analysis;
     anomaly_group := anomaly_group g ++ anomalies analysis |}.

Section Texts.

(** [str(v)] of a value that is no text, [format(v, spec)], which raises
    on a value that the format does not fit, [format(v / baseline, ".1f")]
    for a baseline that is a NumPy float, and [format(rate, ".1%")]. *)
Variable repr_value : pyval -> string.
Variable format_value : string -> pyval -> result string.
Variable ratio_text : pyval -> Q -> result string.
Variable percent_text : Q -> string.

Definition str (v : pyval) : string := SessionImprovement.py_str repr_value v.

Definition performance_fix (issue : performance_issue) : result pyval :=
  (seconds <~ format_value ".2f" (pi_execution_time issue);
   ratio <~ ratio_text (pi_execution_time issue) (pi_baseline issue);
   Ok (PDict
     [ ("type", PStr "performance_optimization");
       ("priority", PStr (pi_severity issue));
       ("tool_name", pi_tool_name issue);
       ("recommendation",
         PStr ("Tool '" +:+ str (pi_tool_name issue) +:+ "' is running "
               +:+ seconds +:+ "s, which is " +:+ ratio
               +:+ "x slower than baseline. Consider optimizing parameters or investigating system constraints."));
       ("action_items",
         PList [ PStr ("Review " +:+ str (pi_tool_name issue) +:+ " configuration");
                 PStr "Check system resource usage during execution";
                 PStr "Consider caching or optimization strategies" ]) ]))%result.

Definition _recommend_performance_fixes (issues : list performance_issue)
    : result (list pyval) :=
  map_r performance_fix
        (filter (fun issue => pi_type issue = "slow_tool_execution") issues).

(** [msg[:200] + "..." if len(msg) > 200 else msg]. *)
Definition error_excerpt (msg : pyval) : result pyval :=
  (n <~ py_len msg;
   if (200 <? n)%nat
   then (head <~ py_slice_to 200 msg; add_dots head)
   else Ok msg)%result.

Definition error_fix (issue : error_pattern) : result pyval :=
  (excerpt <~ error_excerpt (ep_error_message issue);
   Ok (PDict
     [ ("type", PStr "error_resolution");
       ("priority", PStr "high");
       ("tool_name", ep_tool_name issue);
       ("recommendation",
         PStr ("Tool '" +:+ str (ep_tool_name issue) +:+ "' has failed "
               +:+ str (PInt (ep_occurrence_count issue))
               +:+ " times with similar errors. This suggests a systematic issue."));
       ("error_pattern", excerpt);
       ("action_items",
         PList [ PStr "Investigate root cause of recurring error";
                 PStr "Update tool configuration or prompts";
                 PStr "Add error handling or retry logic" ]) ]))%result.

Definition _recommend_error_fixes (issues : list error_pattern)
    : result (list pyval) :=
  map_r error_fix
        (filter (fun issue => ep_type issue = "recurring_error") issues).

Definition success_amplification (success : success_indicator) : pyval :=
  PDict
    [ ("type", PStr "success_amplification");
      ("priority", PStr "medium");
      ("agent_name", si_agent_name success);
      ("recommendation",
        PStr ("Agent '" +:+ str (si_agent_name success) +:+ "' has a "
              +:+ percent_text (si_success_rate success)
              +:+ " success rate. Consider applying its patterns to other agents."));
      ("action_items",
        PList [ PStr ("Analyze " +:+ str (si_agent_name success)
                      +:+ " prompts and configuration");
                PStr "Identify transferable success patterns";
                PStr "Update other agents with similar patterns" ]) ].

Definition _recommend_success_amplification (successes : list success_indicator)
    : list pyval :=
  map success_amplification
      (filter (fun success => si_type success = "high_success_agent") successes).

(** The recommendations of one category. *)
Definition recommend (g : pattern_groups) (c : category) : result (list pyval) :=
  match c with
  | performance_issues_key => _recommend_performance_fixes (performance_group g)
  | error_patterns_key => _recommend_error_fixes (error_group g)
  | success_indicators_key =>
      Ok (_recommend_success_amplification (success_group g))
  | anomalies_key => Ok []
  end.

Fixpoint recommend_each (g : pattern_groups) (cs : list category)
    : result (list pyval) :=
  match cs with
  | [] => Ok []
  | c :: cs' =>
      (found <~ recommend g c;
       rest <~ recommend_each g cs';
       Ok (found ++ rest))%result
  end.

Definition _generate_recommendations
    (patterns : list (LogEvent * event_analysis)) : result (list pyval) :=
  let groups := fold_left group_pattern patterns no_groups in
  recommend_each groups (categories groups).

End Texts.

(** *** Readings used in the statements below *)

(** The findings of a list of patterns, category by category. *)
Definition slow_tools (patterns : list (LogEvent * event_analysis))
    : list performance_issue :=
  concat (map (fun p => performance_issues (snd p)) patterns).

Definition recurring_errors (patterns : list (LogEvent * event_analysis))
    : list error_pattern :=
  concat (map (fun p => error_patterns (snd p)) patterns).

Definition successes_of (patterns : list (LogEvent * event_analysis))
    : list success_indicator :=
  concat (map (fun p => success_indicators (snd p)) patterns).





End Advice.

(** ** Sample texts of the formats *)

Module AdviceSamples.
Import Py.

(** Stand-ins for the formats: the text is fixed, and a value that is no
    number is refused. *)
Definition format_text (spec : string) (v : pyval) : result string :=
  match as_num v with
  | Some _ => Ok "1.00"
  | None => Raise TypeError
  end.

Definition ratio_of (v : pyval) (baseline : Q) : result string :=
  match as_num v with
  | Some _ => Ok "2.5"
  | None => Raise TypeError
  end.

Definition percent_of (rate : Q) : string := "90.0%".

(** The patterns of a log with one successful agent and one anomaly. *)
Definition agent_and_anomaly
    : list (LogAnalyzer.LogEvent * LogAnalyzer.event_analysis) :=
  [ (Samples.agent_complete "planner" (PBool true),
     {| LogAnalyzer.performance_issues := [];
        LogAnalyzer.error_patterns := [];
        LogAnalyzer.success_indicators :=
          [ {| LogAnalyzer.si_type := "high_success_agent";
               LogAnalyzer.si_agent_name := PStr "planner";
               LogAnalyzer.si_success_rate := 1;
               LogAnalyzer.si_sample_size := 5 |} ];
        LogAnalyzer.anomalies :=
          [ {| LogAnalyzer.an_type := "unusual_session_duration";
               LogAnalyzer.an_session_duration := PNum 900;
               LogAnalyzer.an_baseline_median := 60;
               LogAnalyzer.an_severity := "medium" |} ] |}) ].


End AdviceSamples.

(** * Properties *)

(** ** Doubles and the median of doubles *)

Module FloatFacts.
Import Py.
Local Open Scope Q_scope.

Lemma pow2_pos (e : Z) : 0 < pow2 e.
Proof. by apply Qpower_0_lt. Qed.


Lemma pow2_sub (a b : Z) : pow2 (a - b) == pow2 a / pow2 b.
Proof. by apply Qpower_minus. Qed.

Lemma pow2_int (k : Z) : (0 <= k)%Z → pow2 k == inject_Z (2 ^ k).
Proof. intros Hk. unfold pow2. by rewrite (Zpower_Qpower 2 k Hk). Qed.

Lemma pow2_lt_inv (a b : Z) : pow2 a < pow2 b → (a < b)%Z.
Proof. intros H. by apply (Qpower_lt_compat_l_inv 2). Qed.

Lemma Qabs_make (n : Z) (d : positive) :
  Qabs (n # d) == inject_Z (Z.abs n) / inject_Z (Zpos d).
Proof. by rewrite <- Zabs_Qabs, Qmake_Qdiv. Qed.

(** [floor_log2 q] is not above the exponent of [q]. *)
Lemma floor_log2_le (q : Q) : ¬ q == 0 → pow2 (floor_log2 q) <= Qabs q.
Proof.
  intros Hq. unfold floor_log2.
  destruct (Qle_bool _ _) eqn:E; [by apply Qle_bool_iff in E|].
  destruct q as [n d]. cbn [Qnum Qden].
  assert (n ≠ 0%Z) as Hn.
  { intros ->. apply Hq. reflexivity. }
  rewrite Qabs_make.
  pose proof (Z.log2_spec (Z.abs n) ltac:(lia)) as [Hn1 _].
  pose proof (Z.log2_spec (Zpos d) ltac:(lia)) as [_ Hd2].
  pose proof (Z.log2_nonneg (Z.abs n)) as Hn0.
  pose proof (Z.log2_nonneg (Zpos d)) as Hd0.
  set (ln := Z.log2 (Z.abs n)) in *. set (ld := Z.log2 (Zpos d)) in *.
  replace (ln - ld - 1)%Z with (ln - (ld + 1))%Z by lia.
  rewrite pow2_sub, !pow2_int by lia.
  apply Qle_shift_div_l; [by change 0 with (inject_Z 0); rewrite <- Zlt_Qlt|].
  assert (0 < inject_Z (2 ^ (ld + 1))) as Hpos.
  { change 0 with (inject_Z 0). rewrite <- Zlt_Qlt. lia. }
  apply Qle_trans with (inject_Z (2 ^ ln)); [|rewrite <- Zle_Qle; lia].
  assert (inject_Z (2 ^ ln) / inject_Z (2 ^ (ld + 1)) * inject_Z (Z.pos d)
          == inject_Z (2 ^ ln) * inject_Z (Z.pos d) / inject_Z (2 ^ (ld + 1)))
    as -> by (field; lra).
  apply Qle_shift_div_r; [done|].
  rewrite <- !inject_Z_mult, <- Zle_Qle.
  replace (Z.succ ld) with (ld + 1)%Z in Hd2 by lia.
  apply Z.mul_le_mono_nonneg_l; lia.
Qed.

Lemma round_half_even_int (x : Q) (n : Z) : x == inject_Z n → round_half_even x = n.
Proof.
  intros Hx. unfold round_half_even.
  rewrite (Qfloor_comp _ _ Hx), Qfloor_Z.
  assert (x - inject_Z n == 0) as H0 by (rewrite Hx; ring).
  rewrite (Qcompare_comp _ _ H0 _ _ (Qeq_refl (1 # 2))). reflexivity.
Qed.

(** A number [m / 2^j] whose numerator has at most 53 bits is a double. *)
Lemma round64_exact (q : Q) (m j : Z) :
  q == inject_Z m / pow2 j → (Z.abs m < 2 ^ 53)%Z → (0 <= j <= 1074)%Z →
  round64 q == q.
Proof.
  intros Hq Hm Hj. unfold round64.
  destruct (Qeq_bool q 0) eqn:E0; [by apply Qeq_bool_iff in E0|].
  apply Qeq_bool_neq in E0.
  pose proof (floor_log2_le q E0) as He.
  set (e := floor_log2 q) in *.
  assert (e < 53 - j)%Z as Hej.
  { apply pow2_lt_inv. eapply Qle_lt_trans; [exact He|].
    rewrite Hq, pow2_sub. unfold Qdiv. rewrite Qabs_Qmult, Qabs_Qinv.
    rewrite (Qabs_pos (pow2 j)) by apply Qlt_le_weak, pow2_pos.
    apply Qmult_lt_compat_r; [apply Qinv_lt_0_compat, pow2_pos|].
    rewrite pow2_int by lia.
    assert (Qabs (inject_Z m) == inject_Z (Z.abs m)) as ->
      by (unfold inject_Z; by rewrite <- Zabs_Qabs).
    by rewrite <- Zlt_Qlt. }
  set (u := Z.max (e - 52) (-1074)).
  assert (u <= - j)%Z as Hu by lia.
  assert (q / pow2 u == inject_Z (m * 2 ^ (- j - u))) as Hint.
  { rewrite Hq, inject_Z_mult, <- pow2_int by lia.
    replace (- j - u)%Z with (0 - j - u)%Z by lia.
    rewrite !pow2_sub. change (pow2 0) with 1.
    pose proof (pow2_pos j). pose proof (pow2_pos u). field. split; lra. }
  rewrite (round_half_even_int _ _ Hint), Qred_correct.
  rewrite <- Hint. pose proof (pow2_pos u). field. lra.
Qed.

(** *** Rounding and order *)












Lemma Qred_inject_Z (z : Z) : Qred (inject_Z z) = inject_Z z.
Proof. apply Qred_identity. cbn. apply Z.gcd_1_r. Qed.

(** A double is held in lowest terms. *)
Lemma round64_canon (q : Q) : Qred (round64 q) = round64 q.
Proof.
  unfold round64. destruct (Qeq_bool q 0); [reflexivity|].
  apply Qred_involutive.
Qed.

Lemma round64_whole (z : Z) :
  (Z.abs z < 2 ^ 53)%Z → round64 (inject_Z z) = inject_Z z.
Proof.
  intros Hz. rewrite <- round64_canon.
  transitivity (Qred (inject_Z z)); [|apply Qred_inject_Z].
  apply Qred_complete. apply (round64_exact _ z 0); [|done|lia].
  change (pow2 0) with 1. field.
Qed.

Lemma to_float64_in_range (q : Q) :
  LogAnalyzer.in_range q → to_float64 q = Ok (round64 q).
Proof.
  intros Hq. unfold to_float64.
  destruct (Qle_bool overflow_threshold (Qabs q)) eqn:E; [|done].
  apply Qle_bool_iff in E. exfalso. apply (Qlt_irrefl (Qabs q)).
  eapply Qlt_le_trans; [exact Hq|]. eapply Qle_trans; [|exact E].
  vm_compute. discriminate.
Qed.

Lemma map_to_float64_in_range (qs : list Q) :
  Forall LogAnalyzer.in_range qs → map_r to_float64 qs = Ok (map round64 qs).
Proof.
  induction 1 as [|q qs Hq _ IH]; [done|].
  cbn. by rewrite (to_float64_in_range q Hq), IH.
Qed.

(** *** The order of the median *)

Lemma insert_sorted_perm (x : Q) (l : list Q) : insert_sorted x l ≡ₚ x :: l.
Proof.
  induction l as [|y l IH]; cbn; [done|].
  destruct (Qle_bool x y); [done|]. rewrite IH. apply Permutation_swap.
Qed.

Lemma sort_Q_perm (l : list Q) : sort_Q l ≡ₚ l.
Proof.
  induction l as [|x l IH]; cbn; [done|].
  fold (sort_Q l). by rewrite insert_sorted_perm, IH.
Qed.

Lemma insert_sorted_sorted (x : Q) (l : list Q) :
  StronglySorted Qle l → StronglySorted Qle (insert_sorted x l).
Proof.
  induction 1 as [|y l Hs IH Hall]; cbn.
  - by repeat constructor.
  - destruct (Qle_bool x y) eqn:E.
    + apply Qle_bool_iff in E. constructor; [by constructor|].
      constructor; [done|]. eapply Forall_impl; [exact Hall|].
      intros z Hz. by apply Qle_trans with y.
    + assert (y <= x)%Q as Hyx.
      { apply Qlt_le_weak, Qnot_le_lt. intros H. apply Qle_bool_iff in H.
        congruence. }
      constructor; [done|].
      rewrite insert_sorted_perm. by constructor.
Qed.

Lemma sort_Q_sorted (l : list Q) : StronglySorted Qle (sort_Q l).
Proof.
  induction l as [|x l IH]; cbn; [constructor|].
  by apply insert_sorted_sorted.
Qed.

(** Two sorted lists of the same numbers in lowest terms are equal. *)
Lemma canon_le_antisym : AntiSymm (=) canon_le.
Proof.
  intros x y (Hxy & Hx & Hy) (Hyx & _ & _).
  rewrite <- Hx, <- Hy. apply Qred_complete. by apply Qle_antisym.
Qed.

Lemma canon_sorted (s : list Q) :
  Forall (λ x, Qred x = x) s → StronglySorted Qle s → StronglySorted canon_le s.
Proof.
  intros Hc Hs. induction Hs as [|x s Hs IH Hall]; [constructor|].
  apply Forall_cons in Hc as [Hx Hc]. constructor; [by apply IH|].
  rewrite Forall_forall in Hall, Hc. apply Forall_forall.
  intros y Hy. split_and!; [by apply Hall | done | by apply Hc].
Qed.

Lemma sorted_unique (s1 s2 l : list Q) :
  Forall (λ x, Qred x = x) l →
  s1 ≡ₚ l → StronglySorted Qle s1 → s2 ≡ₚ l → StronglySorted Qle s2 → s1 = s2.
Proof.
  intros Hc H1 Hs1 H2 Hs2.
  pose proof canon_le_antisym as Hanti.
  apply (StronglySorted_unique canon_le).
  - apply canon_sorted; [by rewrite H1|done].
  - apply canon_sorted; [by rewrite H2|done].
  - by rewrite H1, H2.
Qed.

Lemma doubles_canon (qs : list Q) : Forall (λ x, Qred x = x) (map round64 qs).
Proof. apply Forall_forall. intros x (q & -> & _)%list_elem_of_fmap. apply round64_canon. Qed.

(** The median of the model is the one and only median of doubles. *)
Lemma median64_spec (qs : list Q) (b : Q) :
  LogAnalyzer.median_of_doubles qs b ↔ b = median64 (map round64 qs).
Proof.
  assert (median64 (map round64 qs)
          = if Nat.even (length qs)
            then round64 (round64 (nth (length qs / 2 - 1)
                                       (sort_Q (map round64 qs)) 0
                                   + nth (length qs / 2)
                                       (sort_Q (map round64 qs)) 0) / 2)
            else nth (length qs / 2) (sort_Q (map round64 qs)) 0) as Hm.
  { unfold median64, mean_of_two.
    by rewrite (Permutation_length (sort_Q_perm _)), length_map. }
  split.
  - intros (s & Hp & Hs & ->). rewrite Hm.
    by rewrite (sorted_unique s (sort_Q (map round64 qs)) (map round64 qs)
                  (doubles_canon qs) Hp Hs (sort_Q_perm _) (sort_Q_sorted _)).
  - intros ->. exists (sort_Q (map round64 qs)).
    split_and!; [apply sort_Q_perm | apply sort_Q_sorted | exact Hm].
Qed.

End FloatFacts.

(** ** The similarity scorer *)

Module SimilarityFacts.
Import Py LogAnalyzer.

Lemma is_empty_set_true (X : gset string) : is_empty_set X = true ↔ X = ∅.
Proof. unfold is_empty_set. apply bool_decide_eq_true. Qed.

Lemma is_empty_set_false (X : gset string) : is_empty_set X = false ↔ X ≠ ∅.
Proof. unfold is_empty_set. apply bool_decide_eq_false. Qed.

Lemma size_pos_nonempty (X : gset string) : X ≠ ∅ → (0 < size X)%nat.
Proof.
  intros HX. destruct (size X) eqn:E; [|lia].
  apply size_empty_iff in E. by apply leibniz_equiv in E.
Qed.

Lemma union_nonempty (X Y : gset string) : X ≠ ∅ → X ∪ Y ≠ ∅.
Proof. intros HX HU. apply HX. apply empty_union_L in HU. tauto. Qed.

Lemma inter_subseteq_union (X Y : gset string) : X ∩ Y ⊆ X ∪ Y.
Proof. intros x. rewrite elem_of_intersection, elem_of_union. tauto. Qed.

(** On two non-empty word sets the score is the quotient of the sizes. *)
Lemma jaccard_nonempty (X Y : gset string) :
  X ≠ ∅ → Y ≠ ∅ →
  jaccard X Y = (inject_Z (Z.of_nat (size (X ∩ Y)))
                 / inject_Z (Z.of_nat (size (X ∪ Y))))%Q.
Proof.
  intros HX HY. unfold jaccard.
  rewrite (proj2 (is_empty_set_false X) HX), (proj2 (is_empty_set_false Y) HY).
  simpl. by rewrite (proj2 (is_empty_set_false _) (union_nonempty X Y HX)).
Qed.

Lemma jaccard_empty (X Y : gset string) : X = ∅ ∨ Y = ∅ → jaccard X Y = 0%Q.
Proof.
  intros [-> | ->]; unfold jaccard.
  - done.
  - destruct (is_empty_set X); done.
Qed.

Lemma jaccard_comm (X Y : gset string) : jaccard X Y = jaccard Y X.
Proof.
  unfold jaccard.
  assert (X ∩ Y = Y ∩ X) as -> by apply (comm_L (∩)).
  assert (X ∪ Y = Y ∪ X) as -> by apply (comm_L (∪)).
  by rewrite (orb_comm (is_empty_set X)).
Qed.

Lemma quotient_range (i u : nat) :
  (i <= u)%nat → (0 < u)%nat →
  (0 <= inject_Z (Z.of_nat i) / inject_Z (Z.of_nat u) <= 1)%Q.
Proof.
  intros Hiu Hu.
  assert (0 < inject_Z (Z.of_nat u))%Q as Hpos.
  { change 0%Q with (inject_Z 0). rewrite <- Zlt_Qlt. lia. }
  split.
  - apply Qle_shift_div_l; [done|]. rewrite Qmult_0_l.
    change 0%Q with (inject_Z 0). rewrite <- Zle_Qle. lia.
  - apply Qle_shift_div_r; [done|]. rewrite Qmult_1_l.
    rewrite <- Zle_Qle. lia.
Qed.

Lemma jaccard_range (X Y : gset string) : (0 <= jaccard X Y <= 1)%Q.
Proof.
  destruct (decide (X = ∅)) as [HX|HX].
  { rewrite jaccard_empty by auto. split; [apply Qle_refl | discriminate]. }
  destruct (decide (Y = ∅)) as [HY|HY].
  { rewrite jaccard_empty by auto. split; [apply Qle_refl | discriminate]. }
  rewrite jaccard_nonempty by done. apply quotient_range.
  - apply subseteq_size, inter_subseteq_union.
  - apply size_pos_nonempty. by apply union_nonempty.
Qed.

Lemma jaccard_refl (X : gset string) : X ≠ ∅ → (jaccard X X == 1)%Q.
Proof.
  intros HX. rewrite jaccard_nonempty by done.
  assert (X ∩ X = X) as -> by apply (idemp_L (∩)).
  assert (X ∪ X = X) as -> by apply (idemp_L (∪)).
  apply Qmult_inv_r. pose proof (size_pos_nonempty X HX) as Hpos.
  intros HQ. unfold Qeq in HQ. simpl in HQ. lia.
Qed.

(** *** [lower] *)

Lemma upper_test (n : nat) :
  ((65 <=? n)%nat && (n <=? 90)%nat)
  || ((192 <=? n)%nat && (n <=? 222)%nat && negb (n =? 215)%nat) = true
  ↔ (65 <= n <= 90)%nat ∨ ((192 <= n <= 222)%nat ∧ n ≠ 215%nat).
Proof.
  rewrite orb_true_iff, !andb_true_iff, negb_true_iff, !Nat.leb_le, Nat.eqb_neq.
  tauto.
Qed.

Lemma lower_char_cases (c : ascii) :
  (upper_lower c (lower_char c)
   ∧ lower_char c = ascii_of_nat (nat_of_ascii c + 32))
  ∨ (no_upper c ∧ lower_char c = c).
Proof.
  unfold lower_char.
  destruct (((65 <=? nat_of_ascii c)%nat && (nat_of_ascii c <=? 90)%nat)
            || ((192 <=? nat_of_ascii c)%nat && (nat_of_ascii c <=? 222)%nat
                && negb (nat_of_ascii c =? 215)%nat)) eqn:E.
  - left. apply upper_test in E. split; [|done]. split; [done|].
    apply nat_ascii_embedding. lia.
  - right. apply not_true_iff_false in E. rewrite upper_test in E.
    split; [|done]. intros d [Hc _]. tauto.
Qed.

Lemma lower_char_upper (c d : ascii) : upper_lower c d → lower_char c = d.
Proof.
  intros [Hc Hd]. destruct (lower_char_cases c) as [[_ ->]|[Hn _]].
  - rewrite <- Hd. apply ascii_nat_embedding.
  - by destruct (Hn d).
Qed.

Lemma lower_char_keeps (c : ascii) : no_upper c → lower_char c = c.
Proof.
  intros Hc. destruct (lower_char_cases c) as [[Hu _]|[_ Heq]]; [|done].
  by destruct (Hc _ Hu).
Qed.

Lemma lower_no_upper (c d : ascii) : upper_lower c d → no_upper d.
Proof. intros [Hc Hd] d' [Hd' _]. lia. Qed.

Lemma lower_char_same (c d : ascii) : same_letter c d → lower_char c = lower_char d.
Proof.
  intros [->|[H|H]]; [done|..].
  - by rewrite (lower_char_upper c d H), (lower_char_keeps d (lower_no_upper c d H)).
  - by rewrite (lower_char_upper d c H), (lower_char_keeps c (lower_no_upper d c H)).
Qed.

Lemma lower_char_letter (c : ascii) : same_letter c (lower_char c).
Proof.
  destruct (lower_char_cases c) as [[Hu _]|[_ ->]]; [right; by left|by left].
Qed.

Lemma lower_char_no_upper (c : ascii) : no_upper (lower_char c).
Proof.
  destruct (lower_char_cases c) as [[Hu _]|[Hn ->]]; [|done].
  by apply (lower_no_upper c).
Qed.

Lemma py_lower_same (a b : string) : same_up_to_case a b → py_lower a = py_lower b.
Proof.
  unfold same_up_to_case. revert b.
  induction a as [|c a IH]; intros [|d b]; cbn; intros H; inversion H; subst.
  - done.
  - by rewrite (lower_char_same c d), (IH b).
Qed.

Lemma py_lower_folds (a : string) :
  same_up_to_case a (py_lower a) ∧ Forall no_upper (chars (py_lower a)).
Proof.
  unfold same_up_to_case. induction a as [|c a [IH1 IH2]]; cbn.
  - split; constructor.
  - split; constructor; [apply lower_char_letter|done|
                         apply lower_char_no_upper|done].
Qed.

Lemma py_lower_keeps (w : string) : Forall no_upper (chars w) → py_lower w = w.
Proof.
  induction w as [|c w IH]; cbn; [done|].
  intros [Hc Hw]%Forall_cons. by rewrite (lower_char_keeps c Hc), IH.
Qed.

Lemma py_lower_idemp (s : string) : py_lower (py_lower s) = py_lower s.
Proof. apply py_lower_keeps, py_lower_folds. Qed.

Lemma py_lower_app (a b : string) :
  py_lower (a +:+ b) = py_lower a +:+ py_lower b.
Proof. induction a as [|c a IH]; simpl; [done|]. by rewrite IH. Qed.

(** *** [split] *)

Lemma py_isspace_blank (c : ascii) : py_isspace c = true ↔ is_blank c.
Proof.
  unfold py_isspace, is_blank, whitespace.
  rewrite !orb_true_iff, !andb_true_iff, !Nat.leb_le, !Nat.eqb_eq.
  rewrite !elem_of_cons, elem_of_nil. lia.
Qed.

Lemma lower_char_blank (c : ascii) : is_blank (lower_char c) ↔ is_blank c.
Proof.
  destruct (lower_char_letter c) as [<-|[[Hc Hd]|[Hd Hc]]]; [done|..];
    unfold is_blank, whitespace; rewrite !elem_of_cons, !elem_of_nil; lia.
Qed.

Lemma push_word_app (w : string) (ws ws' : list string) :
  push_word w (ws ++ ws') = push_word w ws ++ ws'.
Proof. by destruct w. Qed.

(** A text that is empty or starts with whitespace adds its words to
    those of the text before it. *)
Lemma split_run_app (a s : string) (ws : list string) :
  split_run s = (EmptyString, ws) →
  split_run (a +:+ s) = (fst (split_run a), snd (split_run a) ++ ws).
Proof.
  intros Hs. induction a as [|c a IH]; simpl; [done|].
  rewrite IH. destruct (split_run a) as [w ws0]. cbn [fst snd].
  destruct (py_isspace c); [|done]. by rewrite push_word_app.
Qed.

Lemma py_split_app (a b : string) (c : ascii) :
  is_blank c → py_split (a +:+ String c b) = py_split a ++ py_split b.
Proof.
  intros Hc%py_isspace_blank. unfold py_split at 1.
  rewrite (split_run_app a (String c b) (py_split b)).
  - unfold py_split at 2. destruct (split_run a) as [w ws]. cbn [fst snd].
    apply push_word_app.
  - cbn. unfold py_split. destruct (split_run b). by rewrite Hc.
Qed.

Lemma split_run_word (w : string) :
  Forall (λ c, ¬ is_blank c) (chars w) → split_run w = (w, []).
Proof.
  induction w as [|c w IH]; cbn; [done|].
  intros [Hc Hw]%Forall_cons. rewrite (IH Hw).
  destruct (py_isspace c) eqn:E; [|done]. by apply py_isspace_blank in E.
Qed.

Lemma py_split_word (w : string) : is_word w → py_split w = [w].
Proof.
  intros [Hne Hw]. unfold py_split. rewrite (split_run_word w Hw).
  by destruct w.
Qed.

Lemma py_split_blanks (s : string) : Forall is_blank (chars s) → py_split s = [].
Proof.
  unfold py_split. induction s as [|c s IH]; cbn; [done|].
  intros [Hc%py_isspace_blank Hs]%Forall_cons. specialize (IH Hs).
  destruct (split_run s) as [w ws]. by rewrite Hc.
Qed.

Lemma lower_is_word (w : string) : is_word w → is_word (py_lower w).
Proof.
  intros [Hne Hw]. split; [by destruct w|].
  clear Hne. induction w as [|c w IH]; cbn; [constructor|].
  apply Forall_cons in Hw as [Hc Hw]. constructor; [|by apply IH].
  by rewrite lower_char_blank.
Qed.

Lemma lower_blanks (s : string) :
  Forall is_blank (chars s) → Forall is_blank (chars (py_lower s)).
Proof.
  induction s as [|c s IH]; cbn; [constructor|].
  intros [Hc Hs]%Forall_cons. constructor; [by rewrite lower_char_blank|by apply IH].
Qed.

(** *** The word set *)

Lemma word_set_same (a b : string) : same_up_to_case a b → word_set a = word_set b.
Proof. intros H. unfold word_set. by rewrite (py_lower_same a b H). Qed.

Lemma word_set_app (a b : string) (c : ascii) :
  is_blank c → word_set (a +:+ String c b) = word_set a ∪ word_set b.
Proof.
  intros Hc. unfold word_set. rewrite py_lower_app. cbn [py_lower].
  rewrite py_split_app by (by rewrite lower_char_blank).
  apply list_to_set_app_L.
Qed.

Lemma word_set_word (w : string) : is_word w → word_set w = {[ py_lower w ]}.
Proof.
  intros Hw. unfold word_set. rewrite (py_split_word _ (lower_is_word w Hw)).
  cbn. apply (right_id_L ∅ (∪)).
Qed.

Lemma word_set_blanks (s : string) : Forall is_blank (chars s) → word_set s = ∅.
Proof.
  intros Hs. unfold word_set. by rewrite (py_split_blanks _ (lower_blanks s Hs)).
Qed.

Lemma split_run_inv (P : ascii → Prop) (s : string) :
  Forall P (chars s) →
  Forall P (chars (fst (split_run s)))
  ∧ Forall (λ w, Forall P (chars w)) (snd (split_run s)).
Proof.
  induction s as [|c s IH]; cbn; [by split; constructor|].
  intros [Hc Hs]%Forall_cons. destruct (IH Hs) as [Hw Hws].
  destruct (split_run s) as [w ws]. cbn [fst snd] in *.
  destruct (py_isspace c); cbn [fst snd chars].
  - split; [constructor|]. destruct w; [done|]. by constructor.
  - split; [by constructor|done].
Qed.

Lemma split_run_words (s : string) :
  Forall (λ c, ¬ is_blank c) (chars (fst (split_run s)))
  ∧ Forall is_word (snd (split_run s)).
Proof.
  induction s as [|c s [Hw Hws]]; cbn; [by split; constructor|].
  destruct (split_run s) as [w ws]. cbn [fst snd] in *.
  destruct (py_isspace c) eqn:E; cbn [fst snd chars].
  - split; [constructor|]. destruct w; [done|]. by constructor.
  - split; [|done]. constructor; [|done].
    intros Hc%py_isspace_blank. congruence.
Qed.

(** The items of a word set are words without an upper-case letter. *)
Lemma word_set_words (a w : string) :
  w ∈ word_set a → is_word w ∧ Forall no_upper (chars w).
Proof.
  unfold word_set, py_split. rewrite elem_of_list_to_set.
  pose proof (split_run_words (py_lower a)) as [Hw Hws].
  pose proof (split_run_inv no_upper (py_lower a)
                (proj2 (py_lower_folds a))) as [Hu Hus].
  destruct (split_run (py_lower a)) as [w0 ws]. cbn [fst snd] in *.
  rewrite Forall_forall in Hws, Hus.
  destruct w0 as [|c w0]; cbn [push_word].
  - intros Hin. split; [by apply Hws | by apply Hus].
  - intros [->|Hin]%elem_of_cons; [by split|].
    split; [by apply Hws | by apply Hus].
Qed.

(** C9. The score of two texts is the Jaccard quotient of their word
    sets: the size of the intersection over the size of the union when
    both sets are non-empty, and 0 when either is empty; a value that is
    not text makes the scorer raise [AttributeError]. The word set is
    that of the case-folded, whitespace-split text: two texts that differ
    in the case of their letters only have the same word set; every item
    of a word set is a word (not empty, without whitespace) without an
    upper-case letter; a text of whitespace only, or the empty text, has
    no word; a word alone gives its lower-case form; and two texts joined
    by a whitespace character give the union of their word sets. The score
    is symmetric, lies between 0 and 1, and is 1 on a text with a
    non-empty word set compared with itself; these properties are those
    of the quotient on any two sets of words, whatever texts the sets come
    from. *)
Theorem similarity_is_jaccard (a b : string) :
  _similarity_score (PStr a) (PStr b) = Ok (similarity a b)
  ∧ (∀ v, (∀ s, v ≠ PStr s) →
          _similarity_score v (PStr b) = Raise AttributeError
          ∧ _similarity_score (PStr a) v = Raise AttributeError)
  ∧ (word_set a ≠ ∅ → word_set b ≠ ∅ →
     similarity a b
     = (inject_Z (Z.of_nat (size (word_set a ∩ word_set b)))
        / inject_Z (Z.of_nat (size (word_set a ∪ word_set b))))%Q)
  ∧ (word_set a = ∅ ∨ word_set b = ∅ → similarity a b = 0%Q)
  ∧ (∀ a', same_up_to_case a a' →
           word_set a' = word_set a ∧ similarity a' b = similarity a b)
  ∧ (∀ w, w ∈ word_set a → is_word w ∧ Forall no_upper (chars w))
  ∧ (Forall is_blank (chars a) → word_set a = ∅)
  ∧ (is_word a →
     ∃ w, same_up_to_case a w ∧ Forall no_upper (chars w)
          ∧ word_set a = {[ w ]})
  ∧ (∀ c, is_blank c → word_set (a +:+ String c b) = word_set a ∪ word_set b)
  ∧ similarity a b = similarity b a
  ∧ (0 <= similarity a b <= 1)%Q
  ∧ (word_set a ≠ ∅ → (similarity a a == 1)%Q)
  ∧ (∀ X Y : gset string,
       jaccard X Y = jaccard Y X
       ∧ (0 <= jaccard X Y <= 1)%Q
       ∧ (X = ∅ ∨ Y = ∅ → jaccard X Y = 0%Q)
       ∧ (X ≠ ∅ → (jaccard X X == 1)%Q))
  ∧ (similarity Samples.echec_upper Samples.echec_lower == 1)%Q
  ∧ (similarity "disk  full" Samples.tabbed == 2 # 3)%Q
  ∧ similarity "" "x" = 0%Q.
Proof.
  unfold similarity. split_and!.
  - reflexivity.
  - intros v Hv. split.
    + destruct v; try done. by destruct (Hv s).
    + unfold _similarity_score. cbn [words_of rbind].
      destruct v; try done. by destruct (Hv s).
  - apply jaccard_nonempty.
  - apply jaccard_empty.
  - intros a' Ha. by rewrite (word_set_same a a' Ha).
  - apply word_set_words.
  - apply word_set_blanks.
  - intros Hw. exists (py_lower a).
    pose proof (py_lower_folds a) as [Hs Hu].
    split_and!; [done|done|by apply word_set_word].
  - intros c Hc. by apply word_set_app.
  - apply jaccard_comm.
  - apply jaccard_range.
  - apply jaccard_range.
  - apply jaccard_refl.
  - intros X Y. split_and!;
      [apply jaccard_comm | apply jaccard_range | apply jaccard_range
      | apply jaccard_empty | apply jaccard_refl].
  - vm_compute. reflexivity.
  - vm_compute. reflexivity.
  - vm_compute. reflexivity.
Qed.

Lemma similarity_is_jaccard_witness :
  word_set "Disk full" ≠ ∅
  ∧ (similarity "Disk full" "Disk full" == 1)%Q
  ∧ similarity "" "x" = 0%Q
  ∧ word_set "DISK" = word_set "disk".
Proof.
  assert (word_set "Disk full" ≠ ∅) as HX.
  { apply is_empty_set_false. vm_compute. reflexivity. }
  split; [exact HX|]. split_and!.
  - destruct (similarity_is_jaccard "Disk full" "Disk full")
      as (_ & _ & _ & _ & _ & _ & _ & _ & _ & _ & _ & Hrefl & _).
    exact (Hrefl HX).
  - destruct (similarity_is_jaccard "" "x") as (_ & _ & _ & Hempty & _).
    apply Hempty. left. apply is_empty_set_true. vm_compute. reflexivity.
  - destruct (similarity_is_jaccard "disk" "x") as (_ & _ & _ & _ & Hcase & _).
    apply (Hcase "DISK").
    unfold same_up_to_case. cbn [chars].
    repeat (constructor 2;
            [right; right; split; [left; vm_compute; lia | reflexivity]|]).
    constructor 1.
Defined.

End SimilarityFacts.

(** ** Lemmas on the detector state and its methods *)

Module DetectorLemmas.
Import Py LogAnalyzer.

Lemma length_last_n {A} (n : nat) (l : list A) :
  length (last_n n l) = Nat.min n (length l).
Proof. unfold last_n. rewrite length_drop. lia. Qed.

Lemma last_n_suffix {A} (n : nat) (l : list A) : last_n n l `suffix_of` l.
Proof. apply suffix_drop. Qed.

Lemma Qgtb_true (a b : Q) : Qgtb a b = true ↔ (b < a)%Q.
Proof.
  unfold Qgtb. rewrite negb_true_iff, <- not_true_iff_false, Qle_bool_iff.
  split; [apply Qnot_le_lt | apply Qlt_not_le].
Qed.

Lemma Qgtb_false (a b : Q) : Qgtb a b = false ↔ ¬ (b < a)%Q.
Proof. rewrite <- Qgtb_true. by destruct (Qgtb a b). Qed.

Lemma history_insert (m : gmap pykey (list pyval)) (k k' : pykey) (l : list pyval) :
  history (<[k := l]> m) k' = if decide (k = k') then l else history m k'.
Proof.
  unfold history. rewrite lookup_insert. by destruct (decide (k = k')).
Qed.

Lemma timed_guard event v :
  timed event v →
  eq_str (event_type event) "tool_use" && truthy (metrics event) = true
  ∧ py_get (metrics event) "execution_time" (PNum 0) = Ok v.
Proof.
  intros [Hty (m & Hm & Hv)]. rewrite Hty, Hm. split.
  - destruct m; [done|]. reflexivity.
  - simpl. unfold dict_get. by rewrite Hv.
Qed.

(** What [_detect_performance_issues] does on a timed [tool_use] event:
    the time is appended to the history of the tool, and the outcome is
    decided on the last 20 entries. *)
Lemma detect_performance_records event v k self :
  eq_str (event_type event) "tool_use" && truthy (metrics event) = true →
  py_get (metrics event) "execution_time" (PNum 0) = Ok v →
  tool_key event k →
  let timings := history (command_timings self) k ++ [v] in
  let recent := last_n 20 timings in
  history (command_timings (snd (_detect_performance_issues event self))) k
  = timings
  ∧ fst (_detect_performance_issues event self)
    = if (5 <? length recent)%nat then
        match np_median recent with
        | Raise e => Raise e
        | Ok baseline =>
            match as_num v with
            | None => Raise TypeError
            | Some t =>
                match to_float64 t with
                | Raise e => Raise e
                | Ok time =>
                    if Qgtb time (round64 (baseline * 2)) then
                      Ok [ {| pi_type := "slow_tool_execution";
                              pi_tool_name :=
                                dict_get (data event) "tool_name"
                                         (PStr "unknown");
                              pi_execution_time := v;
                              pi_baseline := baseline;
                              pi_severity :=
                                if Qgtb time (round64 (baseline * 3))
                                then "high" else "medium" |} ]
                    else Ok []
                end
            end
        end
      else Ok [].
Proof.
  intros Hg Hv Hk. unfold tool_key in Hk. intros timings recent.
  unfold _detect_performance_issues. rewrite Hg.
  unfold bind, lift, append_timing, ret. rewrite Hv, Hk. cbn [fst snd].
  fold timings. fold recent.
  destruct (5 <? length recent)%nat.
  - destruct (np_median recent) as [baseline|e]; cbn.
    + destruct (as_num v) as [t|]; cbn.
      * destruct (to_float64 t) as [time|e]; cbn.
        -- destruct (Qgtb time (round64 (baseline * 2))); cbn;
             by rewrite history_insert, decide_True.
        -- by rewrite history_insert, decide_True.
      * by rewrite history_insert, decide_True.
    + by rewrite history_insert, decide_True.
  - cbn. by rewrite history_insert, decide_True.
Qed.

Lemma detect_performance_timed event v k self :
  timed event v → tool_key event k →
  let timings := history (command_timings self) k ++ [v] in
  let recent := last_n 20 timings in
  history (command_timings (snd (_detect_performance_issues event self))) k
  = timings
  ∧ fst (_detect_performance_issues event self)
    = if (5 <? length recent)%nat then
        match np_median recent with
        | Raise e => Raise e
        | Ok baseline =>
            match as_num v with
            | None => Raise TypeError
            | Some t =>
                match to_float64 t with
                | Raise e => Raise e
                | Ok time =>
                    if Qgtb time (round64 (baseline * 2)) then
                      Ok [ {| pi_type := "slow_tool_execution";
                              pi_tool_name :=
                                dict_get (data event) "tool_name"
                                         (PStr "unknown");
                              pi_execution_time := v;
                              pi_baseline := baseline;
                              pi_severity :=
                                if Qgtb time (round64 (baseline * 3))
                                then "high" else "medium" |} ]
                    else Ok []
                end
            end
        end
      else Ok [].
Proof.
  intros Ht Hk. destruct (timed_guard _ _ Ht) as [Hg Hv].
  by apply detect_performance_records.
Qed.

Lemma untimed_guard event :
  untimed event →
  eq_str (event_type event) "tool_use" && truthy (metrics event) = true
  ∧ py_get (metrics event) "execution_time" (PNum 0) = Ok (PNum 0).
Proof.
  intros [Hty (m & Hm & Hne & Hv)]. rewrite Hty, Hm. split.
  - by destruct m.
  - simpl. unfold dict_get. by rewrite Hv.
Qed.

Lemma last_n_app_short {A} (n : nat) (l later : list A) :
  (length later <= n)%nat →
  last_n n (l ++ later) = last_n (n - length later) l ++ later.
Proof.
  intros H. unfold last_n. rewrite length_app.
  destruct (Nat.le_gt_cases (length l + length later) n) as [Hle|Hgt].
  - replace (length l + length later - n)%nat with 0%nat by lia.
    by replace (length l - (n - length later))%nat with 0%nat by lia.
  - rewrite drop_app_le by lia. f_equal. f_equal. lia.
Qed.

Lemma last_n_app_long {A} (n : nat) (l later : list A) :
  (n <= length later)%nat → last_n n (l ++ later) = last_n n later.
Proof.
  intros H. unfold last_n. rewrite length_app, drop_app_ge by lia.
  f_equal. lia.
Qed.

Lemma detect_performance_small event v k self :
  timed event v → tool_key event k →
  (length (history (command_timings self) k ++ [v]) < 6)%nat →
  fst (_detect_performance_issues event self) = Ok [].
Proof.
  intros Ht Hk Hlen.
  destruct (detect_performance_timed event v k self Ht Hk) as [_ ->].
  rewrite length_last_n.
  destruct (Nat.ltb_spec 5
    (Nat.min 20 (length (history (command_timings self) k ++ [v])))); [lia|done].
Qed.

Lemma completes_guard event k v :
  completes event k v → eq_str (event_type event) "agent_complete" = true.
Proof. by intros [-> _]. Qed.

(** What [_detect_success_indicators] does on an [agent_complete] event:
    the flag is appended to the history of the agent, and the outcome is
    decided on the last 10 entries. *)
Lemma detect_success_complete event k v self :
  completes event k v →
  let rates := history (agent_success_rates self) k ++ [v] in
  let recent := last_n 10 rates in
  history (agent_success_rates (snd (_detect_success_indicators event self))) k
  = rates
  ∧ fst (_detect_success_indicators event self)
    = if (5 <=? length recent)%nat then
        match py_sum recent with
        | Raise e => Raise e
        | Ok total =>
            let success_rate :=
              (total / inject_Z (Z.of_nat (length recent)))%Q in
            if Qgtb success_rate (8 # 10) then
              Ok [ {| si_type := "high_success_agent";
                      si_agent_name :=
                        dict_get (data event) "agent_name" (PStr "unknown");
                      si_success_rate := success_rate;
                      si_sample_size := length recent |} ]
            else Ok []
        end
      else Ok [].
Proof.
  intros Hc. pose proof (completes_guard _ _ _ Hc) as Hg.
  destruct Hc as (_ & Hk & Hv). intros rates recent.
  unfold _detect_success_indicators. rewrite Hg.
  unfold bind, lift, append_success, ret. rewrite Hk, Hv. cbn [fst snd].
  fold rates. fold recent.
  destruct (5 <=? length recent)%nat.
  - destruct (py_sum recent) as [total|e]; cbn.
    + destruct (Qgtb _ _); cbn; by rewrite history_insert, decide_True.
    + by rewrite history_insert, decide_True.
  - cbn. by rewrite history_insert, decide_True.
Qed.


Lemma fails_with_guard event msg :
  fails_with event msg →
  eq_str (event_type event) "tool_use"
  && truthy (dict_get (data event) "error" PNone) = true
  ∧ dict_get (data event) "error" PNone = PStr msg.
Proof.
  intros (Hty & Herr & Hne). unfold dict_get. rewrite Hty, Herr. split; [|done].
  cbn. apply negb_true_iff. by apply String.eqb_neq.
Qed.

(** On a window whose error fields are text the scan of the error detector
    does not raise: it keeps the events that [similar_to] accepts. *)
Lemma scan_text_window (msg : string) (window : list LogEvent) :
  errors_are_text window →
  filter_r (is_similar_error (PStr msg)) window
  = Ok (filter (λ e, similar_to msg e = true) window).
Proof.
  induction window as [|e window IH]; intros Htext; [done|].
  cbn [filter_r]. rewrite IH; clear IH.
  2:{ intros e' He'. apply Htext. by right. }
  rewrite filter_cons. unfold is_similar_error, similar_to.
  destruct (eq_str (event_type e) "tool_use"
            && truthy (dict_get (data e) "error" PNone)) eqn:Eg.
  - destruct (Htext e) as [s Hs]; [by left | done |].
    apply andb_true_iff in Eg as [Ety Etr]. rewrite Ety, Hs in *.
    cbn in Etr. rewrite Etr. cbn.
    fold (similarity s msg). by destruct (Qgtb (similarity s msg) (8 # 10)).
  - cbn. apply andb_false_iff in Eg as [Ety | Etr].
    + by rewrite Ety.
    + destruct (eq_str (event_type e) "tool_use"); [|done]. cbn.
      destruct (dict_get (data e) "error" PNone) as [| | |s| |]; try done.
      cbn in Etr. by rewrite Etr.
Qed.

Lemma detect_error_patterns_scan event msg self sims :
  fails_with event msg →
  filter_r (is_similar_error (PStr msg)) (recent_events self) = Ok sims →
  fst (_detect_error_patterns event self)
  = Ok (if (3 <? length sims)%nat then
          [ {| ep_type := "recurring_error";
               ep_tool_name := dict_get (data event) "tool_name" (PStr "unknown");
               ep_error_message := PStr msg;
               ep_occurrence_count := length sims;
               ep_severity := "high" |} ]
        else []).
Proof.
  intros Hf Hs. destruct (fails_with_guard _ _ Hf) as [Hg Hm].
  unfold _detect_error_patterns. rewrite Hg, Hm.
  unfold bind, lift, get_self, ret. rewrite Hs.
  by destruct (3 <? length sims)%nat.
Qed.

Lemma filter_length_sublist {A} (P : A → Prop) `{!∀ x, Decision (P x)}
    (l1 l2 : list A) :
  l1 `sublist_of` l2 → (length (filter P l1) <= length (filter P l2))%nat.
Proof.
  induction 1 as [|x l1 l2 _ IH|x l1 l2 _ IH]; [done| |].
  - rewrite !filter_cons. destruct (decide (P x)); simpl; lia.
  - rewrite filter_cons. destruct (decide (P x)); simpl; lia.
Qed.

Lemma similar_to_same event msg :
  fails_with event msg → word_set msg ≠ ∅ → similar_to msg event = true.
Proof.
  intros (Hty & Herr & Hne) Hw. unfold similar_to, dict_get.
  rewrite Hty, Herr. cbn. apply andb_true_iff. split.
  - apply negb_true_iff. by apply String.eqb_neq.
  - apply Qgtb_true.
    unfold similarity. rewrite (SimilarityFacts.jaccard_refl _ Hw). reflexivity.
Qed.

(** Numeric timings: a history of numbers stays one when a number is
    recorded, and every window of it is a list of numbers. *)
Lemma nums_of_app (l l' : list pyval) (qs qs' : list Q) :
  nums_of l = Some qs → nums_of l' = Some qs' →
  nums_of (l ++ l') = Some (qs ++ qs').
Proof.
  revert qs. induction l as [|v l IH]; intros qs; cbn.
  - by intros [= <-].
  - destruct (as_num v); [|done]. destruct (nums_of l) as [qs0|]; [|done].
    intros [= <-] H'. by rewrite (IH qs0 eq_refl H').
Qed.

Lemma nums_of_drop (n : nat) (l : list pyval) (qs : list Q) :
  nums_of l = Some qs → nums_of (drop n l) = Some (drop n qs).
Proof.
  revert l qs. induction n as [|n IH]; intros l qs; [done|].
  destruct l as [|v l]; cbn.
  - by intros [= <-].
  - destruct (as_num v); [|done]. destruct (nums_of l) as [qs0|] eqn:E; [|done].
    intros [= <-]. cbn. by apply IH.
Qed.

Lemma numeric_window (self : PatternDetector) (k : pykey) (v : pyval) (t : Q) :
  numeric_timings self → as_num v = Some t →
  ∃ qs, nums_of (last_n 20 (history (command_timings self) k ++ [v])) = Some qs.
Proof.
  intros Hnum Hv. destruct (Hnum k) as [qs Hqs].
  eexists. unfold last_n. apply nums_of_drop.
  apply (nums_of_app _ [v] qs [t] Hqs). cbn. by rewrite Hv.
Qed.

Lemma performance_keeps_numeric event self :
  numeric_timings self → numeric_time event →
  numeric_timings (snd (_detect_performance_issues event self)).
Proof.
  intros Hnum Hev. unfold _detect_performance_issues.
  destruct (eq_str (event_type event) "tool_use" && truthy (metrics event));
    [|done].
  unfold bind, lift. destruct (metrics event) as [| | | | |m] eqn:Hm; try done.
  cbn [py_get].
  destruct (hash_key (dict_get (data event) "tool_name" (PStr "unknown")))
    as [k|e]; [|done].
  assert (∃ t, as_num (dict_get m "execution_time" (PNum 0)) = Some t) as [t Ht].
  { unfold dict_get. destruct (dict_lookup m "execution_time") as [v|] eqn:Hv.
    - by apply (Hev m v).
    - by exists 0%Q. }
  assert (numeric_timings (snd (append_timing k
            (dict_get m "execution_time" (PNum 0)) self))) as Happ.
  { intros k'. cbn. rewrite history_insert. destruct (decide (k = k')) as [<-|].
    - destruct (Hnum k) as [qs Hqs]. eexists.
      apply (nums_of_app _ [_] qs [t] Hqs). cbn. by rewrite Ht.
    - apply Hnum. }
  revert Happ. unfold append_timing, ret. cbn [fst snd].
  repeat case_match; simplify_eq/=; done.
Qed.

(** The parts of the detector that each method leaves alone. *)
Lemma performance_frame event self :
  agent_success_rates (snd (_detect_performance_issues event self))
  = agent_success_rates self
  ∧ recent_events (snd (_detect_performance_issues event self))
    = recent_events self.
Proof.
  unfold _detect_performance_issues, bind, lift, append_timing, ret.
  repeat case_match; simplify_eq/=; done.
Qed.

Lemma error_patterns_frame event self :
  snd (_detect_error_patterns event self) = self.
Proof.
  unfold _detect_error_patterns, bind, lift, get_self, ret.
  repeat case_match; simplify_eq/=; done.
Qed.

Lemma success_frame event self :
  command_timings (snd (_detect_success_indicators event self))
  = command_timings self
  ∧ recent_events (snd (_detect_success_indicators event self))
    = recent_events self.
Proof.
  unfold _detect_success_indicators, bind, lift, append_success, ret.
  repeat case_match; simplify_eq/=; done.
Qed.

(** A method appends at most one item to a history and removes none. *)
Lemma performance_appends event self k :
  history (command_timings (snd (_detect_performance_issues event self))) k
  = history (command_timings self) k
  ∨ ∃ v, history (command_timings (snd (_detect_performance_issues event self))) k
         = history (command_timings self) k ++ [v].
Proof.
  unfold _detect_performance_issues, bind, lift, append_timing, ret.
  repeat case_match; simplify_eq/=; rewrite ?history_insert;
    try case_decide; subst; eauto.
Qed.

Lemma success_appends event self k :
  history (agent_success_rates (snd (_detect_success_indicators event self))) k
  = history (agent_success_rates self) k
  ∨ ∃ v, history (agent_success_rates (snd (_detect_success_indicators event self))) k
         = history (agent_success_rates self) k ++ [v].
Proof.
  unfold _detect_success_indicators, bind, lift, append_success, ret.
  repeat case_match; simplify_eq/=; rewrite ?history_insert;
    try case_decide; subst; eauto.
Qed.

Section WithOutlierTest.
Variable is_outlier : list Q -> Q -> bool.

(** [analyze_event] returns normally only when the four detectors do, run
    one after the other on the detector state that holds the new event. *)
Lemma analyze_event_inv event self a self' :
  analyze_event is_outlier event self = (Ok a, self') →
  ∃ s1 s2 s3,
    _detect_performance_issues event (snd (append_recent event self))
    = (Ok (performance_issues a), s1)
    ∧ _detect_error_patterns event s1 = (Ok (error_patterns a), s2)
    ∧ _detect_success_indicators event s2 = (Ok (success_indicators a), s3)
    ∧ _detect_anomalies is_outlier event s3 = (Ok (anomalies a), self').
Proof.
  unfold analyze_event, bind, ret. cbn [append_recent snd].
  destruct (_detect_performance_issues event _) as [[p|?] s1]; [|done].
  destruct (_detect_error_patterns event s1) as [[e|?] s2] eqn:E2; [|done].
  destruct (_detect_success_indicators event s2) as [[c|?] s3] eqn:E3; [|done].
  destruct (_detect_anomalies is_outlier event s3) as [[n|?] s4] eqn:E4; [|done].
  intros [= Ha Hs]. subst a self'. by exists s1, s2, s3.
Qed.

Lemma anomalies_frame event self :
  snd (_detect_anomalies is_outlier event self) = self.
Proof.
  unfold _detect_anomalies, bind, lift, get_self, ret.
  repeat case_match; simplify_eq/=; done.
Qed.

(** The detector after [analyze_event], whether the call raised or not:
    the window took the event, and each history kept its items. *)
Lemma analyze_event_state event self :
  let self' := snd (analyze_event is_outlier event self) in
  recent_events self' = last_n maxlen (recent_events self ++ [event])
  ∧ (∀ k, history (command_timings self) k
          `prefix_of` history (command_timings self') k)
  ∧ (∀ k, history (agent_success_rates self) k
          `prefix_of` history (agent_success_rates self') k).
Proof.
  set (s0 := snd (append_recent event self)).
  pose proof (performance_frame event s0) as [Hp1 Hp2].
  pose proof (λ k, performance_appends event s0 k) as Hp3.
  set (s1 := snd (_detect_performance_issues event s0)) in *.
  pose proof (error_patterns_frame event s1) as He.
  pose proof (success_frame event s1) as [Hs1 Hs2].
  pose proof (λ k, success_appends event s1 k) as Hs3.
  set (s2 := snd (_detect_success_indicators event s1)) in *.
  pose proof (anomalies_frame event s2) as Ha.
  assert (snd (analyze_event is_outlier event self) = s1
          ∨ snd (analyze_event is_outlier event self) = s2) as Hcases.
  { unfold analyze_event, bind, ret. cbn [append_recent].
    fold s0. unfold s2, s1 in *. clear Hp1 Hp2 Hp3 Hs1 Hs2 Hs3.
    destruct (_detect_performance_issues event _) as [[?|?] t1]; [|by left].
    cbn [snd] in *.
    destruct (_detect_error_patterns event t1) as [[?|?] t2];
      cbn [snd] in *; subst t2; [|by left].
    destruct (_detect_success_indicators event t1) as [[?|?] t3];
      cbn [snd] in *; [|by right].
    destruct (_detect_anomalies is_outlier event t3) as [[?|?] t4];
      cbn [snd] in *; subst t4; by right. }
  intros self'. unfold self'. clear self'.
  assert (∀ (l l' : list pyval), l' = l ∨ (∃ v, l' = l ++ [v]) → l `prefix_of` l')
    as Hpre.
  { intros l l' [->|[v ->]]; [done | by apply prefix_app_r]. }
  destruct Hcases as [-> | ->].
  - split_and!.
    + by rewrite Hp2.
    + intros k. by apply Hpre, Hp3.
    + intros k. by rewrite Hp1.
  - split_and!.
    + by rewrite Hs2, Hp2.
    + intros k. rewrite Hs1. by apply Hpre, Hp3.
    + intros k. etrans; [|by apply Hpre, Hs3]. by rewrite Hp1.
Qed.

Lemma analyze_event_timings event self :
  command_timings (snd (analyze_event is_outlier event self))
  = command_timings
      (snd (_detect_performance_issues event (snd (append_recent event self)))).
Proof.
  unfold analyze_event, bind, ret. cbn [append_recent snd].
  destruct (_detect_performance_issues event _) as [[?|?] s1]; [|done].
  pose proof (error_patterns_frame event s1) as He.
  destruct (_detect_error_patterns event s1) as [[?|?] s2];
    cbn [snd] in *; subst s2; [|done].
  pose proof (success_frame event s1) as [Hs _].
  destruct (_detect_success_indicators event s1) as [[?|?] s3];
    cbn [snd] in *; [|done].
  pose proof (anomalies_frame event s3) as Ha.
  destruct (_detect_anomalies is_outlier event s3) as [[?|?] s4];
    cbn [snd] in *; by subst s4.
Qed.

Lemma analyze_event_timed event v k self :
  timed event v → tool_key event k →
  history (command_timings (snd (analyze_event is_outlier event self))) k
  = history (command_timings self) k ++ [v].
Proof.
  intros Ht Hk. rewrite analyze_event_timings.
  by destruct (detect_performance_timed event v k
                 (snd (append_recent event self)) Ht Hk) as [-> _].
Qed.

(** An [agent_complete] event passes the two detectors that come first
    untouched, so its flag is recorded. *)
Lemma analyze_event_completes event k v self :
  completes event k v →
  history (agent_success_rates (snd (analyze_event is_outlier event self))) k
  = history (agent_success_rates self) k ++ [v].
Proof.
  intros Hc. pose proof Hc as (Hty & _).
  destruct (detect_success_complete event k v
              (snd (append_recent event self)) Hc) as [Hh _].
  cbn [append_recent snd agent_success_rates] in Hh. rewrite <- Hh.
  unfold analyze_event, bind, ret. cbn [append_recent snd].
  unfold _detect_performance_issues, _detect_error_patterns. rewrite Hty.
  cbn [eq_str String.eqb Ascii.eqb Bool.eqb andb ret].
  destruct (_detect_success_indicators event _) as [[?|?] s3] eqn:E3;
    cbn [snd]; [|done].
  pose proof (anomalies_frame event s3) as Ha.
  destruct (_detect_anomalies is_outlier event s3) as [[?|?] s4];
    cbn [snd] in *; by subst s4.
Qed.

(** Along a stream every history keeps what it held, in the same order. *)
Lemma run_keeps_histories events self k :
  history (command_timings self) k
  `prefix_of` history (command_timings (run is_outlier events self)) k
  ∧ history (agent_success_rates self) k
    `prefix_of` history (agent_success_rates (run is_outlier events self)) k.
Proof.
  revert self. induction events as [|event events IH]; intros self.
  - done.
  - cbn [run fold_left].
    destruct (analyze_event_state event self) as (_ & Ht & Hs).
    destruct (IH (snd (analyze_event is_outlier event self))) as [IHt IHs].
    split; etrans; eauto.
Qed.

Lemma analyze_event_keeps_numeric event self :
  numeric_timings self → numeric_time event →
  numeric_timings (snd (analyze_event is_outlier event self)).
Proof.
  intros Hnum Hev k. rewrite analyze_event_timings.
  by apply performance_keeps_numeric.
Qed.

Lemma run_keeps_numeric events self :
  numeric_timings self → Forall numeric_time events →
  numeric_timings (run is_outlier events self).
Proof.
  revert self. induction events as [|event events IH]; intros self Hnum Hall.
  - done.
  - apply Forall_cons in Hall as [Hev Hall]. cbn [run fold_left].
    apply IH; [|done]. by apply analyze_event_keeps_numeric.
Qed.

(** [analyze_event] passes on the first exception of a detector. *)
Lemma analyze_event_raise event self :
  fst (analyze_event is_outlier event self)
  = match _detect_performance_issues event (snd (append_recent event self)) with
    | (Raise e, _) => Raise e
    | (Ok perf, s1) =>
        match _detect_error_patterns event s1 with
        | (Raise e, _) => Raise e
        | (Ok errs, s2) =>
            match _detect_success_indicators event s2 with
            | (Raise e, _) => Raise e
            | (Ok succ, s3) =>
                match _detect_anomalies is_outlier event s3 with
                | (Raise e, _) => Raise e
                | (Ok anom, _) =>
                    Ok {| performance_issues := perf;
                          error_patterns := errs;
                          success_indicators := succ;
                          anomalies := anom |}
                end
            end
        end
    end.
Proof.
  unfold analyze_event, bind, ret. cbn [append_recent snd].
  destruct (_detect_performance_issues event _) as [[?|?] s1]; [|done].
  destruct (_detect_error_patterns event s1) as [[?|?] s2]; [|done].
  destruct (_detect_success_indicators event s2) as [[?|?] s3]; [|done].
  by destruct (_detect_anomalies is_outlier event s3) as [[?|?] s4].
Qed.

(** The loop of [analyze_log_file] stops at the first event on which
    [analyze_event] raises. *)
Lemma analyze_events_raise pre event post self ps self1 e :
  analyze_events is_outlier pre self = (Ok ps, self1) →
  fst (analyze_event is_outlier event self1) = Raise e →
  fst (analyze_events is_outlier (pre ++ event :: post) self) = Raise e.
Proof.
  revert self ps. induction pre as [|ev pre IH]; intros self ps Hpre He;
    cbn [app analyze_events] in *; unfold bind, ret in *.
  - injection Hpre as _ <-.
    destruct (analyze_event is_outlier event self) as [[?|?] s];
      cbn in *; by simplify_eq.
  - destruct (analyze_event is_outlier ev self) as [[a|?] s]; [|done].
    destruct (analyze_events is_outlier pre s) as [[ps'|?] s'] eqn:E; [|done].
    injection Hpre as _ <-. specialize (IH s ps' E He).
    destruct (analyze_events is_outlier (pre ++ event :: post) s)
      as [[?|?] ?]; cbn in *; by simplify_eq.
Qed.

End WithOutlierTest.

End DetectorLemmas.

(** ** The performance detector *)

Module Performance.
Import Py LogAnalyzer DetectorLemmas FloatFacts.

(** The time of the event is the last number of the window. *)
Lemma window_last (h : list pyval) (v : pyval) (t : Q) (qs : list Q) :
  nums_of (last_n 20 (h ++ [v])) = Some qs → as_num v = Some t →
  ∃ qs', qs = qs' ++ [t].
Proof.
  intros Hqs Hv. rewrite (last_n_app_short 20 h [v]) in Hqs by (cbn; lia).
  revert qs Hqs. induction (last_n (20 - length [v]) h) as [|x l IH];
    intros qs; cbn.
  - rewrite Hv. intros [= <-]. by exists [].
  - destruct (as_num x) as [q|]; [|done].
    destruct (nums_of (l ++ [v])) as [qs0|]; [|done].
    intros [= <-]. destruct (IH qs0 eq_refl) as [qs' ->]. by exists (q :: qs').
Qed.

(** The outcome of the detector on a window of numbers that NumPy holds
    as machine numbers. *)
Lemma detect_performance_rule event v k self t qs :
  timed event v → tool_key event k → as_num v = Some t →
  nums_of (last_n 20 (history (command_timings self) k ++ [v])) = Some qs →
  Forall in_range qs →
  (6 <= length (history (command_timings self) k ++ [v]))%nat →
  let baseline := median64 (map round64 qs) in
  fst (_detect_performance_issues event self)
  = Ok (if Qgtb (round64 t) (round64 (baseline * 2)) then
          [ {| pi_type := "slow_tool_execution";
               pi_tool_name := dict_get (data event) "tool_name" (PStr "unknown");
               pi_execution_time := v;
               pi_baseline := baseline;
               pi_severity :=
                 if Qgtb (round64 t) (round64 (baseline * 3))
                 then "high" else "medium" |} ]
        else []).
Proof.
  intros Ht Hk Hv Hqs Hr Hlen baseline.
  destruct (detect_performance_timed event v k self Ht Hk) as [_ ->].
  rewrite length_last_n.
  destruct (Nat.ltb_spec 5
    (Nat.min 20 (length (history (command_timings self) k ++ [v])))); [|lia].
  destruct (window_last _ _ _ _ Hqs Hv) as [qs' Hlast].
  assert (in_range t) as Hrt.
  { rewrite Forall_forall in Hr. apply Hr. rewrite Hlast.
    apply elem_of_app. right. by left. }
  unfold np_median. rewrite Hqs, (map_to_float64_in_range qs Hr). cbn [rbind].
  rewrite Hv, (to_float64_in_range t Hrt). fold baseline.
  by destruct (Qgtb (round64 t) (round64 (baseline * 2))).
Qed.

(** Whole numbers below [2^50]: their doubles, their median and its
    multiples are exact. *)
Lemma small_whole_in_range (q : Q) : small_whole q → in_range q.
Proof.
  intros (z & -> & Hz). unfold in_range.
  assert (Qabs (inject_Z z) == inject_Z (Z.abs z)) as ->
    by (unfold inject_Z; by rewrite <- Zabs_Qabs).
  rewrite <- Zlt_Qlt. lia.
Qed.

Lemma small_whole_doubles (qs : list Q) :
  Forall small_whole qs → map round64 qs = qs.
Proof.
  induction 1 as [|q qs (z & -> & Hz) _ IH]; [done|].
  cbn. rewrite IH, round64_whole; [done|lia].
Qed.

Lemma nth_small_whole (s : list Q) (i : nat) :
  Forall small_whole s → (i < length s)%nat → small_whole (nth i s 0%Q).
Proof.
  intros Hs Hi. rewrite Forall_forall in Hs. apply Hs.
  apply list_elem_of_In, nth_In, Hi.
Qed.

Lemma mean_of_two_whole (a b : Q) :
  small_whole a → small_whole b →
  (mean_of_two a b == (a + b) / 2)%Q
  ∧ ∃ m, ((a + b) / 2 == inject_Z m / pow2 1)%Q ∧ (Z.abs m < 2 ^ 51)%Z.
Proof.
  intros (za & -> & Ha) (zb & -> & Hb).
  assert (round64 (inject_Z za + inject_Z zb) == inject_Z (za + zb))%Q as Hsum.
  { rewrite (round64_exact _ (za + zb) 0); [by rewrite inject_Z_plus| |lia|lia].
    rewrite inject_Z_plus. change (pow2 0) with 1%Q. field. }
  split.
  - unfold mean_of_two.
    rewrite (round64_exact _ (za + zb) 1); [| |lia|lia].
    + by rewrite Hsum, inject_Z_plus.
    + rewrite Hsum. reflexivity.
  - exists (za + zb)%Z. split; [|lia]. rewrite inject_Z_plus. reflexivity.
Qed.

Lemma median64_whole (qs : list Q) :
  Forall small_whole qs → (0 < length qs)%nat →
  exact_median qs (median64 qs)
  ∧ ∃ m, (median64 qs == inject_Z m / pow2 1)%Q ∧ (Z.abs m < 2 ^ 51)%Z.
Proof.
  intros Hqs Hlen.
  assert (Forall small_whole (sort_Q qs)) as Hs by (by rewrite sort_Q_perm).
  assert (length (sort_Q qs) = length qs) as Hl
    by apply Permutation_length, sort_Q_perm.
  assert (length qs / 2 < length qs)%nat as Hmid
    by (apply Nat.div_lt; lia).
  unfold median64. rewrite Hl.
  destruct (Nat.even (length qs)) eqn:Ev.
  - destruct (mean_of_two_whole
                (nth (length qs / 2 - 1) (sort_Q qs) 0%Q)
                (nth (length qs / 2) (sort_Q qs) 0%Q)) as (Hm & m & Hmq & Hmb).
    { apply nth_small_whole; [done|lia]. }
    { apply nth_small_whole; [done|lia]. }
    split.
    + exists (sort_Q qs).
      split_and!; [apply sort_Q_perm | apply sort_Q_sorted |].
      by rewrite Ev.
    + exists m. split; [by rewrite Hm|lia].
  - split.
    + exists (sort_Q qs).
      split_and!; [apply sort_Q_perm | apply sort_Q_sorted |].
      by rewrite Ev.
    + destruct (nth_small_whole (sort_Q qs) (length qs / 2) Hs ltac:(lia))
        as (z & -> & Hz).
      exists (2 * z)%Z. split; [|lia].
      rewrite inject_Z_mult. change (pow2 1) with 2%Q. field.
Qed.

Lemma multiples_exact (b : Q) (m : Z) :
  (b == inject_Z m / pow2 1)%Q → (Z.abs m < 2 ^ 51)%Z →
  (round64 (b * 2) == b * 2)%Q ∧ (round64 (b * 3) == b * 3)%Q.
Proof.
  intros Hb Hm. split.
  - apply (round64_exact _ m 0); [|lia|lia]. rewrite Hb.
    change (pow2 1) with 2%Q. change (pow2 0) with 1%Q. field.
  - apply (round64_exact _ (3 * m) 1); [|lia|lia].
    rewrite Hb, inject_Z_mult. field. change (pow2 1) with 2%Q. lra.
Qed.

(** Seven timings whose last is above twice their median and whose double
    is not; seven timings whose last is above three times their median
    and whose double is not above the rounded product. *)
Lemma rounding_decides_the_finding :
  last (run_results Samples.no_outlier
          (map (Samples.timed_tool_use "X")
               (repeat (inject_Z (2 ^ 52)) 6 ++ [inject_Z (2 ^ 53 + 1)])) init)
  = Some (Ok {| performance_issues := []; error_patterns := [];
                success_indicators := []; anomalies := [] |})
  ∧ (∃ a i,
       last (run_results Samples.no_outlier
               (map (Samples.timed_tool_use "X")
                    (repeat Samples.tenth 6 ++ [Samples.three_tenths])) init)
       = Some (Ok a)
       ∧ performance_issues a = [i]
       ∧ pi_severity i = "medium"
       ∧ (pi_baseline i * 3 < Samples.three_tenths)%Q)
  ∧ ¬ exact_slow_rule.
Proof.
  split_and!.
  - vm_compute. reflexivity.
  - eexists _, _. split; [vm_compute; reflexivity|]. by split_and!.
  - intros Hc.
    destruct (Hc (Samples.timed_tool_use "X" (inject_Z (2 ^ 53 + 1)))
                (PNum (inject_Z (2 ^ 53 + 1))) (KStr "X")
                (run Samples.no_outlier
                     (map (Samples.timed_tool_use "X")
                          (repeat (inject_Z (2 ^ 52)) 6)) init)
                (inject_Z (2 ^ 53 + 1))
                (repeat (inject_Z (2 ^ 52)) 6 ++ [inject_Z (2 ^ 53 + 1)])
                (inject_Z (2 ^ 52)))
      as (issues & Hres & Hiff & _).
    + split; [reflexivity|]. eexists. split; reflexivity.
    + reflexivity.
    + reflexivity.
    + vm_compute. reflexivity.
    + vm_compute. lia.
    + exists (repeat (inject_Z (2 ^ 52)) 6 ++ [inject_Z (2 ^ 53 + 1)]).
      split_and!; [done| |reflexivity].
      repeat (constructor; [|repeat constructor; vm_compute; discriminate]).
      constructor.
    + vm_compute in Hres. injection Hres as <-.
      by apply Hiff.
Qed.

Section WithOutlierTest.
Variable is_outlier : list Q -> Q -> bool.

(** C3, as the code has it. On a [tool_use] event that carries an
    execution time, the performance detector records the time and then:
    with fewer than 6 timings recorded for the tool it reports nothing;
    with 6 or more it compares in double precision. For timings below
    [2^63] in magnitude, the baseline is the median that NumPy computes on
    the doubles of the last 20 recorded timings, and a slow execution is
    reported exactly when the double of the time exceeds the double of
    twice the baseline, with severity high exactly when it exceeds the
    double of three times the baseline and medium otherwise; there is one
    such baseline. For whole-number timings below [2^50] in magnitude no
    rounding takes place: the baseline is the exact median and the report
    is made exactly when the time exceeds twice the median, with severity
    high exactly when it exceeds three times the median. [analyze_event]
    returns the report of the detector, and 19 timings of 1 followed by a
    timing of 10 give one report of severity high. *)
Theorem slow_execution_rule :
  (∀ event v k self,
     timed event v → tool_key event k →
     (length (history (command_timings self) k ++ [v]) < 6)%nat →
     fst (_detect_performance_issues event self) = Ok [])
  ∧ (∀ event v k self t qs,
       timed event v → tool_key event k → as_num v = Some t →
       nums_of (last_n 20 (history (command_timings self) k ++ [v])) = Some qs →
       Forall in_range qs →
       (6 <= length (history (command_timings self) k ++ [v]))%nat →
       (∃ baseline, median_of_doubles qs baseline)
       ∧ ∀ baseline, median_of_doubles qs baseline →
         ∃ issues,
           fst (_detect_performance_issues event self) = Ok issues
           ∧ (issues ≠ [] ↔ (round64 (baseline * 2) < round64 t)%Q)
           ∧ ∀ i, i ∈ issues →
               issues = [i]
               ∧ pi_type i = "slow_tool_execution"
               ∧ pi_execution_time i = v
               ∧ pi_baseline i = baseline
               ∧ (pi_severity i = "high"
                  ↔ (round64 (baseline * 3) < round64 t)%Q)
               ∧ (pi_severity i = "medium"
                  ↔ ¬ (round64 (baseline * 3) < round64 t)%Q))
  ∧ (∀ event v k self t qs,
       timed event v → tool_key event k → as_num v = Some t →
       nums_of (last_n 20 (history (command_timings self) k ++ [v])) = Some qs →
       Forall small_whole qs →
       (6 <= length (history (command_timings self) k ++ [v]))%nat →
       ∃ issues baseline,
         fst (_detect_performance_issues event self) = Ok issues
         ∧ exact_median qs baseline
         ∧ (issues ≠ [] ↔ (baseline * 2 < t)%Q)
         ∧ ∀ i, i ∈ issues →
             issues = [i]
             ∧ pi_baseline i = baseline
             ∧ (pi_severity i = "high" ↔ (baseline * 3 < t)%Q)
             ∧ (pi_severity i = "medium" ↔ ¬ (baseline * 3 < t)%Q))
  ∧ (∀ event self a self',
       analyze_event is_outlier event self = (Ok a, self') →
       command_timings (snd (append_recent event self)) = command_timings self
       ∧ fst (_detect_performance_issues event (snd (append_recent event self)))
         = Ok (performance_issues a))
  ∧ ∃ a i,
      last (run_results is_outlier
              (map (Samples.timed_tool_use "X") (repeat 1%Q 19 ++ [10%Q])) init)
      = Some (Ok a)
      ∧ performance_issues a = [i]
      ∧ pi_type i = "slow_tool_execution"
      ∧ pi_severity i = "high"
      ∧ (pi_baseline i == 1)%Q.
Proof.
  split_and!.
  - apply detect_performance_small.
  - intros event v k self t qs Ht Hk Hv Hqs Hr Hlen. split.
    { exists (median64 (map round64 qs)). by apply median64_spec. }
    intros baseline ->%median64_spec.
    rewrite (detect_performance_rule event v k self t qs Ht Hk Hv Hqs Hr Hlen).
    destruct (Qgtb (round64 t) (round64 (median64 (map round64 qs) * 2))) eqn:E2.
    + eexists. split; [reflexivity|]. apply Qgtb_true in E2. split; [done|].
      intros i ->%list_elem_of_singleton. cbn.
      destruct (Qgtb (round64 t) (round64 (median64 (map round64 qs) * 3)))
        eqn:E3.
      * apply Qgtb_true in E3. by split_and!.
      * apply Qgtb_false in E3. by split_and!.
    + exists []. split; [reflexivity|]. apply Qgtb_false in E2. split; [done|].
      intros i Hi. by apply not_elem_of_nil in Hi.
  - intros event v k self t qs Ht Hk Hv Hqs Hw Hlen.
    assert (Forall in_range qs) as Hr.
    { eapply Forall_impl; [exact Hw|]. apply small_whole_in_range. }
    rewrite (detect_performance_rule event v k self t qs Ht Hk Hv Hqs Hr Hlen).
    rewrite (small_whole_doubles qs Hw).
    destruct (window_last _ _ _ _ Hqs Hv) as [qs' Hlast].
    assert (round64 t = t) as Hrt.
    { rewrite Forall_forall in Hw. destruct (Hw t) as (z & -> & Hz).
      - rewrite Hlast. apply elem_of_app. right. by left.
      - apply round64_whole. lia. }
    assert (0 < length qs)%nat as Hpos.
    { rewrite Hlast, length_app. cbn. lia. }
    destruct (median64_whole qs Hw Hpos) as (Hex & m & Hm & Hmb).
    destruct (multiples_exact _ m Hm Hmb) as [H2 H3].
    rewrite Hrt. set (baseline := median64 qs) in *.
    destruct (Qgtb t (round64 (baseline * 2))) eqn:E2.
    + eexists _, baseline. split; [reflexivity|]. split; [done|].
      apply Qgtb_true in E2. rewrite H2 in E2. split; [done|].
      intros i ->%list_elem_of_singleton. cbn.
      destruct (Qgtb t (round64 (baseline * 3))) eqn:E3.
      * apply Qgtb_true in E3. rewrite H3 in E3. by split_and!.
      * apply Qgtb_false in E3. rewrite H3 in E3. by split_and!.
    + exists [], baseline. split; [reflexivity|]. split; [done|].
      apply Qgtb_false in E2. rewrite H2 in E2. split; [done|].
      intros i Hi. by apply not_elem_of_nil in Hi.
  - intros event self a self' Ha. split; [reflexivity|].
    destruct (analyze_event_inv _ _ _ _ _ Ha) as (s1 & s2 & s3 & H1 & _).
    by rewrite H1.
  - eexists _, _. split; [vm_compute; reflexivity|]. by split_and!.
Qed.

End WithOutlierTest.

Lemma slow_execution_rule_witness :
  ∃ issues,
    fst (_detect_performance_issues (Samples.timed_tool_use "X" 10)
           (run Samples.no_outlier
                (map (Samples.timed_tool_use "X") (repeat 1%Q 19)) init))
    = Ok issues
    ∧ issues ≠ [].
Proof.
  destruct (slow_execution_rule Samples.no_outlier) as (_ & Hrule & _).
  destruct (Hrule (Samples.timed_tool_use "X" 10) (PNum 10) (KStr "X")
              (run Samples.no_outlier
                   (map (Samples.timed_tool_use "X") (repeat 1%Q 19)) init)
              10%Q (repeat 1%Q 19 ++ [10%Q]))
    as (_ & Hbase).
  - split; [reflexivity|]. eexists. split; reflexivity.
  - reflexivity.
  - reflexivity.
  - vm_compute. reflexivity.
  - repeat (constructor; [vm_compute; reflexivity|]). constructor.
  - vm_compute. lia.
  - destruct (Hbase 1%Q) as (issues & Hres & Hiff & _).
    + exists (repeat 1%Q 19 ++ [10%Q]).
      split_and!; [vm_compute; reflexivity| |vm_compute; reflexivity].
      repeat (constructor; [|repeat constructor; vm_compute; discriminate]).
      constructor.
    + exists issues. split; [exact Hres|]. apply Hiff. vm_compute. reflexivity.
Defined.

End Performance.

(** ** The success detector *)

Module Success.
Import Py LogAnalyzer DetectorLemmas.

Section WithOutlierTest.
Variable is_outlier : list Q -> Q -> bool.


End WithOutlierTest.


End Success.

(** ** The rolling histories *)

Module Histories.
Import Py LogAnalyzer DetectorLemmas.

(** The stored histories are not bounded: 21 timed [tool_use] events of one
    tool leave 21 timings under its key, and 11 [agent_complete] events of
    one agent leave 11 flags. *)
Lemma histories_exceed_bounds :
  length (history (command_timings
            (run Samples.no_outlier
                 (map (Samples.timed_tool_use "X") (repeat 1%Q 21)) init))
            (KStr "X")) = 21%nat
  ∧ length (history (agent_success_rates
              (run Samples.no_outlier
                   (map (Samples.agent_complete "A") (repeat (PBool true) 11))
                   init))
              (KStr "A")) = 11%nat
  ∧ ¬ (∀ events, histories_bounded (run Samples.no_outlier events init)).
Proof.
  split; [vm_compute; reflexivity|]. split; [vm_compute; reflexivity|].
  intros Hb.
  destruct (Hb (map (Samples.timed_tool_use "X") (repeat 1%Q 21)) (KStr "X"))
    as [Hlen _].
  vm_compute in Hlen. lia.
Qed.

Section WithOutlierTest.
Variable is_outlier : list Q -> Q -> bool.

(** C2, as the code has it. A history is stored without a bound: along
    any stream it keeps every item it held, in arrival order, and each
    timed [tool_use] event (each [agent_complete] event) adds its value at
    the end. The bound is on what a detector reads: the last 20 timings
    (the last 10 flags), a suffix of the history in arrival order, and the
    outcome of a detector depends on the history through that suffix
    only. *)
Theorem histories_append_only_windows_bounded :
  (∀ events self k,
     history (command_timings self) k
     `prefix_of` history (command_timings (run is_outlier events self)) k
     ∧ history (agent_success_rates self) k
       `prefix_of` history (agent_success_rates (run is_outlier events self)) k)
  ∧ (∀ event v k self,
       timed event v → tool_key event k →
       history (command_timings (snd (analyze_event is_outlier event self))) k
       = history (command_timings self) k ++ [v])
  ∧ (∀ event k v self,
       completes event k v →
       history (agent_success_rates (snd (analyze_event is_outlier event self))) k
       = history (agent_success_rates self) k ++ [v])
  ∧ (∀ l : list pyval,
       length (last_n 20 l) = Nat.min 20 (length l)
       ∧ last_n 20 l `suffix_of` l
       ∧ length (last_n 10 l) = Nat.min 10 (length l)
       ∧ last_n 10 l `suffix_of` l)
  ∧ (∀ event v k self1 self2,
       timed event v → tool_key event k →
       last_n 20 (history (command_timings self1) k ++ [v])
       = last_n 20 (history (command_timings self2) k ++ [v]) →
       fst (_detect_performance_issues event self1)
       = fst (_detect_performance_issues event self2))
  ∧ (∀ event k v self1 self2,
       completes event k v →
       last_n 10 (history (agent_success_rates self1) k ++ [v])
       = last_n 10 (history (agent_success_rates self2) k ++ [v]) →
       fst (_detect_success_indicators event self1)
       = fst (_detect_success_indicators event self2)).
Proof.
  split_and!.
  - apply run_keeps_histories.
  - apply analyze_event_timed.
  - apply analyze_event_completes.
  - intros l. split_and!;
      [apply length_last_n | apply last_n_suffix
      | apply length_last_n | apply last_n_suffix].
  - intros event v k self1 self2 Ht Hk Hw.
    destruct (detect_performance_timed event v k self1 Ht Hk) as [_ ->].
    destruct (detect_performance_timed event v k self2 Ht Hk) as [_ ->].
    by rewrite Hw.
  - intros event k v self1 self2 Hc Hw.
    destruct (detect_success_complete event k v self1 Hc) as [_ ->].
    destruct (detect_success_complete event k v self2 Hc) as [_ ->].
    by rewrite Hw.
Qed.

End WithOutlierTest.

Lemma histories_append_only_windows_bounded_witness :
  history (command_timings
     (snd (analyze_event Samples.no_outlier (Samples.timed_tool_use "X" 3) init)))
     (KStr "X")
  = [PNum 3]
  ∧ history (agent_success_rates
       (snd (analyze_event Samples.no_outlier
               (Samples.agent_complete "A" (PBool true)) init)))
       (KStr "A")
    = [PBool true].
Proof.
  destruct (histories_append_only_windows_bounded Samples.no_outlier)
    as (_ & Htimed & Hflag & _).
  split.
  - apply (Htimed (Samples.timed_tool_use "X" 3) (PNum 3) (KStr "X") init).
    + split; [reflexivity|]. eexists. split; reflexivity.
    + reflexivity.
  - apply (Hflag (Samples.agent_complete "A" (PBool true)) (KStr "A")
             (PBool true) init).
    split_and!; reflexivity.
Defined.

End Histories.

(** ** The default execution time *)

Module DefaultTime.
Import Py LogAnalyzer DetectorLemmas.

(** After 20 later timings of the tool the recorded 0 is no longer among
    the last 20: the baseline is then the median of those 20 alone. *)
Lemma zero_leaves_baseline :
  let s1 := snd (analyze_event Samples.no_outlier
                   (Samples.untimed_tool_use "X") init) in
  let s2 := run Samples.no_outlier
                (map (Samples.timed_tool_use "X") (repeat 10%Q 20)) s1 in
  history (command_timings s1) (KStr "X") = [PNum 0]
  ∧ last_n 20 (history (command_timings s2) (KStr "X")) = repeat (PNum 10) 20
  ∧ ¬ zero_stays_in_baseline Samples.no_outlier.
Proof.
  split; [vm_compute; reflexivity|]. split; [vm_compute; reflexivity|].
  intros Hz.
  specialize (Hz (Samples.untimed_tool_use "X") (KStr "X") init
                 (map (Samples.timed_tool_use "X") (repeat 10%Q 20))).
  assert (PNum 0 ∈ repeat (PNum 10) 20) as Hin.
  { apply Hz.
    - split; [reflexivity|]. eexists. split_and!; [reflexivity|done|reflexivity].
    - reflexivity. }
  apply list_elem_of_In, repeat_spec in Hin. discriminate.
Qed.

Section WithOutlierTest.
Variable is_outlier : list Q -> Q -> bool.

(** C10, as the code has it. A [tool_use] event whose metrics dict is not
    empty and has no execution time records the default 0 in the history
    of its tool. The 0 stays in the history; it is among the last 20
    timings, on which a baseline is computed, as long as fewer than 20
    timings of the tool were recorded after it, and not once 20 were. *)
Theorem default_zero_recorded :
  (∀ event k self,
     untimed event → tool_key event k →
     history (command_timings (snd (_detect_performance_issues event self))) k
     = history (command_timings self) k ++ [PNum 0])
  ∧ (∀ event k self,
       untimed event → tool_key event k →
       history (command_timings (snd (analyze_event is_outlier event self))) k
       = history (command_timings self) k ++ [PNum 0])
  ∧ (∀ event k self events,
       untimed event → tool_key event k →
       ∃ later,
         let timings :=
           history (command_timings
                      (run is_outlier events
                           (snd (analyze_event is_outlier event self)))) k in
         timings = history (command_timings self) k ++ [PNum 0] ++ later
         ∧ ((length later < 20)%nat →
            last_n 20 timings
            = last_n (19 - length later) (history (command_timings self) k)
              ++ [PNum 0] ++ later)
         ∧ ((20 <= length later)%nat → last_n 20 timings = last_n 20 later)).
Proof.
  assert (∀ event k self,
            untimed event → tool_key event k →
            history (command_timings (snd (_detect_performance_issues event self))) k
            = history (command_timings self) k ++ [PNum 0]) as Hdet.
  { intros event k self Hu Hk. destruct (untimed_guard _ Hu) as [Hg Hv].
    by destruct (detect_performance_records event (PNum 0) k self Hg Hv Hk)
      as [-> _]. }
  assert (∀ event k self,
            untimed event → tool_key event k →
            history (command_timings (snd (analyze_event is_outlier event self))) k
            = history (command_timings self) k ++ [PNum 0]) as Hev.
  { intros event k self Hu Hk. rewrite analyze_event_timings.
    by rewrite Hdet. }
  split_and!; [exact Hdet | exact Hev |].
  intros event k self events Hu Hk.
  destruct (run_keeps_histories is_outlier events
              (snd (analyze_event is_outlier event self)) k) as [[later Hl] _].
  rewrite Hev in Hl by done. exists later. cbn zeta. rewrite Hl.
  rewrite <- !(assoc_L (++)). split_and!.
  - done.
  - intros Hlen. rewrite (last_n_app_short 20 _ ([PNum 0] ++ later)).
    + rewrite length_app. cbn [length]. do 2 f_equal. 
    + rewrite length_app. cbn [length]. lia.
  - intros Hlen. rewrite (assoc_L (++)). by apply last_n_app_long.
Qed.

End WithOutlierTest.

Lemma default_zero_recorded_witness :
  history (command_timings
     (snd (analyze_event Samples.no_outlier (Samples.untimed_tool_use "X") init)))
     (KStr "X")
  = [] ++ [PNum 0].
Proof.
  destruct (default_zero_recorded Samples.no_outlier) as (_ & Hev & _).
  apply (Hev (Samples.untimed_tool_use "X") (KStr "X") init).
  - split; [reflexivity|]. eexists. split_and!; [reflexivity|done|reflexivity].
  - reflexivity.
Defined.

End DefaultTime.

(** ** The error detector *)

Module RecurringError.
Import Py LogAnalyzer DetectorLemmas.

(** Four [tool_use] events whose error text is one blank: no word, so no
    score above 0, and the fourth call reports nothing. *)
Lemma blank_errors_do_not_recur :
  last (run_results Samples.no_outlier
          (repeat (new_LogEvent (PStr "tool_use") (PStr "s1") (PStr "t")
                     [ ("event_type", PStr "tool_use");
                       ("tool_name", PStr "Bash"); ("error", PStr " ") ]
                     (PDict [])) 4) init)
  = Some (Ok {| performance_issues := []; error_patterns := [];
                success_indicators := []; anomalies := [] |})
  ∧ ¬ identical_errors_recur Samples.no_outlier.
Proof.
  split; [vm_compute; reflexivity|].
  intros Hc. destruct (Hc "Bash" " ") as (a & p & Hlast & Hp & _); [done|].
  vm_compute in Hlast. injection Hlast as <-. discriminate.
Qed.

(** The test of the scan raises [AttributeError] and nothing else, and
    it raises on an event whose error is set and is not text. *)
Lemma is_similar_error_raises (error_msg : pyval) (e : LogEvent) (x : exn) :
  is_similar_error error_msg e = Raise x → x = AttributeError.
Proof.
  unfold is_similar_error, _similarity_score, words_of.
  destruct (_ && _); [|done].
  destruct (dict_get (data e) "error" PNone); cbn; try by intros [= <-].
  destruct error_msg; cbn; by intros [= <-].
Qed.

Lemma is_similar_error_not_text (error_msg : pyval) (e : LogEvent) :
  eq_str (event_type e) "tool_use"
  && truthy (dict_get (data e) "error" PNone) = true →
  (∀ s, dict_get (data e) "error" PNone ≠ PStr s) →
  is_similar_error error_msg e = Raise AttributeError.
Proof.
  intros Hg Hn. unfold is_similar_error, _similarity_score, words_of.
  rewrite Hg. destruct (dict_get (data e) "error" PNone); try done.
  by destruct (Hn s).
Qed.

Lemma scan_not_text (error_msg : pyval) (window : list LogEvent) (bad : LogEvent) :
  bad ∈ window →
  eq_str (event_type bad) "tool_use"
  && truthy (dict_get (data bad) "error" PNone) = true →
  (∀ s, dict_get (data bad) "error" PNone ≠ PStr s) →
  filter_r (is_similar_error error_msg) window = Raise AttributeError.
Proof.
  intros Hin Hg Hn. induction window as [|e window IH].
  - by apply not_elem_of_nil in Hin.
  - cbn [filter_r].
    destruct (is_similar_error error_msg e) as [b|x] eqn:Ee.
    + apply elem_of_cons in Hin as [->|Hin].
      * by rewrite (is_similar_error_not_text _ _ Hg Hn) in Ee.
      * cbn. by rewrite (IH Hin).
    + cbn. by rewrite (is_similar_error_raises _ _ _ Ee).
Qed.

Section WithOutlierTest.
Variable is_outlier : list Q -> Q -> bool.

(** C4, as the code has it. On a [tool_use] event with a non-empty error
    text the error detector scans the window of recent events, which
    [analyze_event] has just extended with the event itself and which
    holds at most 1000 events, for [tool_use] events with an error that
    scores above 0.8 against that text. It reports a recurring error of
    severity high, with the number of events found and the error text,
    exactly when more than 3 are found, provided that every error that is
    set on a [tool_use] event of the window is text. When the window holds
    a [tool_use] event whose error is set and is not text, the detector
    raises [AttributeError] instead, whatever the other events are. In
    particular, when the error fields of the window are text and the
    window holds 4 events with the same error text, that text having at
    least one word, the report is made and counts 4 or more; after an
    event with the error 500, four events with the same error text give
    no report but [AttributeError] on every call. *)
Theorem recurring_error_rule :
  (∀ event msg self,
     fails_with event msg → errors_are_text (recent_events self) →
     let sims := filter (λ e, similar_to msg e = true) (recent_events self) in
     ∃ found,
       fst (_detect_error_patterns event self) = Ok found
       ∧ (found ≠ [] ↔ (3 < length sims)%nat)
       ∧ ∀ p, p ∈ found →
           found = [p]
           ∧ ep_type p = "recurring_error"
           ∧ ep_severity p = "high"
           ∧ ep_occurrence_count p = length sims
           ∧ ep_error_message p = PStr msg)
  ∧ (∀ event self a self',
       analyze_event is_outlier event self = (Ok a, self') →
       ∃ s, recent_events s = last_n 1000 (recent_events self ++ [event])
            ∧ (length (recent_events s) <= 1000)%nat
            ∧ event ∈ recent_events s
            ∧ fst (_detect_error_patterns event s) = Ok (error_patterns a))
  ∧ (∀ event msg self same,
       fails_with event msg → errors_are_text (recent_events self) →
       word_set msg ≠ ∅ →
       same `sublist_of` recent_events self → length same = 4%nat →
       (∀ e, e ∈ same → fails_with e msg) →
       ∃ p, fst (_detect_error_patterns event self) = Ok [p]
            ∧ ep_type p = "recurring_error"
            ∧ ep_severity p = "high"
            ∧ (4 <= ep_occurrence_count p)%nat
            ∧ ep_error_message p = PStr msg)
  ∧ (∀ event self bad,
       eq_str (event_type event) "tool_use"
       && truthy (dict_get (data event) "error" PNone) = true →
       bad ∈ recent_events self →
       eq_str (event_type bad) "tool_use"
       && truthy (dict_get (data bad) "error" PNone) = true →
       (∀ s, dict_get (data bad) "error" PNone ≠ PStr s) →
       fst (_detect_error_patterns event self) = Raise AttributeError)
  ∧ (∃ a p,
       last (run_results is_outlier
               (repeat (Samples.failed_tool_use "Bash"
                          (PStr "connection timeout after 30s")) 4) init)
       = Some (Ok a)
       ∧ error_patterns a = [p]
       ∧ ep_type p = "recurring_error"
       ∧ ep_severity p = "high"
       ∧ ep_occurrence_count p = 4%nat)
  ∧ run_results is_outlier
      (Samples.failed_tool_use "Bash" (PNum 500)
       :: repeat (Samples.failed_tool_use "Bash"
                    (PStr "connection timeout after 30s")) 4) init
    = repeat (Raise AttributeError) 5.
Proof.
  split_and!.
  - intros event msg self Hf Htext sims.
    rewrite (detect_error_patterns_scan event msg self sims Hf
               (scan_text_window msg _ Htext)).
    destruct (Nat.ltb_spec 3 (length sims)).
    + eexists. split; [reflexivity|]. split; [done|].
      intros p ->%list_elem_of_singleton. by split_and!.
    + exists []. split; [reflexivity|]. split; [split; [done|lia]|].
      intros p Hp. by apply not_elem_of_nil in Hp.
  - intros event self a self' Ha.
    destruct (analyze_event_inv _ _ _ _ _ Ha) as (s1 & s2 & s3 & H1 & H2 & _).
    pose proof (performance_frame event (snd (append_recent event self)))
      as [_ Hr].
    rewrite H1 in Hr. cbn in Hr. fold maxlen in Hr.
    exists s1. split_and!.
    + exact Hr.
    + rewrite Hr, length_last_n. unfold maxlen. lia.
    + rewrite Hr. unfold last_n, maxlen. rewrite length_app. cbn [length].
      destruct (Nat.le_gt_cases (length (recent_events self) + 1) 1000).
      * replace (length (recent_events self) + 1 - 1000)%nat with 0%nat by lia.
        rewrite drop_0. apply elem_of_app. right. by left.
      * rewrite drop_app_le by lia. apply elem_of_app. right. by left.
    + by rewrite H2.
  - intros event msg self same Hf Htext Hw Hsub Hlen Hsame.
    rewrite (detect_error_patterns_scan event msg self _ Hf
               (scan_text_window msg _ Htext)).
    pose proof (filter_length_sublist (λ e, similar_to msg e = true) _ _ Hsub)
      as Hcount.
    assert (filter (λ e, similar_to msg e = true) same = same) as Hall.
    { clear Hsub Hlen Hcount. induction same as [|e same IH]; [done|].
      rewrite filter_cons, decide_True.
      - f_equal. apply IH. intros e' He'. apply Hsame. by right.
      - apply similar_to_same; [|done]. apply Hsame. by left. }
    rewrite Hall, Hlen in Hcount.
    destruct (Nat.ltb_spec 3
      (length (filter (λ e, similar_to msg e = true) (recent_events self))));
      [|lia].
    eexists. split; [reflexivity|]. by split_and!.
  - intros event self bad Hg Hin Hbad Hn.
    unfold _detect_error_patterns. rewrite Hg.
    unfold bind, lift, get_self, ret.
    by rewrite (scan_not_text _ _ bad Hin Hbad Hn).
  - eexists _, _. split; [vm_compute; reflexivity|]. by split_and!.
  - vm_compute. reflexivity.
Qed.

End WithOutlierTest.

Lemma recurring_error_rule_witness :
  ∃ p,
    fst (_detect_error_patterns
           (Samples.failed_tool_use "Bash" (PStr "disk full"))
           (run Samples.no_outlier
                (repeat (Samples.failed_tool_use "Bash" (PStr "disk full")) 4)
                init))
    = Ok [p]
    ∧ (4 <= ep_occurrence_count p)%nat.
Proof.
  destruct (recurring_error_rule Samples.no_outlier) as (_ & _ & Hrule & _).
  destruct (Hrule (Samples.failed_tool_use "Bash" (PStr "disk full"))
              "disk full"
              (run Samples.no_outlier
                   (repeat (Samples.failed_tool_use "Bash" (PStr "disk full")) 4)
                   init)
              (repeat (Samples.failed_tool_use "Bash" (PStr "disk full")) 4))
    as (p & Hres & _ & _ & Hcount & _).
  - split_and!; [reflexivity | reflexivity | done].
  - intros e He _. vm_compute in He.
    repeat (apply elem_of_cons in He as [-> | He]; [by eexists|]).
    by apply not_elem_of_nil in He.
  - apply SimilarityFacts.is_empty_set_false. vm_compute. reflexivity.
  - vm_compute. reflexivity.
  - reflexivity.
  - intros e He. cbn in He.
    repeat (apply elem_of_cons in He as [-> | He];
            [split_and!; [reflexivity | reflexivity | done]|]).
    by apply not_elem_of_nil in He.
  - exists p. by split.
Defined.

End RecurringError.

(** ** Exceptions of the detectors *)

Module Exceptions.
Import Py LogAnalyzer DetectorLemmas.

(** A log of two entries: the first has the integer 500 as its error, the
    second is well formed. The error detector raises on the first (an int
    has no [lower]), [analyze_event] raises with it, and the analysis of
    the log ends in the error result: the second entry is never analysed. *)
Lemma detector_exception_aborts_log :
  let bad := Samples.failed_entry "Bash" (PNum 500) in
  let good := Samples.failed_entry "Bash" (PStr "disk full") in
  fst (_detect_error_patterns
         (Samples.failed_tool_use "Bash" (PNum 500))
         (snd (append_recent (Samples.failed_tool_use "Bash" (PNum 500)) init)))
  = Raise AttributeError
  ∧ fst (analyze_log_file Samples.no_outlier Samples.clock
           (FileJson (PList [bad; good])) init)
    = FailedToAnalyze AttributeError
  ∧ fst (analyze_log_file Samples.no_outlier Samples.clock
           (FileJson (PList [good])) init)
    = Results 1 []
  ∧ ¬ stream_never_aborted Samples.no_outlier.
Proof.
  cbn zeta. split_and!; [vm_compute; reflexivity..|].
  intros Hc.
  destruct (Hc Samples.clock
              [Samples.failed_entry "Bash" (PNum 500);
               Samples.failed_entry "Bash" (PStr "disk full")] init)
    as (n & patterns & Hres).
  vm_compute in Hres. discriminate.
Qed.

Section WithOutlierTest.
Variable is_outlier : list Q -> Q -> bool.

(** C1, as the code has it. No detector and no call of a detector catches
    an exception: [analyze_event] raises with the first exception of its
    detectors, in the order in which it runs them. [analyze_log_file]
    catches it once for the whole log: at the first event on which
    [analyze_event] raises, the patterns found so far and the events not
    yet analysed are given up and the result is the error result; the
    function itself always returns. When no event raises, the result holds
    the patterns of all the events. *)
Theorem exception_ends_the_analysis :
  (∀ event self e,
     let s0 := snd (append_recent event self) in
     (fst (_detect_performance_issues event s0) = Raise e →
      fst (analyze_event is_outlier event self) = Raise e)
     ∧ (∀ perf s1,
          _detect_performance_issues event s0 = (Ok perf, s1) →
          fst (_detect_error_patterns event s1) = Raise e →
          fst (analyze_event is_outlier event self) = Raise e)
     ∧ (∀ perf s1 errs s2,
          _detect_performance_issues event s0 = (Ok perf, s1) →
          _detect_error_patterns event s1 = (Ok errs, s2) →
          fst (_detect_success_indicators event s2) = Raise e →
          fst (analyze_event is_outlier event self) = Raise e)
     ∧ (∀ perf s1 errs s2 succ s3,
          _detect_performance_issues event s0 = (Ok perf, s1) →
          _detect_error_patterns event s1 = (Ok errs, s2) →
          _detect_success_indicators event s2 = (Ok succ, s3) →
          fst (_detect_anomalies is_outlier event s3) = Raise e →
          fst (analyze_event is_outlier event self) = Raise e))
  ∧ (∀ now entries self pre event post ps self1 e,
       events_of now 0 entries = pre ++ event :: post →
       analyze_events is_outlier pre self = (Ok ps, self1) →
       fst (analyze_event is_outlier event self1) = Raise e →
       fst (analyze_log_file is_outlier now (FileJson (PList entries)) self)
       = FailedToAnalyze e)
  ∧ (∀ now entries self ps self',
       analyze_events is_outlier (events_of now 0 entries) self = (Ok ps, self') →
       analyze_log_file is_outlier now (FileJson (PList entries)) self
       = (Results (length (events_of now 0 entries)) ps, self')).
Proof.
  split_and!.
  - intros event self e s0. rewrite analyze_event_raise. fold s0. split_and!.
    + by destruct (_detect_performance_issues event s0) as [[?|?] ?];
        cbn; intros [= ->].
    + intros perf s1 -> H2.
      by destruct (_detect_error_patterns event s1) as [[?|?] ?];
        cbn in *; simplify_eq.
    + intros perf s1 errs s2 -> -> H3.
      by destruct (_detect_success_indicators event s2) as [[?|?] ?];
        cbn in *; simplify_eq.
    + intros perf s1 errs s2 succ s3 -> -> -> H4.
      by destruct (_detect_anomalies is_outlier event s3) as [[?|?] ?];
        cbn in *; simplify_eq.
  - intros now entries self pre event post ps self1 e Hev Hpre Hraise.
    pose proof (analyze_events_raise is_outlier pre event post self ps self1 e
                  Hpre Hraise) as Hr.
    unfold analyze_log_file. cbn [py_iter]. rewrite Hev.
    by destruct (analyze_events is_outlier (pre ++ event :: post) self)
      as [[?|?] ?]; cbn in *; simplify_eq.
  - intros now entries self ps self' Hok.
    unfold analyze_log_file. cbn [py_iter]. by rewrite Hok.
Qed.

End WithOutlierTest.

Lemma exception_ends_the_analysis_witness :
  fst (analyze_log_file Samples.no_outlier Samples.clock
         (FileJson (PList [ Samples.failed_entry "Bash" (PStr "disk full");
                            Samples.failed_entry "Bash" (PNum 500);
                            Samples.failed_entry "Bash" (PStr "disk full") ]))
         init)
  = FailedToAnalyze AttributeError.
Proof.
  destruct (exception_ends_the_analysis Samples.no_outlier) as (_ & Habort & _).
  eapply (Habort Samples.clock _ init
            [new_LogEvent (PStr "tool_use") (PStr "s1")
               (PStr "2025-01-10T10:00:00Z")
               [ ("event_type", PStr "tool_use"); ("session_id", PStr "s1");
                 ("timestamp", PStr "2025-01-10T10:00:00Z");
                 ("tool_name", PStr "Bash"); ("error", PStr "disk full") ]
               (PDict [])]).
  - vm_compute. reflexivity.
  - vm_compute. reflexivity.
  - vm_compute. reflexivity.
Defined.

End Exceptions.

(** ** Long-workflow extraction *)

Module Workflows.
Import Py SessionImprovement.

Lemma workflow_count_bounds (n : nat) :
  ((n < 5 → workflow_count n = 0)
   ∧ (5 <= n → 3 * workflow_count n + 2 <= n <= 3 * workflow_count n + 4))%nat.
Proof.
  unfold workflow_count. destruct (Nat.ltb_spec n 5) as [Hlt|Hge].
  - split; [done | lia].
  - split; [lia|]. intros _.
    pose proof (Nat.div_mod_eq (n - 5) 3) as Hdm.
    pose proof (Nat.mod_upper_bound (n - 5) 3) as Hub. lia.
Qed.

Lemma workflow_count_le (n : nat) : (3 * workflow_count n <= n)%nat.
Proof.
  destruct (workflow_count_bounds n) as [H0 H1].
  destruct (Nat.lt_ge_cases n 5); [rewrite H0 by done|]; lia.
Qed.

(** A window that lies inside [E] is not changed by an event after [E]. *)
Lemma window_app {A} (E : list A) (e : A) (i : nat) :
  (3 * i + 5 <= length E)%nat →
  take 5 (drop (3 * i) (E ++ [e])) = take 5 (drop (3 * i) E).
Proof.
  intros H. rewrite drop_app_le by lia. apply take_app_le.
  rewrite length_drop. lia.
Qed.

Lemma windows_app {A B} (f : list A → B) (E : list A) (e : A) (c : nat) :
  (c = 0 ∨ 3 * c + 2 <= length E)%nat →
  map (λ i, f (take 5 (drop (3 * i) (E ++ [e])))) (seq 0 c)
  = map (λ i, f (take 5 (drop (3 * i) E))) (seq 0 c).
Proof.
  intros Hc. apply map_ext_in. intros i Hi%in_seq.
  rewrite window_app; [done | lia].
Qed.

Section WithHash.
Variable md5_hex8 : list pyval -> string.

(** The state of the loop of [find_tool_sequences] after any list of
    events: the records are the windows of 5 entries taken every 3
    entries, and the running sequence is what follows the last stride. *)
Lemma tool_steps_state (logs : list dict) :
  let E := tool_entries logs in
  let c := workflow_count (length E) in
  fold_left (tool_step md5_hex8) logs ([], [])
  = (map (λ i, workflow_record md5_hex8 (take 5 (drop (3 * i) E))) (seq 0 c),
     drop (3 * c) E).
Proof.
  induction logs as [|log logs IH] using rev_ind; [done|].
  cbn zeta in *. rewrite fold_left_app, IH. cbn [fold_left]. clear IH.
  unfold tool_entries. rewrite filter_app, map_app.
  fold (tool_entries logs). set (E := tool_entries logs).
  rewrite filter_cons, filter_nil. unfold tool_step, has_tool.
  destruct (truthy (tool_name_of log)) eqn:Ht.
  2:{ rewrite decide_False by done. cbn [map]. by rewrite app_nil_r. }
  rewrite decide_True by done. cbn [map].
  set (e := sequence_entry log). set (c := workflow_count (length E)).
  pose proof (workflow_count_bounds (length E)) as [Hc0 Hc1]. fold c in Hc0, Hc1.
  pose proof (workflow_count_le (length E)) as Hcle. fold c in Hcle.
  pose proof (workflow_count_bounds (length (E ++ [e]))) as [Hd0 Hd1].
  assert (length (E ++ [e]) = length E + 1)%nat as HlenE
    by (rewrite length_app; done).
  assert (length (drop (3 * c) E ++ [e]) = length E + 1 - 3 * c)%nat as Hl
    by (rewrite length_app, length_drop; cbn [length]; lia).
  assert (drop (3 * c) E ++ [e] = drop (3 * c) (E ++ [e])) as Hcur
    by (by rewrite drop_app_le by lia).
  rewrite HlenE in *.
  destruct (Nat.leb_spec 5 (length (drop (3 * c) E ++ [e]))) as [Hfull|Hshort];
    rewrite Hcur in *.
  - assert (workflow_count (length E + 1) = S c) as -> by lia.
    rewrite seq_S, map_app. cbn [map Nat.add]. f_equal.
    + f_equal.
      * apply eq_sym, windows_app. lia.
      * do 2 f_equal. apply eq_sym, take_ge. lia.
    + unfold last_n. rewrite Hl, drop_drop. f_equal. lia.
  - assert (workflow_count (length E + 1) = c) as -> by lia. f_equal.
    apply eq_sym, windows_app. lia.
Qed.

Lemma entry_tools_entries (ls : list dict) :
  entry_tools (map sequence_entry ls)
  = map (λ log, dict_get log "tool_name" PNone) ls.
Proof. unfold entry_tools. rewrite map_map. by apply map_ext. Qed.

Lemma count_successes_entries (ls : list dict) :
  count_successes (map sequence_entry ls)
  = length (filter (λ log, truthy (dict_get log "success" (PBool true)) = true)
                   ls).
Proof.
  unfold count_successes. induction ls as [|log ls IH]; [done|].
  cbn [map]. rewrite !filter_cons. cbn [sequence_entry dict_get dict_lookup].
  cbn. destruct (truthy (dict_get log "success" (PBool true)));
    [rewrite !decide_True by done | rewrite !decide_False by done];
    cbn [length]; by rewrite IH.
Qed.

Lemma tool_entries_window (logs : list dict) (i : nat) :
  take 5 (drop (3 * i) (tool_entries logs))
  = map sequence_entry
        (take 5 (drop (3 * i) (filter (λ log, has_tool log = true) logs))).
Proof. unfold tool_entries. by rewrite <- fmap_drop, <- fmap_take. Qed.

Lemma tool_entries_tool_logs (logs : list dict) :
  tool_entries (filter (λ log, has_tool log = true) logs) = tool_entries logs.
Proof.
  unfold tool_entries. f_equal. induction logs as [|log logs IH]; [done|].
  rewrite filter_cons. destruct (decide (has_tool log = true)) as [H|H].
  - rewrite filter_cons, decide_True by done. by rewrite IH.
  - exact IH.
Qed.

(** C6. [find_tool_sequences] runs over the events that carry a tool
    name, in their order in the log; an event without a tool name is
    passed over and neither enters nor interrupts the running sequence.
    Each time the running sequence reaches 5 events one record is made and
    the last 2 of the 5 start the next sequence: the records are those of
    the windows of 5 tool-bearing events taken every 3 such events. The
    record of a window has length 5, the tool names of its 5 events, the
    hash of these names, and as success rate the number of its events
    whose [success] is true or missing, over 5, as a double. With fewer
    than 5 tool-bearing events there is no record, and with 7 there is
    exactly one, on the first 5. *)
Theorem long_workflow_extraction (logs : list dict) :
  let tool_logs :=
    filter (λ log, truthy (dict_get log "tool_name" PNone) = true) logs in
  let n := length tool_logs in
  let window i := take 5 (drop (3 * i) tool_logs) in
  let tools i := map (λ log, dict_get log "tool_name" PNone) (window i) in
  let successes i :=
    length (filter (λ log, truthy (dict_get log "success" (PBool true)) = true)
                   (window i)) in
  length (find_tool_sequences md5_hex8 logs)
  = (if (n <? 5)%nat then 0 else S ((n - 5) / 3))%nat
  ∧ (∀ i record,
       find_tool_sequences md5_hex8 logs !! i = Some record →
       length (window i) = 5%nat
       ∧ record
         = PDict [ ("id", PStr (md5_hex8 (tools i)));
                   ("length", PInt 5);
                   ("tools", PList (tools i));
                   ("success_rate",
                     PNum (round64 (inject_Z (Z.of_nat (successes i)) / 5)));
                   ("potential_agent", PBool true) ])
  ∧ (∀ i, (S i < length (find_tool_sequences md5_hex8 logs))%nat →
       take 2 (window (S i)) = drop 3 (window i))
  ∧ find_tool_sequences md5_hex8 logs = find_tool_sequences md5_hex8 tool_logs
  ∧ ((n < 5)%nat → find_tool_sequences md5_hex8 logs = [])
  ∧ (n = 7%nat →
     ∃ record,
       find_tool_sequences md5_hex8 logs = [record]
       ∧ py_get record "length" PNone = Ok (PInt 5)
       ∧ py_get record "tools" PNone
         = Ok (PList (map (λ log, dict_get log "tool_name" PNone)
                          (take 5 tool_logs)))).
Proof.
  intros tool_logs n window tools successes.
  set (E := tool_entries logs).
  assert (tool_logs = filter (λ log, has_tool log = true) logs) as Htl by done.
  assert (length E = n) as HE.
  { unfold E, tool_entries. by rewrite length_map. }
  pose proof (workflow_count_bounds n) as [Hc0 Hc1].
  assert (find_tool_sequences md5_hex8 logs
          = map (λ i, workflow_record md5_hex8 (take 5 (drop (3 * i) E)))
                (seq 0 (workflow_count n))) as Hclosed.
  { unfold find_tool_sequences. rewrite tool_steps_state. fold E.
    by rewrite HE. }
  assert (∀ i, (i < workflow_count n)%nat → length (window i) = 5%nat)
    as Hlen.
  { intros i Hi. unfold window. rewrite length_take, length_drop. fold n.
    destruct (Nat.lt_ge_cases n 5); [rewrite Hc0 in Hi by done|]; lia. }
  assert (∀ i, (i < workflow_count n)%nat →
            workflow_record md5_hex8 (take 5 (drop (3 * i) E))
            = PDict [ ("id", PStr (md5_hex8 (tools i)));
                      ("length", PInt 5);
                      ("tools", PList (tools i));
                      ("success_rate",
                        PNum (round64 (inject_Z (Z.of_nat (successes i)) / 5)));
                      ("potential_agent", PBool true) ]) as Hrec.
  { intros i Hi. unfold E. rewrite tool_entries_window, <- Htl. fold (window i).
    unfold workflow_record.
    by rewrite entry_tools_entries, count_successes_entries, length_map,
         (Hlen i Hi). }
  assert (length (find_tool_sequences md5_hex8 logs) = workflow_count n)
    as Hcount by (by rewrite Hclosed, length_map, length_seq).
  split_and!.
  - by rewrite Hcount.
  - intros i record Hi.
    assert (i < workflow_count n)%nat as Hlt.
    { rewrite <- Hcount. by apply lookup_lt_Some in Hi. }
    split; [by apply Hlen|].
    rewrite Hclosed, list_lookup_fmap, lookup_seq_lt in Hi by done.
    cbn in Hi. injection Hi as <-. by apply Hrec.
  - intros i Hi. unfold window. rewrite take_take.
    replace (3 * S i)%nat with (3 * i + 3)%nat by lia.
    rewrite <- drop_drop. by rewrite skipn_firstn_comm.
  - rewrite Hclosed. unfold find_tool_sequences. rewrite tool_steps_state.
    rewrite Htl, tool_entries_tool_logs. fold E. by rewrite HE.
  - intros Hlt. by rewrite Hclosed, Hc0.
  - intros H7. rewrite Hclosed.
    assert (workflow_count n = 1%nat) as Hone by (rewrite H7; done).
    rewrite Hone. cbn [seq map]. rewrite (Hrec 0%nat) by lia.
    eexists. split; [reflexivity|]. split; [reflexivity|].
    unfold tools, window. by rewrite drop_0.
Qed.

End WithHash.

Lemma long_workflow_extraction_witness :
  ∃ record,
    find_tool_sequences SessionSamples.hash_text SessionSamples.seven_logs
    = [record]
    ∧ py_get record "length" PNone = Ok (PInt 5).
Proof.
  destruct (long_workflow_extraction SessionSamples.hash_text
              SessionSamples.seven_logs) as (_ & _ & _ & _ & _ & Hseven).
  destruct (Hseven eq_refl) as (record & Hres & Hlen & _).
  by exists record.
Defined.

End Workflows.

(** ** Repeated tool sequences *)

Module Patterns.
Import Py SessionImprovement.

Lemma windows3_lookup (logs : list dict) (i : nat) (a b c : dict) :
  windows3 logs !! i = Some (a, b, c)
  ↔ logs !! i = Some a ∧ logs !! (i + 1)%nat = Some b
    ∧ logs !! (i + 2)%nat = Some c.
Proof.
  revert i. induction logs as [|x logs IH]; intros i.
  - cbn. split; [done | by intros [? _]].
  - destruct logs as [|y [|z logs]].
    + cbn. split; [done|]. intros (_ & Hb & _).
      by rewrite lookup_ge_None_2 in Hb by (cbn; lia).
    + cbn. split; [done|]. intros (_ & _ & Hc).
      by rewrite lookup_ge_None_2 in Hc by (cbn; lia).
    + change (windows3 (x :: y :: z :: logs))
        with ((x, y, z) :: windows3 (y :: z :: logs)).
      destruct i as [|i].
      * cbn. split.
        -- by intros [= -> -> ->].
        -- by intros ([= ->] & [= ->] & [= ->]).
      * cbn [lookup list_lookup]. rewrite (IH i). reflexivity.
Qed.

Lemma counter_add_keys k t acc :
  keys_of (counter_add k t acc)
  = if bool_decide (k ∈ keys_of acc) then keys_of acc else keys_of acc ++ [k].
Proof.
  induction acc as [|[[k' t'] n] acc IH]; [done|].
  cbn [counter_add keys_of map fst]. fold (keys_of acc) in *.
  destruct (decide (k' = k)) as [->|Hne].
  - cbn [keys_of map fst]. rewrite bool_decide_eq_true_2; [done|by left].
  - cbn [keys_of map fst]. fold (keys_of (counter_add k t acc)). rewrite IH.
    destruct (bool_decide (k ∈ keys_of acc)) eqn:E.
    + rewrite bool_decide_eq_true_2; [done|]. right. by apply bool_decide_eq_true in E.
    + rewrite bool_decide_eq_false_2; [done|].
      apply bool_decide_eq_false in E. intros [?|?]%elem_of_cons; by simplify_eq.
Qed.

Lemma counter_add_NoDup k t acc :
  NoDup (keys_of acc) → NoDup (keys_of (counter_add k t acc)).
Proof.
  intros Hnd. rewrite counter_add_keys. case_bool_decide as Hin; [done|].
  apply NoDup_app. split_and!; [done| |apply NoDup_singleton].
  intros x Hx ->%list_elem_of_singleton. done.
Qed.

Lemma counted_add k t acc k' :
  counted k' (counter_add k t acc)
  = (counted k' acc + if decide (k = k') then 1 else 0)%nat.
Proof.
  induction acc as [|[[k0 t0] n] acc IH].
  - cbn. destruct (decide (k = k')); lia.
  - cbn [counter_add]. destruct (decide (k0 = k)) as [->|Hne].
    + cbn [counted]. destruct (decide (k = k')); lia.
    + cbn [counted]. destruct (decide (k0 = k')) as [->|Hne'].
      * rewrite decide_False by done. lia.
      * apply IH.
Qed.

Lemma counter_add_hashed k t acc :
  hash_triple t = Ok k → entries_hashed acc →
  entries_hashed (counter_add k t acc).
Proof.
  intros Hk Hacc. induction acc as [|[[k0 t0] n] acc IH].
  - intros k' t' n' Hin%list_elem_of_singleton. by simplify_eq.
  - cbn [counter_add]. destruct (decide (k0 = k)) as [->|Hne].
    + intros k' t' n' [Heq|Hin]%elem_of_cons.
      * injection Heq as -> -> ->. apply (Hacc k t0 n). by left.
      * apply (Hacc k' t' n'). by right.
    + intros k' t' n' [Heq|Hin]%elem_of_cons.
      * injection Heq as -> -> ->. apply (Hacc k0 t0 n). by left.
      * apply (IH (λ k t n H, Hacc k t n (list_elem_of_further _ _ _ H)) _ _ _ Hin).
Qed.

Lemma has_key_hash k t : has_key k t = true ↔ hash_triple t = Ok k.
Proof.
  unfold has_key. destruct (hash_triple t) as [k'|e].
  - rewrite bool_decide_eq_true. split; [by intros -> | by intros [= ->]].
  - done.
Qed.

Lemma occurrences_cons k t l k' :
  hash_triple t = Ok k →
  occurrences k' (t :: l)
  = ((if decide (k = k') then 1 else 0) + occurrences k' l)%nat.
Proof.
  intros Hk. unfold occurrences. rewrite filter_cons.
  destruct (decide (k = k')) as [<-|Hne].
  - rewrite decide_True by (by apply has_key_hash). done.
  - rewrite decide_False; [done|]. rewrite has_key_hash, Hk. by intros [= ->].
Qed.

(** What [Counter] holds once all tuples are counted. *)
Lemma Counter_from_spec l acc acc' :
  Counter_from acc l = Ok acc' →
  NoDup (keys_of acc) → entries_hashed acc →
  NoDup (keys_of acc') ∧ entries_hashed acc'
  ∧ ∀ k, counted k acc' = (counted k acc + occurrences k l)%nat.
Proof.
  revert acc. induction l as [|t l IH]; intros acc.
  - intros [= <-] Hnd Hh. split_and!; [done..|]. intros k. cbn. lia.
  - cbn [Counter_from rbind]. destruct (hash_triple t) as [k|e] eqn:Hk; [|done].
    cbn [rbind]. intros Hc Hnd Hh.
    destruct (IH _ Hc (counter_add_NoDup k t acc Hnd)
                 (counter_add_hashed k t acc Hk Hh)) as (Hnd' & Hh' & Hcount).
    split_and!; [done..|]. intros k'.
    rewrite Hcount, counted_add, (occurrences_cons k t l k' Hk). lia.
Qed.

Lemma counted_elem k t n acc :
  NoDup (keys_of acc) → (k, t, n) ∈ acc → counted k acc = n.
Proof.
  induction acc as [|[[k0 t0] n0] acc IH]; intros Hnd Hin.
  - by apply not_elem_of_nil in Hin.
  - cbn [keys_of map fst] in Hnd. apply NoDup_cons in Hnd as [Hnotin Hnd].
    cbn [counted]. apply elem_of_cons in Hin as [?|Hin].
    + simplify_eq. by rewrite decide_True.
    + rewrite decide_False; [by apply IH|]. intros ->. apply Hnotin.
      apply list_elem_of_fmap. by exists (k, t, n).
Qed.

Lemma counted_pos k acc :
  (0 < counted k acc)%nat → ∃ t, (k, t, counted k acc) ∈ acc.
Proof.
  induction acc as [|[[k0 t0] n0] acc IH]; cbn [counted]; [lia|].
  destruct (decide (k0 = k)) as [->|Hne]; intros Hpos.
  - exists t0. by left.
  - destruct (IH Hpos) as [t Ht]. exists t. by right.
Qed.

Lemma counter_add_elem k t acc k' t' n' :
  (k', t', n') ∈ counter_add k t acc →
  (k' = k ∧ t' = t) ∨ ∃ n0, (k', t', n0) ∈ acc.
Proof.
  induction acc as [|[[k0 t0] n0] acc IH]; cbn [counter_add].
  - intros Hin%list_elem_of_singleton. left. by simplify_eq.
  - destruct (decide (k0 = k)) as [->|Hne]; intros [Heq|Hin]%elem_of_cons.
    + injection Heq as -> -> ->. right. exists n0. by left.
    + right. exists n'. by right.
    + injection Heq as -> -> ->. right. exists n0. by left.
    + destruct (IH Hin) as [?|[m Hm]]; [by left|]. right. exists m. by right.
Qed.

Lemma Counter_from_elem l acc acc' k t n :
  Counter_from acc l = Ok acc' → (k, t, n) ∈ acc' →
  t ∈ l ∨ ∃ n0, (k, t, n0) ∈ acc.
Proof.
  revert acc. induction l as [|t0 l IH]; intros acc.
  - intros [= <-] Hin. right. by exists n.
  - cbn [Counter_from rbind]. destruct (hash_triple t0) as [k0|e]; [|done].
    cbn [rbind]. intros Hc Hin. destruct (IH _ Hc Hin) as [Hl|[m Hm]].
    + left. by right.
    + destruct (counter_add_elem _ _ _ _ _ _ Hm) as [[-> ->]|Hacc].
      * left. by left.
      * by right.
Qed.

Lemma Counter_from_total l acc :
  (∀ t, t ∈ l → ∃ k, hash_triple t = Ok k) → ∃ acc', Counter_from acc l = Ok acc'.
Proof.
  revert acc. induction l as [|t l IH]; intros acc Hh; [by eexists|].
  cbn [Counter_from rbind]. destruct (Hh t) as [k ->]; [by left|]. cbn [rbind].
  apply IH. intros t' Ht'. apply Hh. by right.
Qed.

Section WithText.
Variable repr_value : pyval -> string.

Lemma tool_sequence_pattern_inj t n t' n' :
  tool_sequence_pattern repr_value t n = tool_sequence_pattern repr_value t' n' →
  t = t' ∧ n = n'.
Proof.
  destruct t as [[a b] c], t' as [[a' b'] c']. unfold tool_sequence_pattern.
  intros [= -> -> -> Hn _]. split; [done|lia].
Qed.

Lemma repeated_sequences_elem acc p :
  p ∈ repeated_sequences repr_value acc
  ↔ ∃ k t n, (k, t, n) ∈ acc ∧ (2 <= n)%nat
             ∧ p = tool_sequence_pattern repr_value t n.
Proof.
  unfold repeated_sequences. rewrite list_elem_of_omap. split.
  - intros ([[k t] n] & Hin & Hp). destruct (Nat.leb_spec 2 n); [|done].
    injection Hp as <-. by exists k, t, n.
  - intros (k & t & n & Hin & Hn & ->). exists (k, t, n). split; [done|].
    by destruct (Nat.leb_spec 2 n); [|lia].
Qed.

Lemma error_retries_type logs p :
  p ∈ error_retries logs → py_get p "type" PNone = Ok (PStr "error_retry").
Proof.
  unfold error_retries. rewrite list_elem_of_omap.
  intros ([[a b] c] & _ & Hp). by destruct (_ && _); simplify_eq.
Qed.

(** C7. [detect_patterns] takes every three consecutive events of the
    list whose tool names are all set, in order, as an ordered triple of
    tool names, counts the occurrences of each distinct triple, and
    reports a triple exactly when it occurs at least 2 times, once, with
    its count and a suggested name made of the first and the last tool
    name of the triple, lower-cased, with spaces replaced. The function
    returns normally whenever the tool names can be hashed. *)
Theorem repeated_tool_sequences (logs : list dict) :
  (∀ i a b c,
     windows3 logs !! i = Some (a, b, c)
     ↔ logs !! i = Some a ∧ logs !! (i + 1)%nat = Some b
       ∧ logs !! (i + 2)%nat = Some c)
  ∧ (∀ t,
       t ∈ tool_sequences_of logs
       ↔ ∃ i a b c,
           logs !! i = Some a ∧ logs !! (i + 1)%nat = Some b
           ∧ logs !! (i + 2)%nat = Some c
           ∧ truthy (tool_name_of a) = true ∧ truthy (tool_name_of b) = true
           ∧ truthy (tool_name_of c) = true
           ∧ t = (tool_name_of a, tool_name_of b, tool_name_of c))
  ∧ (∀ patterns k,
       detect_patterns repr_value logs = Ok patterns →
       let n := occurrences k (tool_sequences_of logs) in
       (2 <= n)%nat
       ↔ ∃ t, hash_triple t = Ok k ∧ t ∈ tool_sequences_of logs
              ∧ tool_sequence_pattern repr_value t n ∈ patterns)
  ∧ (∀ patterns p,
       detect_patterns repr_value logs = Ok patterns →
       p ∈ patterns → py_get p "type" PNone = Ok (PStr "tool_sequence") →
       ∃ t k,
         hash_triple t = Ok k ∧ t ∈ tool_sequences_of logs
         ∧ (2 <= occurrences k (tool_sequences_of logs))%nat
         ∧ p = tool_sequence_pattern repr_value t
                 (occurrences k (tool_sequences_of logs)))
  ∧ (∀ first second last n,
       tool_sequence_pattern repr_value (first, second, last) n
       = PDict [ ("type", PStr "tool_sequence");
                 ("sequence", PList [first; second; last]);
                 ("occurrences", PInt n);
                 ("potential_command", PBool true);
                 ("suggested_name",
                   PStr (replace_space
                           (py_lower (py_str repr_value first +:+ "_"
                                      +:+ py_str repr_value last +:+ "_flow")))) ])
  ∧ ((∀ t, t ∈ tool_sequences_of logs → ∃ k, hash_triple t = Ok k) →
     ∃ patterns, detect_patterns repr_value logs = Ok patterns).
Proof.
  assert (∀ patterns, detect_patterns repr_value logs = Ok patterns →
            ∃ acc, Counter (tool_sequences_of logs) = Ok acc
                   ∧ patterns = repeated_sequences repr_value acc
                                ++ error_retries logs) as Hinv.
  { intros patterns. unfold detect_patterns.
    destruct (Counter (tool_sequences_of logs)) as [acc|e]; [|done].
    cbn [rbind]. intros [= <-]. by exists acc. }
  assert (∀ acc, Counter (tool_sequences_of logs) = Ok acc →
            NoDup (keys_of acc) ∧ entries_hashed acc
            ∧ (∀ k, counted k acc = occurrences k (tool_sequences_of logs))
            ∧ ∀ k t n, (k, t, n) ∈ acc → t ∈ tool_sequences_of logs) as Hcounter.
  { intros acc Hacc. unfold Counter in Hacc.
    destruct (Counter_from_spec _ _ _ Hacc) as (Hnd & Hh & Hc).
    - constructor.
    - intros k t n Hin. by apply not_elem_of_nil in Hin.
    - split_and!; [done..| |].
      + intros k. by rewrite Hc.
      + intros k t n Hin.
        destruct (Counter_from_elem _ _ _ _ _ _ Hacc Hin) as [?|[m Hm]]; [done|].
        by apply not_elem_of_nil in Hm. }
  split_and!.
  - apply windows3_lookup.
  - intros t. unfold tool_sequences_of. rewrite list_elem_of_omap. split.
    + intros ([[a b] c] & (i & Hi)%list_elem_of_lookup & Ht).
      apply windows3_lookup in Hi as (Ha & Hb & Hc). unfold tool_triple in Ht.
      destruct (truthy (tool_name_of a)) eqn:Ea; [|done].
      destruct (truthy (tool_name_of b)) eqn:Eb; [|done].
      destruct (truthy (tool_name_of c)) eqn:Ec; [|done].
      injection Ht as <-. by exists i, a, b, c.
    + intros (i & a & b & c & Ha & Hb & Hc & Ea & Eb & Ec & ->).
      exists (a, b, c). split.
      * apply list_elem_of_lookup. exists i. by apply windows3_lookup.
      * unfold tool_triple. by rewrite Ea, Eb, Ec.
  - intros patterns k Hp. cbn zeta.
    destruct (Hinv _ Hp) as (acc & Hacc & ->).
    destruct (Hcounter _ Hacc) as (Hnd & Hh & Hc & Hfrom). split.
    + intros Hn. rewrite <- Hc in Hn.
      destruct (counted_pos k acc) as [t Ht]; [lia|].
      exists t. split_and!; [by eapply Hh | by eapply Hfrom |].
      apply elem_of_app. left. apply repeated_sequences_elem.
      exists k, t, (counted k acc). by rewrite <- Hc.
    + intros (t & Hk & _ & [Hin|Hin]%elem_of_app).
      * apply repeated_sequences_elem in Hin as (k' & t' & n' & Hin & Hn & Heq).
        apply tool_sequence_pattern_inj in Heq as [-> ->].
        pose proof (Hh _ _ _ Hin) as Hk'. rewrite Hk in Hk'. by simplify_eq.
      * apply error_retries_type in Hin. by destruct t as [[? ?] ?].
  - intros patterns p Hp Hin Hty.
    destruct (Hinv _ Hp) as (acc & Hacc & ->).
    destruct (Hcounter _ Hacc) as (Hnd & Hh & Hc & Hfrom).
    apply elem_of_app in Hin as [Hin|Hin].
    + apply repeated_sequences_elem in Hin as (k & t & n & Hin & Hn & ->).
      pose proof (counted_elem _ _ _ _ Hnd Hin) as Hcn. rewrite Hc in Hcn.
      exists t, k. rewrite Hcn. split_and!; [by eapply Hh | by eapply Hfrom |done..].
    + apply error_retries_type in Hin. rewrite Hin in Hty. by simplify_eq.
  - done.
  - intros Hh. unfold detect_patterns, Counter.
    destruct (Counter_from_total _ [] Hh) as [acc ->]. by eexists.
Qed.

End WithText.

Lemma repeated_tool_sequences_witness :
  ∃ patterns t,
    detect_patterns SessionSamples.repr_text SessionSamples.seven_logs
    = Ok patterns
    ∧ hash_triple t = Ok (KStr "Read", KStr "Grep", KStr "Edit")
    ∧ tool_sequence_pattern SessionSamples.repr_text t 2 ∈ patterns.
Proof.
  destruct (repeated_tool_sequences SessionSamples.repr_text
              SessionSamples.seven_logs) as (_ & _ & Hcount & _).
  eexists. 
  destruct (proj1 (Hcount _ (KStr "Read", KStr "Grep", KStr "Edit") eq_refl))
    as (t & Hk & _ & Hin).
  - vm_compute. lia.
  - exists t. split; [reflexivity|]. split; [exact Hk|]. exact Hin.
Defined.

End Patterns.

(** ** Two analyses of one session *)

Module Idempotence.
Import Py SessionImprovement.

Section WithRuntime.
Variable repr_value : pyval -> string.
Variable md5_hex8 : list pyval -> string.
Variable isoformat : nat -> string.
Variable list_sort : list (pyval * dict) -> result (list dict).

Lemma entries_of_files_same sid fs fs' bases :
  (∀ base, base ∈ bases → fs' !! json_name base = fs !! json_name base) →
  entries_of_files sid fs' bases = entries_of_files sid fs bases.
Proof.
  induction bases as [|base bases IH]; intros Hsame; [done|].
  cbn [entries_of_files]. unfold entries_of_file.
  rewrite (Hsame base) by (by left). rewrite IH; [done|].
  intros b Hb. apply Hsame. by right.
Qed.

Lemma load_session_logs_same sid fs fs' :
  same_logs fs fs' →
  load_session_logs list_sort sid fs' = load_session_logs list_sort sid fs.
Proof.
  intros Hsame. unfold load_session_logs.
  by rewrite (entries_of_files_same sid fs fs' log_files Hsame).
Qed.

(** The pending file is none of the six log files. *)
Lemma same_logs_insert fs v : same_logs fs (<[improvements_file := v]> fs).
Proof.
  intros base Hb. rewrite lookup_insert_ne; [done|].
  unfold log_files in Hb.
  repeat (apply elem_of_cons in Hb as [-> | Hb]; [done|]).
  by apply not_elem_of_nil in Hb.
Qed.

(** The instant of the clock shows in the timestamp of the analysis and
    nowhere else. *)
Lemma analysis_dict_timestamp sid t t' logs :
  analysis_dict repr_value md5_hex8 sid t' logs
  = match analysis_dict repr_value md5_hex8 sid t logs with
    | Ok a => Ok (dict_set a "timestamp" (PStr t'))
    | Raise e => Raise e
    end.
Proof.
  unfold analysis_dict.
  destruct (detect_patterns repr_value logs); [|done]. cbn [rbind].
  destruct (find_error_patterns repr_value logs); [|done]. cbn [rbind].
  by destruct (calculate_session_metrics logs).
Qed.

Lemma dict_get_set_ne d k k' v default :
  k ≠ k' → dict_get (dict_set d k v) k' default = dict_get d k' default.
Proof.
  intros Hne. unfold dict_get. induction d as [|[k0 v0] d IH]; cbn.
  - by rewrite (proj2 (String.eqb_neq k k') Hne).
  - destruct (String.eqb k0 k) eqn:E0; cbn.
    + apply String.eqb_eq in E0 as ->.
      by rewrite (proj2 (String.eqb_neq k k') Hne).
    + destruct (String.eqb k0 k'); [done|]. apply IH.
Qed.

(** [analyze_session] writes the pending file at most, and only after a
    successful append. *)
Lemma analyze_session_world event w :
  let w1 := snd (analyze_session repr_value md5_hex8 isoformat list_sort event w) in
  same_logs (files w) (files w1)
  ∧ write_fails w1 = write_fails w
  ∧ appendable (files w1) = appendable (files w).
Proof.
  unfold analyze_session.
  destruct (py_get event "session_id" PNone) as [sid|e]; [|done].
  destruct (negb (truthy sid)); [done|].
  destruct (load_session_logs list_sort sid (files w)) as [[|log logs]|e];
    [done| |done].
  cbn [now]. 
  destruct (analysis_dict _ _ _ _ _) as [analysis|e]; [|done].
  destruct (_ || _); [|done].
  unfold save_for_batch_processing. cbn [files time write_fails failure].
  destruct (existing_improvements (files w)) eqn:Ex; try done.
  cbn [snd files write_fails].
  assert (∀ c, appendable (<[improvements_file := c]> (files w))
               = match c with
                 | Json (PList _) | Unreadable => true
                 | _ => false
                 end) as Hins.
  { intros c. unfold appendable, existing_improvements.
    rewrite lookup_insert_eq. by destruct c as [|[]]. }
  assert (appendable (files w) = true) as Hw
    by (unfold appendable; by rewrite Ex).
  cbn [failure].
  destruct (write_fails w); [destruct (failure w) as [|[]]|];
    rewrite ?Hins, ?Hw; split_and!; done || apply same_logs_insert.
Qed.

(** The result of [analyze_session] depends on the world through the six
    log files and through whether the pending file can be appended to. *)
Lemma analyze_session_depends event w w' :
  same_logs (files w) (files w') →
  appendable (files w') = appendable (files w) →
  fst (analyze_session repr_value md5_hex8 isoformat list_sort event w')
  = fst (analyze_session repr_value md5_hex8 isoformat list_sort event w).
Proof.
  intros Hlogs Happ. unfold analyze_session.
  destruct (py_get event "session_id" PNone) as [sid|e]; [|done].
  destruct (negb (truthy sid)); [done|].
  rewrite (load_session_logs_same sid _ _ Hlogs).
  destruct (load_session_logs list_sort sid (files w)) as [[|log logs]|e];
    [done| |done].
  cbn [now].
  rewrite (analysis_dict_timestamp sid (isoformat (time w)) (isoformat (time w'))).
  destruct (analysis_dict _ _ _ (isoformat (time w)) _) as [analysis|e]; [|done].
  rewrite !dict_get_set_ne by done.
  destruct (_ || _); [|done].
  unfold save_for_batch_processing. cbn [files]. unfold appendable in Happ.
  destruct (existing_improvements (files w)),
           (existing_improvements (files w')); done.
Qed.

(** C8. A second call of [analyze_session] on the same event, made in the
    world that the first call left (the clock has advanced and the pending
    file may have grown), reads the same session events and returns the
    same result, be it a value or an exception. The analyses that the two
    calls build from these events agree on every entry other than the
    timestamp: the patterns, the tool sequences, the error sequences and
    the metrics are the same. *)
Theorem analyze_session_idempotent (event : pyval) (w : world) :
  let w1 := snd (analyze_session repr_value md5_hex8 isoformat list_sort event w) in
  fst (analyze_session repr_value md5_hex8 isoformat list_sort event w1)
  = fst (analyze_session repr_value md5_hex8 isoformat list_sort event w)
  ∧ (∀ sid, load_session_logs list_sort sid (files w1)
            = load_session_logs list_sort sid (files w))
  ∧ (∀ sid t1 t2 logs a1,
       analysis_dict repr_value md5_hex8 sid t1 logs = Ok a1 →
       ∃ a2,
         analysis_dict repr_value md5_hex8 sid t2 logs = Ok a2
         ∧ dict_get a2 "patterns" PNone = dict_get a1 "patterns" PNone
         ∧ dict_get a2 "tool_sequences" PNone = dict_get a1 "tool_sequences" PNone
         ∧ dict_get a2 "error_sequences" PNone
           = dict_get a1 "error_sequences" PNone
         ∧ dict_get a2 "metrics" PNone = dict_get a1 "metrics" PNone
         ∧ dict_get a2 "total_events" PNone = dict_get a1 "total_events" PNone
         ∧ dict_get a2 "session_id" PNone = dict_get a1 "session_id" PNone).
Proof.
  destruct (analyze_session_world event w) as (Hlogs & _ & Happ).
  split_and!.
  - by apply analyze_session_depends.
  - intros sid. by apply load_session_logs_same.
  - intros sid t1 t2 logs a1 Ha1.
    rewrite (analysis_dict_timestamp sid t1 t2), Ha1. eexists. split; [done|].
    by rewrite !dict_get_set_ne.
Qed.

End WithRuntime.

Lemma analyze_session_idempotent_witness :
  ∃ a2,
    analysis_dict SessionSamples.repr_text SessionSamples.hash_text
      (PStr "s1") (SessionSamples.clock_text 1) SessionSamples.seven_logs
    = Ok a2
    ∧ dict_get a2 "patterns" PNone
      = PList [ tool_sequence_pattern SessionSamples.repr_text
                  (PStr "Read", PStr "Grep", PStr "Edit") 2 ].
Proof.
  destruct (analyze_session_idempotent SessionSamples.repr_text
              SessionSamples.hash_text SessionSamples.clock_text
              SessionSamples.sort_by_text
              (PDict [ ("session_id", PStr "s1") ]) SessionSamples.sample_world)
    as (_ & _ & Hsame).
  edestruct (Hsame (PStr "s1") (SessionSamples.clock_text 0)
               (SessionSamples.clock_text 1) SessionSamples.seven_logs)
    as (a2 & Ha2 & Hp & _).
  - vm_compute. reflexivity.
  - exists a2. split; [exact Ha2|]. rewrite Hp. reflexivity.
Defined.

End Idempotence.

(** ** Streams of events through the detector *)

Module Streams.
Import Py LogAnalyzer LogAnalyzerMore DetectorLemmas.

Lemma last_n_last_n_app {A} (n : nat) (l l' : list A) :
  last_n n (last_n n l ++ l') = last_n n (l ++ l').
Proof.
  destruct (Nat.le_gt_cases (length l) n) as [Hle|Hgt].
  - unfold last_n at 2. by replace (length l - n)%nat with 0%nat by lia.
  - unfold last_n. rewrite !length_app, length_drop.
    rewrite !drop_app, drop_drop, length_drop. f_equal; f_equal; lia.
Qed.

Lemma map_r_length {A B} (f : A → result B) (l : list A) (l' : list B) :
  map_r f l = Ok l' → length l' = length l.
Proof.
  revert l'. induction l as [|x l IH]; intros l'; cbn.
  - by intros [= <-].
  - destruct (f x); [|done]. cbn. destruct (map_r f l) as [r|]; [|done].
    cbn. intros [= <-]. cbn. by rewrite (IH r).
Qed.

Section WithOutlierTest.
Variable is_outlier : list Q -> Q -> bool.

Lemma run_app (e1 e2 : list LogEvent) (self : PatternDetector) :
  run is_outlier (e1 ++ e2) self = run is_outlier e2 (run is_outlier e1 self).
Proof. unfold run. apply fold_left_app. Qed.

Lemma run_snoc (events : list LogEvent) (event : LogEvent) (self : PatternDetector) :
  run is_outlier (events ++ [event]) self
  = snd (analyze_event is_outlier event (run is_outlier events self)).
Proof. by rewrite run_app. Qed.

(** After at least one event the window holds the last 1000 events of the
    deque it started from followed by the stream. *)
Lemma run_window (events : list LogEvent) (self : PatternDetector) :
  (length (recent_events self) <= maxlen)%nat →
  recent_events (run is_outlier events self)
  = last_n maxlen (recent_events self ++ events).
Proof.
  intros Hlen. induction events as [|event events IH] using rev_ind.
  - cbn. rewrite app_nil_r. unfold last_n.
    by replace (length (recent_events self) - maxlen)%nat with 0%nat by lia.
  - rewrite run_snoc.
    destruct (analyze_event_state is_outlier event (run is_outlier events self))
      as (-> & _). rewrite IH, last_n_last_n_app. by rewrite <- (assoc_L (++)).
Qed.

(** The results of a stream, one by one: each is the result of
    [analyze_event] on the detector that the events before it left. *)
Lemma run_results_elem (events : list LogEvent) (self : PatternDetector)
    (r : result event_analysis) :
  r ∈ run_results is_outlier events self
  ↔ ∃ pre event post,
      events = pre ++ event :: post
      ∧ r = fst (analyze_event is_outlier event (run is_outlier pre self)).
Proof.
  revert self. induction events as [|ev events IH]; intros self.
  - cbn. split.
    + by intros ?%not_elem_of_nil.
    + intros (pre & event & post & Heq & _). by destruct pre.
  - cbn [run_results].
    destruct (analyze_event is_outlier ev self) as [r0 s0] eqn:E0.
    rewrite elem_of_cons, IH. split.
    + intros [->|(pre & event & post & -> & ->)].
      * exists [], ev, events. cbn [run fold_left app]. by rewrite E0.
      * exists (ev :: pre), event, post. cbn [run fold_left]. by rewrite E0.
    + intros (pre & event & post & Heq & ->). destruct pre as [|ev' pre].
      * injection Heq as <- <-. left. cbn [run fold_left]. by rewrite E0.
      * injection Heq as <- ->. right. exists pre, event, post.
        cbn [run fold_left]. by rewrite E0.
Qed.

(** X1. The window of recent events is the deque of capacity 1000: after
    any stream it holds the last 1000 of the events it held before
    followed by the events of the stream, oldest first, whether the calls
    of [analyze_event] raised or not. From a new detector it holds the
    last 1000 events of the stream. *)
Theorem window_holds_last_events (events : list LogEvent) :
  (∀ self,
     (length (recent_events self) <= 1000)%nat →
     recent_events (run is_outlier events self)
     = last_n 1000 (recent_events self ++ events))
  ∧ recent_events (run is_outlier events init) = last_n 1000 events
  ∧ length (recent_events (run is_outlier events init))
    = Nat.min 1000 (length events).
Proof.
  split_and!.
  - intros self Hlen. by apply run_window.
  - rewrite run_window by (cbn; unfold maxlen; lia). done.
  - rewrite run_window by (cbn; unfold maxlen; lia). cbn [init recent_events app].
    apply length_last_n.
Qed.

(** The window that the anomaly detector of a call reads. *)
Lemma anomalies_window event self a self' :
  analyze_event is_outlier event self = (Ok a, self') →
  ∃ s, recent_events s = last_n maxlen (recent_events self ++ [event])
       ∧ _detect_anomalies is_outlier event s = (Ok (anomalies a), self').
Proof.
  intros Ha.
  destruct (analyze_event_inv _ _ _ _ _ Ha) as (s1 & s2 & s3 & H1 & H2 & H3 & H4).
  exists s3. split; [|done].
  pose proof (success_frame event s2) as [_ Hs]. rewrite H3 in Hs. cbn in Hs.
  pose proof (error_patterns_frame event s1) as He. rewrite H2 in He. cbn in He.
  pose proof (performance_frame event (snd (append_recent event self)))
    as [_ Hp]. rewrite H1 in Hp. cbn in Hp.
  rewrite Hs. subst s2. by rewrite Hp.
Qed.

Lemma detect_anomalies_few event self found self' :
  (length (filter (λ e, has_duration e = true) (recent_events self)) <= 10)%nat →
  _detect_anomalies is_outlier event self = (Ok found, self') → found = [].
Proof.
  intros Hfew. unfold _detect_anomalies, bind, lift, get_self, ret.
  destruct (eq_str (event_type event) "session_end"); [|by intros [= <-]].
  destruct (session_duration_of event) as [d|]; [|done].
  destruct (map_r session_duration_of _) as [durs|] eqn:Ed; [|done].
  apply map_r_length in Ed.
  destruct (Nat.ltb_spec 10 (length durs)); [lia|]. by intros [= <-].
Qed.

Lemma map_r_durations (window : list LogEvent) :
  (∃ durs, map_r session_duration_of window = Ok durs)
  ∨ map_r session_duration_of window = Raise AttributeError.
Proof.
  induction window as [|e window IH]; [left; by eexists|].
  cbn. unfold session_duration_of at 1 3, py_get.
  destruct (metrics e); cbn; try (by right).
  destruct IH as [[durs ->]| ->]; cbn; [left; by eexists | by right].
Qed.

(** X2. The anomaly detector reports nothing while the window that it
    reads holds at most 10 [session_end] events with non-empty metrics,
    whatever the outlier test says: the detector then returns the empty
    list, or raises [AttributeError] when a metrics value it reads is not
    a dict; a call of [analyze_event] that returns reports no anomaly when
    the window, taken with the event of the call, holds at most 10 such
    events, and so does every call of a stream with at most 10 of them.
    With more than 10 samples, all of them numbers below [2^63] in
    magnitude, it reports the duration of the event exactly when the
    outlier test, fitted on the samples, rejects it; the report carries
    the median that NumPy computes on the doubles of the samples and has
    severity medium. *)
Theorem anomaly_needs_eleven_samples :
  (∀ event self,
     (length (filter (λ e, has_duration e = true) (recent_events self))
      <= 10)%nat →
     fst (_detect_anomalies is_outlier event self) = Ok []
     ∨ fst (_detect_anomalies is_outlier event self) = Raise AttributeError)
  ∧ (∀ event self a self',
       (length (filter (λ e, has_duration e = true)
                       (last_n 1000 (recent_events self ++ [event])))
        <= 10)%nat →
       analyze_event is_outlier event self = (Ok a, self') →
       anomalies a = [])
  ∧ (∀ events a,
       (length (filter (λ e, has_duration e = true) events) <= 10)%nat →
       Ok a ∈ run_results is_outlier events init →
       anomalies a = [])
  ∧ (∀ event self d durs samples x,
       event_type event = PStr "session_end" →
       session_duration_of event = Ok d →
       map_r session_duration_of
             (filter (λ e, has_duration e = true) (recent_events self))
       = Ok durs →
       (10 < length durs)%nat →
       nums_of durs = Some samples → as_num d = Some x →
       Forall in_range samples →
       ∃ found,
         fst (_detect_anomalies is_outlier event self) = Ok found
         ∧ (found ≠ [] ↔ is_outlier samples x = true)
         ∧ ∀ r, r ∈ found →
             found = [r]
             ∧ an_type r = "unusual_session_duration"
             ∧ an_session_duration r = d
             ∧ median_of_doubles samples (an_baseline_median r)
             ∧ an_severity r = "medium").
Proof.
  split_and!.
  - intros event self Hfew.
    unfold _detect_anomalies, bind, lift, get_self, ret.
    destruct (eq_str (event_type event) "session_end"); [|by left].
    destruct (session_duration_of event) as [d|e] eqn:Hd.
    2:{ right. cbn. revert Hd. unfold session_duration_of, py_get.
        by destruct (metrics event); intros [= <-]. }
    cbn beta iota.
    destruct (map_r_durations
                (filter (λ e, has_duration e = true) (recent_events self)))
      as [[durs Ed]|Ed]; rewrite Ed; cbn beta iota.
    + apply map_r_length in Ed.
      destruct (Nat.ltb_spec 10 (length durs)); [lia|]. by left.
    + by right.
  - intros event self a self' Hfew Ha.
    destruct (anomalies_window _ _ _ _ Ha) as (s & Hw & Hdet).
    apply (detect_anomalies_few event s _ self'); [|done].
    by rewrite Hw.
  - intros events a Hfew (pre & event & post & -> & Hr)%run_results_elem.
    destruct (analyze_event is_outlier event (run is_outlier pre init))
      as [r self'] eqn:Ha. cbn in Hr. subst r.
    destruct (anomalies_window _ _ _ _ Ha) as (s & Hw & Hdet).
    apply (detect_anomalies_few event s _ self'); [|done].
    rewrite Hw, run_window, last_n_last_n_app by (cbn; unfold maxlen; lia).
    cbn [init recent_events app].
    etrans; [apply (filter_length_sublist _ _ (pre ++ [event]));
             apply sublist_drop|].
    etrans; [|exact Hfew].
    apply filter_length_sublist.
    rewrite (cons_middle event pre post), (assoc_L (++)).
    by apply sublist_inserts_r.
  - intros event self d durs samples x Hty Hd Hdurs Hlen Hs Hx Hr.
    assert (eq_str (event_type event) "session_end" = true) as Hg
      by (by rewrite Hty).
    unfold _detect_anomalies. rewrite Hg.
    unfold bind, lift, get_self, ret. rewrite Hd. cbn beta iota. rewrite Hdurs.
    destruct (Nat.ltb_spec 10 (length durs)); [|lia]. rewrite Hs, Hx.
    destruct (is_outlier samples x).
    + unfold np_median.
      rewrite Hs, (FloatFacts.map_to_float64_in_range samples Hr).
      cbn [rbind]. eexists. split; [done|]. split; [done|].
      intros r ->%list_elem_of_singleton. cbn.
      split_and!; [done..| |done]. by apply FloatFacts.median64_spec.
    + exists []. split; [done|]. split; [done|].
      intros r Hr'. by apply not_elem_of_nil in Hr'.
Qed.

End WithOutlierTest.

Lemma window_holds_last_events_witness :
  recent_events (run Samples.no_outlier
                   [Samples.timed_tool_use "X" 1; Samples.timed_tool_use "X" 2]
                   init)
  = last_n 1000 ([] ++ [Samples.timed_tool_use "X" 1;
                        Samples.timed_tool_use "X" 2]).
Proof.
  destruct (window_holds_last_events Samples.no_outlier
              [Samples.timed_tool_use "X" 1; Samples.timed_tool_use "X" 2])
    as (Hw & _).
  apply (Hw init). cbn. lia.
Defined.

Lemma anomaly_needs_eleven_samples_witness :
  ∃ a,
    last (run_results MoreSamples.all_outliers
            (map MoreSamples.session_end [10; 20; 3000]%Q) init)
    = Some (Ok a)
    ∧ anomalies a = [].
Proof.
  eexists. split; [vm_compute; reflexivity|].
  destruct (anomaly_needs_eleven_samples MoreSamples.all_outliers)
    as (_ & _ & Hfew & _).
  eapply (Hfew (map MoreSamples.session_end [10; 20; 3000]%Q)).
  - vm_compute. lia.
  - apply list_elem_of_In. vm_compute. right. right. left. reflexivity.
Defined.

End Streams.

(** ** The analysis of a log file *)

Module LogFiles.
Import Py LogAnalyzer LogAnalyzerMore DetectorLemmas.

Lemma events_of_shift (now : nat → string) (k i : nat) (entries : list pyval) :
  events_of (λ j, now (k + j)%nat) i entries = events_of now (k + i) entries.
Proof.
  revert i. induction entries as [|entry entries IH]; intros i; [done|].
  cbn [events_of]. rewrite IH, Nat.add_succ_r.
  by destruct (event_of_entry (now (k + i)%nat) entry).
Qed.

Lemma events_of_app (now : nat → string) (i : nat) (a b : list pyval) :
  events_of now i (a ++ b)
  = events_of now i a ++ events_of now (i + length a) b.
Proof.
  revert i. induction a as [|entry a IH]; intros i.
  - cbn. by rewrite Nat.add_0_r.
  - cbn [app events_of length]. rewrite IH, Nat.add_succ_r.
    by destruct (event_of_entry (now i) entry).
Qed.

Lemma events_of_length (now : nat → string) (i : nat) (entries : list pyval) :
  length (events_of now i entries)
  = length (filter (λ v, is_dict v = true) entries).
Proof.
  revert i. induction entries as [|entry entries IH]; intros i; [done|].
  cbn [events_of]. rewrite filter_cons.
  destruct entry; cbn; rewrite ?IH; done.
Qed.

Lemma events_of_no_dict (now : nat → string) (i : nat) (entries : list pyval) :
  Forall (λ v, is_dict v = false) entries → events_of now i entries = [].
Proof.
  revert i. induction entries as [|entry entries IH]; intros i Hall; [done|].
  apply Forall_cons in Hall as [He Hall]. cbn [events_of].
  destruct entry; try done; by apply IH.
Qed.

Section WithOutlierTest.
Variable is_outlier : list Q -> Q -> bool.

(** The loop over two lists of events is the loop over the first followed
    by the loop over the second on the detector that the first left. *)
Lemma analyze_events_app (e1 e2 : list LogEvent) (self : PatternDetector) :
  analyze_events is_outlier (e1 ++ e2) self
  = match analyze_events is_outlier e1 self with
    | (Ok p1, s1) =>
        match analyze_events is_outlier e2 s1 with
        | (Ok p2, s2) => (Ok (p1 ++ p2), s2)
        | (Raise e, s2) => (Raise e, s2)
        end
    | (Raise e, s1) => (Raise e, s1)
    end.
Proof.
  revert self. induction e1 as [|ev e1 IH]; intros self.
  - cbn. by destruct (analyze_events is_outlier e2 self) as [[?|?] ?].
  - cbn [app analyze_events]. unfold bind, ret.
    destruct (analyze_event is_outlier ev self) as [[a|?] s]; [|done].
    rewrite IH.
    destruct (analyze_events is_outlier e1 s) as [[p1|?] s1]; [|done].
    destruct (analyze_events is_outlier e2 s1) as [[p2|?] s2]; [|done].
    by destruct (any_values a).
Qed.

(** When the loop ends normally, every call returned, the patterns are the
    events whose analysis holds a finding, paired with that analysis, in
    the order of the log, and the detector is the one the stream leaves. *)
Lemma analyze_events_ok (events : list LogEvent) (self : PatternDetector)
    (ps : list (LogEvent * event_analysis)) (self' : PatternDetector) :
  analyze_events is_outlier events self = (Ok ps, self') →
  ∃ analyses,
    run_results is_outlier events self = map Ok analyses
    ∧ ps = filter (λ p, any_values (snd p) = true) (zip events analyses)
    ∧ self' = run is_outlier events self.
Proof.
  revert self ps. induction events as [|ev events IH]; intros self ps.
  - cbn. intros [= <- <-]. by exists [].
  - cbn [analyze_events run_results run fold_left]. unfold bind, ret.
    destruct (analyze_event is_outlier ev self) as [[a|?] s]; [|done].
    destruct (analyze_events is_outlier events s) as [[ps'|?] s'] eqn:E; [|done].
    intros [= <- <-]. destruct (IH _ _ E) as (analyses & Hr & -> & ->).
    exists (a :: analyses). cbn [map zip zip_with snd]. rewrite Hr, filter_cons.
    split_and!; [done| |done]. cbn [snd].
    by destruct (any_values a).
Qed.

(** X3. When [analyze_log_file] returns its analysis of a JSON array, the
    event count is the number of entries that are JSON objects (the other
    entries are skipped), every call of [analyze_event] returned, and the
    patterns are exactly the events whose analysis holds at least one
    finding, each with its analysis, in the order of the log; the detector
    is left as the stream of these events leaves it. A log that holds a
    JSON object or a string has no event; a log that holds a number, a
    boolean or null ends in the error result. *)
Theorem log_analysis_lists_events_with_findings :
  (∀ now entries self n ps self',
     analyze_log_file is_outlier now (FileJson (PList entries)) self
     = (Results n ps, self') →
     let events := events_of now 0 entries in
     n = length (filter (λ v, is_dict v = true) entries)
     ∧ n = length events
     ∧ (∃ analyses,
          run_results is_outlier events self = map Ok analyses
          ∧ ps = filter (λ p, any_values (snd p) = true) (zip events analyses))
     ∧ (length ps <= n)%nat
     ∧ self' = run is_outlier events self)
  ∧ (∀ now d self,
       analyze_log_file is_outlier now (FileJson (PDict d)) self
       = (Results 0 [], self))
  ∧ (∀ now s self,
       analyze_log_file is_outlier now (FileJson (PStr s)) self
       = (Results 0 [], self))
  ∧ (∀ now v self,
       v = PNone ∨ (∃ b, v = PBool b) ∨ (∃ q, v = PNum q) →
       analyze_log_file is_outlier now (FileJson v) self
       = (FailedToAnalyze TypeError, self)).
Proof.
  split_and!.
  - intros now entries self n ps self'. unfold analyze_log_file. cbn [py_iter].
    destruct (analyze_events is_outlier (events_of now 0 entries) self)
      as [[ps0|?] s0] eqn:E; [|done].
    intros [= <- <- <-]. cbn zeta.
    destruct (analyze_events_ok _ _ _ _ E) as (analyses & Hr & Hps & Hs).
    split_and!.
    + apply events_of_length.
    + done.
    + by exists analyses.
    + rewrite Hps. etrans; [apply length_filter|].
      rewrite length_zip_with. lia.
    + done.
  - intros now d self. unfold analyze_log_file. cbn [py_iter].
    rewrite events_of_no_dict; [done|].
    apply Forall_forall. by intros v (kv & -> & _)%list_elem_of_fmap.
  - intros now s self. unfold analyze_log_file. cbn [py_iter].
    rewrite events_of_no_dict; [done|].
    clear. induction s as [|c s IH]; constructor; done.
  - intros now v self [->|[[b ->]|[q ->]]]; done.
Qed.

(** X4. One analyzer keeps its detector from one log to the next: when the
    analysis of a first log and then of a second both return, the analysis
    of the two logs put end to end returns the sum of the event counts and
    the patterns of the first followed by those of the second, and leaves
    the same detector. When the analysis of the first log ends in the
    error result, so does that of the two logs put end to end. *)
Theorem log_analysis_composes :
  (∀ now entries1 entries2 self n1 p1 s1 n2 p2 s2,
     analyze_log_file is_outlier now (FileJson (PList entries1)) self
     = (Results n1 p1, s1) →
     analyze_log_file is_outlier (λ i, now (length entries1 + i)%nat)
       (FileJson (PList entries2)) s1
     = (Results n2 p2, s2) →
     analyze_log_file is_outlier now (FileJson (PList (entries1 ++ entries2))) self
     = (Results (n1 + n2) (p1 ++ p2), s2))
  ∧ (∀ now entries1 entries2 self e s1,
       analyze_log_file is_outlier now (FileJson (PList entries1)) self
       = (FailedToAnalyze e, s1) →
       analyze_log_file is_outlier now (FileJson (PList (entries1 ++ entries2))) self
       = (FailedToAnalyze e, s1)).
Proof.
  split.
  - intros now entries1 entries2 self n1 p1 s1 n2 p2 s2.
    unfold analyze_log_file. cbn [py_iter].
    rewrite events_of_app, events_of_shift, analyze_events_app. cbn [Nat.add].
    rewrite Nat.add_0_r.
    destruct (analyze_events is_outlier (events_of now 0 entries1) self)
      as [[q1|?] t1]; [|done].
    intros [= <- <- <-].
    destruct (analyze_events is_outlier
                (events_of now (length entries1) entries2) t1)
      as [[q2|?] t2]; [|done].
    intros [= <- <- <-]. by rewrite length_app.
  - intros now entries1 entries2 self e s1.
    unfold analyze_log_file. cbn [py_iter].
    rewrite events_of_app, analyze_events_app.
    destruct (analyze_events is_outlier (events_of now 0 entries1) self)
      as [[q1|?] t1]; [done|].
    by intros [= <- <-].
Qed.

End WithOutlierTest.

Lemma log_analysis_lists_events_with_findings_witness :
  ∃ n ps s,
    analyze_log_file Samples.no_outlier Samples.clock
      (FileJson (PList [ Samples.failed_entry "Bash" (PStr "disk full");
                         PStr "not an entry";
                         Samples.failed_entry "Bash" (PStr "disk full") ]))
      init
    = (Results n ps, s)
    ∧ n = length (filter (λ v, is_dict v = true)
                    [ Samples.failed_entry "Bash" (PStr "disk full");
                      PStr "not an entry";
                      Samples.failed_entry "Bash" (PStr "disk full") ]).
Proof.
  eexists _, _, _. split; [vm_compute; reflexivity|].
  destruct (log_analysis_lists_events_with_findings Samples.no_outlier)
    as (Hlist & _).
  eapply (Hlist Samples.clock _ init 2%nat). vm_compute. reflexivity.
Defined.

Lemma log_analysis_composes_witness :
  ∃ p2 s2,
    analyze_log_file Samples.no_outlier Samples.clock
      (FileJson (PList (repeat (Samples.failed_entry "Bash" (PStr "disk full")) 2
                        ++ repeat (Samples.failed_entry "Bash" (PStr "disk full")) 2)))
      init
    = (Results (2 + 2) ([] ++ p2), s2)
    ∧ length p2 = 1%nat.
Proof.
  destruct (log_analysis_composes Samples.no_outlier) as (Hcomp & _).
  eexists _, _. split.
  - eapply (Hcomp Samples.clock
              (repeat (Samples.failed_entry "Bash" (PStr "disk full")) 2)
              (repeat (Samples.failed_entry "Bash" (PStr "disk full")) 2)
              init 2%nat [] _ 2%nat).
    + vm_compute. reflexivity.
    + vm_compute. reflexivity.
  - reflexivity.
Defined.

End LogFiles.

(** ** Well-formed events never make a detector raise *)

Module Safety.
Import Py LogAnalyzer LogAnalyzerMore WellFormed DetectorLemmas FloatFacts.














Section WithOutlierTest.
Variable is_outlier : list Q -> Q -> bool.







End WithOutlierTest.



End Safety.

(** ** The pending improvements file *)

Module PendingFile.
Import Py SessionImprovement DetectorLemmas.

Lemma last_n_same {A} (n : nat) (l : list A) :
  (if (n <? length l)%nat then last_n n l else l) = last_n n l.
Proof.
  destruct (Nat.ltb_spec n (length l)); [done|].
  unfold last_n. by replace (length l - n)%nat with 0%nat by lia.
Qed.

Lemma last_last_n {A} (n : nat) (l : list A) (x : A) :
  (0 < n)%nat → last (last_n n (l ++ [x])) = Some x.
Proof.
  intros Hn. unfold last_n. rewrite length_app. cbn [length].
  rewrite drop_app_le by lia. apply last_snoc.
Qed.

(** X6. [save_for_batch_processing] appends the analysis to the list of
    the pending file (the empty list when the file is absent or cannot be
    read) and keeps the last 100 items: after a save that can write, the
    file holds at most 100 analyses, the new one last, and they are the
    most recent ones in their order; no other file and not the clock is
    changed. When the file holds a JSON value that is not a list, the save
    raises and changes nothing. When the write fails, the save returns all
    the same and no other file is changed; the pending file is as it was
    when the failure is at its opening, and otherwise it has been emptied
    by the opening: it is left with a text that does not parse, which the
    next save reads as the empty list, so that the analyses that were
    pending are lost, unless the failure came with the closing of the
    file, which then holds the new list. *)
Theorem pending_file_keeps_last_hundred (analysis : pyval) (w : world) :
  (∀ existing,
     existing_improvements (files w) = PList existing →
     write_fails w = false →
     ∃ w',
       save_for_batch_processing analysis w = (Ok tt, w')
       ∧ files w' !! improvements_file
         = Some (Json (PList (last_n 100 (existing ++ [analysis]))))
       ∧ (length (last_n 100 (existing ++ [analysis])) <= 100)%nat
       ∧ last (last_n 100 (existing ++ [analysis])) = Some analysis
       ∧ last_n 100 (existing ++ [analysis]) `suffix_of` existing ++ [analysis]
       ∧ (∀ name, name ≠ improvements_file → files w' !! name = files w !! name)
       ∧ time w' = time w)
  ∧ (appendable (files w) = false →
     save_for_batch_processing analysis w = (Raise AttributeError, w))
  ∧ (∀ existing,
       existing_improvements (files w) = PList existing →
       write_fails w = true →
       ∃ w',
         save_for_batch_processing analysis w = (Ok tt, w')
         ∧ (∀ name, name ≠ improvements_file →
                    files w' !! name = files w !! name)
         ∧ time w' = time w
         ∧ (failure w = AtOpen →
            files w' !! improvements_file = files w !! improvements_file)
         ∧ (failure w = AfterOpen false →
            files w' !! improvements_file = Some Unreadable
            ∧ existing_improvements (files w') = PList [])
         ∧ (failure w = AfterOpen true →
            files w' !! improvements_file
            = Some (Json (PList (last_n 100 (existing ++ [analysis]))))))
  ∧ (files w !! improvements_file = None
     ∨ files w !! improvements_file = Some Unreadable →
     existing_improvements (files w) = PList [])
  ∧ (∃ w',
       save_for_batch_processing (PStr "new") SessionSamples.full_disk
       = (Ok tt, w')
       ∧ existing_improvements (files SessionSamples.full_disk)
         = PList [PStr "old"]
       ∧ existing_improvements (files w') = PList []).
Proof.
  split_and!.
  - intros existing Hex Hw. unfold save_for_batch_processing.
    rewrite Hex, Hw, last_n_same. eexists. split; [done|]. cbn [files time].
    split_and!.
    + by rewrite lookup_insert_eq.
    + rewrite length_last_n. lia.
    + apply last_last_n. lia.
    + apply last_n_suffix.
    + intros name Hne. by rewrite lookup_insert_ne.
    + done.
  - unfold appendable, save_for_batch_processing.
    by destruct (existing_improvements (files w)).
  - intros existing Hex Hw. unfold save_for_batch_processing.
    rewrite Hex, Hw, last_n_same. eexists. split; [done|]. cbn [files time].
    destruct (failure w) as [|[]]; split_and!; try done.
    + intros name Hne. by rewrite lookup_insert_ne.
    + intros _. by rewrite lookup_insert_eq.
    + intros name Hne. by rewrite lookup_insert_ne.
    + intros _. unfold existing_improvements. by rewrite lookup_insert_eq.
  - unfold existing_improvements. by intros [-> | ->].
  - eexists. split_and!; vm_compute; reflexivity.
Qed.

Lemma pending_file_keeps_last_hundred_witness :
  ∃ w',
    save_for_batch_processing (PStr "new") SessionSamples.sample_world
    = (Ok tt, w')
    ∧ files w' !! improvements_file
      = Some (Json (PList (last_n 100 ([] ++ [PStr "new"])))).
Proof.
  destruct (pending_file_keeps_last_hundred (PStr "new")
              SessionSamples.sample_world) as (Hsave & _).
  destruct (Hsave []) as (w' & Hw & Hfile & _).
  - reflexivity.
  - reflexivity.
  - by exists w'.
Defined.

Section WithRuntime.
Variable repr_value : pyval -> string.
Variable md5_hex8 : list pyval -> string.
Variable isoformat : nat -> string.
Variable list_sort : list (pyval * dict) -> result (list dict).

Ltac closed_case :=
  split_and!;
  first [ done | by left | by right | by (intros; simplify_eq/=) ].

Lemma analysis_dict_session_id sid t logs a :
  analysis_dict repr_value md5_hex8 sid t logs = Ok a →
  dict_get a "session_id" PNone = sid.
Proof.
  unfold analysis_dict.
  destruct (detect_patterns repr_value logs); [|done]. cbn [rbind].
  destruct (find_error_patterns repr_value logs); [|done]. cbn [rbind].
  destruct (calculate_session_metrics logs); [|done]. cbn [rbind].
  by intros [= <-].
Qed.

(** X7. [analyze_session] writes one file at most, the pending file, and
    only when it reports that it saved: no log file is ever changed; when
    the call raises, or returns a result without [saved_for_improvement],
    no file is changed at all. When it reports a save and the write does
    not fail, the last item of the pending file is the analysis of the
    session that was asked for, that analysis holds a pattern or an error
    sequence, the count of patterns in the result is the count in the
    saved analysis, and the file holds at most 100 items. The clock is
    read once at most. *)
Theorem analyze_session_writes_only_pending (event : pyval) (w : world) :
  let r := fst (analyze_session repr_value md5_hex8 isoformat list_sort event w) in
  let w1 := snd (analyze_session repr_value md5_hex8 isoformat list_sort event w) in
  (∀ name, name ≠ improvements_file → files w1 !! name = files w !! name)
  ∧ write_fails w1 = write_fails w
  ∧ (time w1 = time w ∨ time w1 = S (time w))
  ∧ (∀ e, r = Raise e → files w1 = files w)
  ∧ (∀ d, r = Ok (PDict d) →
       dict_lookup d "saved_for_improvement" = None → files w1 = files w)
  ∧ (∀ d, r = Ok (PDict d) →
       dict_lookup d "saved_for_improvement" = Some (PBool true) →
       write_fails w = false →
       ∃ saved analysis,
         files w1 !! improvements_file = Some (Json (PList saved))
         ∧ last saved = Some (PDict analysis)
         ∧ (length saved <= 100)%nat
         ∧ py_get event "session_id" PNone
           = Ok (dict_get analysis "session_id" PNone)
         ∧ truthy (dict_get analysis "patterns" PNone)
           || truthy (dict_get analysis "error_sequences" PNone) = true
         ∧ dict_get d "patterns_found" PNone
           = PInt (len_of (dict_get analysis "patterns" PNone))).
Proof.
  cbn zeta. unfold analyze_session.
  destruct (py_get event "session_id" PNone) as [sid|e0];
    [|closed_case].
  destruct (negb (truthy sid)); [closed_case|].
  destruct (load_session_logs list_sort sid (files w)) as [[|log logs]|e0];
    [closed_case| |closed_case].
  cbn [now].
  destruct (analysis_dict _ _ _ _ _) as [analysis|e0] eqn:Ea;
    [|closed_case].
  destruct (truthy (dict_get analysis "patterns" PNone)
            || truthy (dict_get analysis "error_sequences" PNone)) eqn:Hfound;
    [|closed_case].
  destruct (existing_improvements (files w)) as [| | | |existing|] eqn:Hex;
    unfold save_for_batch_processing; cbn [files time write_fails failure];
    rewrite Hex; try (closed_case).
  cbn [fst snd files time write_fails failure]. split_and!.
  - intros name Hne.
    destruct (write_fails w); [destruct (failure w) as [|[]]; [done|..]|];
      by rewrite lookup_insert_ne.
  - done.
  - by right.
  - done.
  - by intros d [= <-].
  - intros d [= <-] _ ->. rewrite last_n_same, lookup_insert_eq.
    eexists _, _. split_and!.
    + done.
    + apply last_last_n. lia.
    + rewrite length_last_n. lia.
    + by rewrite (analysis_dict_session_id _ _ _ _ Ea).
    + done.
    + done.
Qed.

End WithRuntime.

Lemma analyze_session_writes_only_pending_witness :
  ∃ saved analysis,
    files (snd (analyze_session SessionSamples.repr_text SessionSamples.hash_text
                  SessionSamples.clock_text SessionSamples.sort_by_text
                  (PDict [ ("session_id", PStr "s1") ])
                  SessionSamples.sample_world))
    !! improvements_file
    = Some (Json (PList saved))
    ∧ last saved = Some (PDict analysis)
    ∧ dict_get analysis "session_id" PNone = PStr "s1".
Proof.
  destruct (analyze_session_writes_only_pending SessionSamples.repr_text
              SessionSamples.hash_text SessionSamples.clock_text
              SessionSamples.sort_by_text
              (PDict [ ("session_id", PStr "s1") ]) SessionSamples.sample_world)
    as (_ & _ & _ & _ & _ & Hsaved).
  edestruct Hsaved as (saved & analysis & Hfile & Hlast & _ & Hsid & _).
  - vm_compute. reflexivity.
  - reflexivity.
  - reflexivity.
  - exists saved, analysis. split_and!; [done..|]. by injection Hsid as <-.
Defined.

End PendingFile.

(** ** Loading the log entries of a session *)

Module SessionLogs.
Import Py SessionImprovement LogAnalyzerMore.

Lemma dict_get_set_eq (d : dict) (k : string) (v default : pyval) :
  dict_get (dict_set d k v) k default = v.
Proof.
  unfold dict_get. induction d as [|[k0 v0] d IH]; cbn.
  - by rewrite String.eqb_refl.
  - destruct (String.eqb k0 k) eqn:E; cbn; rewrite E; [done | apply IH].
Qed.

Lemma dict_get_set_other (d : dict) (k k' : string) (v default : pyval) :
  k ≠ k' → dict_get (dict_set d k v) k' default = dict_get d k' default.
Proof.
  intros Hne. apply String.eqb_neq in Hne. unfold dict_get.
  induction d as [|[k0 v0] d IH]; cbn; [by rewrite Hne|].
  destruct (String.eqb k0 k) eqn:E0; cbn.
  - apply String.eqb_eq in E0 as ->. by rewrite Hne.
  - destruct (String.eqb k0 k'); [done | apply IH].
Qed.

Lemma session_entries_elem sid base items entries :
  session_entries sid base items = Ok entries →
  ∀ e, e ∈ entries
       ↔ ∃ d, PDict d ∈ items
              ∧ py_eqb (dict_get d "session_id" PNone) sid = true
              ∧ e = dict_set d "log_type" (PStr base).
Proof.
  revert entries. induction items as [|v items IH]; intros entries.
  - intros [= <-] e. split.
    + by intros ?%not_elem_of_nil.
    + by intros (d & ?%not_elem_of_nil & _).
  - cbn [session_entries]. destruct v as [| | | | |d0]; try done.
    destruct (session_entries sid base items) as [rest|]; [|done].
    cbn [rbind]. intros [= <-] e. specialize (IH rest eq_refl e).
    destruct (py_eqb (dict_get d0 "session_id" PNone) sid) eqn:E.
    + rewrite elem_of_cons, IH. split.
      * intros [->|(d & Hd & Hs & ->)].
        -- exists d0. split_and!; [by left|done..].
        -- exists d. split_and!; [by right|done..].
      * intros (d & [Hd|Hd]%elem_of_cons & Hs & ->).
        -- injection Hd as ->. by left.
        -- right. by exists d.
    + rewrite IH. split.
      * intros (d & Hd & Hs & ->). exists d. split_and!; [by right|done..].
      * intros (d & [Hd|Hd]%elem_of_cons & Hs & ->).
        -- injection Hd as ->. congruence.
        -- by exists d.
Qed.

Lemma session_entries_raise sid base items v :
  v ∈ items → is_dict v = false →
  session_entries sid base items = Raise AttributeError.
Proof.
  induction items as [|v0 items IH]; intros Hin Hv.
  - by apply not_elem_of_nil in Hin.
  - apply elem_of_cons in Hin as [<-|Hin].
    + by destruct v.
    + cbn [session_entries]. destruct v0; try done. by rewrite IH.
Qed.

Lemma entries_of_files_raises sid fs bases :
  ∀ e, entries_of_files sid fs bases = Raise e → e = AttributeError.
Proof.
  induction bases as [|base bases IH]; intros e; [done|].
  cbn [entries_of_files]. unfold entries_of_file.
  assert (∀ items e', session_entries sid base items = Raise e' →
                      e' = AttributeError) as Hs.
  { induction items as [|v items IHi]; intros e'; [done|].
    cbn [session_entries]. destruct v; try (by intros [= <-]).
    destruct (session_entries sid base items); [done|].
    cbn. intros [= <-]. by apply IHi. }
  destruct (fs !! json_name base) as [[|[| | | |items|]]|]; cbn [rbind];
    try (destruct (entries_of_files sid fs bases); cbn; [done|];
         intros [= <-]; by apply IH).
  destruct (session_entries sid base items) eqn:E; cbn [rbind].
  - destruct (entries_of_files sid fs bases); cbn; [done|].
    intros [= <-]. by apply IH.
  - intros [= <-]. by apply (Hs items).
Qed.

Lemma entries_of_files_elem sid fs bases entries :
  entries_of_files sid fs bases = Ok entries →
  ∀ e, e ∈ entries
       ↔ ∃ base items d,
           base ∈ bases ∧ fs !! json_name base = Some (Json (PList items))
           ∧ PDict d ∈ items
           ∧ py_eqb (dict_get d "session_id" PNone) sid = true
           ∧ e = dict_set d "log_type" (PStr base).
Proof.
  revert entries. induction bases as [|base bases IH]; intros entries.
  - intros [= <-] e. split.
    + by intros ?%not_elem_of_nil.
    + by intros (b & ? & ? & ?%not_elem_of_nil & _).
  - cbn [entries_of_files].
    destruct (entries_of_file sid fs base) as [here|] eqn:Eh; [|done].
    destruct (entries_of_files sid fs bases) as [rest|]; [|done].
    cbn [rbind]. intros [= <-] e. specialize (IH rest eq_refl e).
    rewrite elem_of_app, IH. unfold entries_of_file in Eh. split.
    + intros [He|(b & items & d & Hb & Hf & Hd & Hs & ->)].
      * destruct (fs !! json_name base) as [[|[| | | |items|]]|] eqn:Ef;
          try (injection Eh as <-; by apply not_elem_of_nil in He).
        apply (session_entries_elem _ _ _ _ Eh) in He as (d & Hd & Hs & ->).
        exists base, items, d. split_and!; [by left|done..].
      * exists b, items, d. split_and!; [by right|done..].
    + intros (b & items & d & [->|Hb]%elem_of_cons & Hf & Hd & Hs & ->).
      * left. rewrite Hf in Eh. apply (session_entries_elem _ _ _ _ Eh).
        by exists d.
      * right. by exists b, items, d.
Qed.

Lemma entries_of_files_raise sid fs bases base items v :
  base ∈ bases → fs !! json_name base = Some (Json (PList items)) →
  v ∈ items → is_dict v = false →
  entries_of_files sid fs bases = Raise AttributeError.
Proof.
  intros Hb Hf Hv Hd.
  destruct (entries_of_files sid fs bases) as [entries|e] eqn:E.
  - exfalso. revert entries E.
    induction bases as [|b bases IH]; intros entries;
      [by apply not_elem_of_nil in Hb|].
    cbn [entries_of_files]. apply elem_of_cons in Hb as [<-|Hb].
    + unfold entries_of_file. rewrite Hf.
      by rewrite (session_entries_raise sid base items v Hv Hd).
    + destruct (entries_of_file sid fs b); [|done]. cbn [rbind].
      destruct (entries_of_files sid fs bases) as [rest|]; [|done].
      intros _. exact (IH Hb rest eq_refl).
  - by rewrite (entries_of_files_raises _ _ _ _ E).
Qed.

(** On lists of JSON objects the entries are the tagged matching items,
    file after file and item after item. *)
Lemma session_entries_tagged sid base items :
  Forall (λ v, is_dict v = true) items →
  session_entries sid base items
  = Ok (omap (λ v, match v with
                   | PDict d =>
                       if py_eqb (dict_get d "session_id" PNone) sid
                       then Some (dict_set d "log_type" (PStr base)) else None
                   | _ => None
                   end) items).
Proof.
  induction 1 as [|v items Hv _ IH]; [done|].
  destruct v; try done. cbn [session_entries omap list_omap]. rewrite IH.
  cbn [rbind]. by destruct (py_eqb _ _).
Qed.

Section WithSort.
Variable list_sort : list (pyval * dict) -> result (list dict).

(** X8. [load_session_logs] reads the six log files in the order of its
    list and hands to the sort, in this order, the items of each file
    that holds a list, in the order of the file, that are JSON objects
    whose [session_id] equals the one asked for, each once and with its
    [log_type] set to the name of its file (replacing a [log_type] it
    had, leaving its other keys alone); a file that is absent, unreadable
    or not a list gives no entry. The result is what the sort gives on
    these entries keyed by their timestamps. An item that is not a JSON
    object in any of the six lists makes the load raise, whatever its
    session. When the sort returns a permutation of what it is given,
    every entry of the result is such a tagged entry. *)
Theorem session_logs_are_filtered_and_tagged (sid : pyval)
    (fs : gmap string file_content) :
  let names := [ "session_start"; "pre_tool_use"; "post_tool_use";
                 "user_prompt_submit"; "notifications"; "stop" ] in
  let items_of base :=
    match fs !! (base +:+ ".json") with
    | Some (Json (PList items)) => items
    | _ => []
    end in
  let tagged base :=
    omap (λ v, match v with
               | PDict d =>
                   if py_eqb (dict_get d "session_id" PNone) sid
                   then Some (dict_set d "log_type" (PStr base)) else None
               | _ => None
               end) (items_of base) in
  ((∀ base v, base ∈ names → v ∈ items_of base → is_dict v = true) →
   load_session_logs list_sort sid fs
   = list_sort (map (λ log, (dict_get log "timestamp" (PStr ""), log))
                    (concat (map tagged names))))
  ∧ (∀ d base k,
       dict_get (dict_set d "log_type" (PStr base)) "log_type" PNone = PStr base
       ∧ (k ≠ "log_type" →
          dict_get (dict_set d "log_type" (PStr base)) k PNone
          = dict_get d k PNone))
  ∧ (∀ base v,
       base ∈ names → v ∈ items_of base → is_dict v = false →
       load_session_logs list_sort sid fs = Raise AttributeError)
  ∧ ((∀ items sorted, list_sort items = Ok sorted → sorted ≡ₚ map snd items) →
     ∀ logs e,
       load_session_logs list_sort sid fs = Ok logs → e ∈ logs →
       ∃ base d,
         base ∈ names
         ∧ PDict d ∈ items_of base
         ∧ py_eqb (dict_get d "session_id" PNone) sid = true
         ∧ e = dict_set d "log_type" (PStr base)
         ∧ dict_get e "log_type" PNone = PStr base).
Proof.
  intros names items_of tagged.
  assert (∀ logs,
     load_session_logs list_sort sid fs = Ok logs →
     ∃ entries,
       entries_of_files sid fs log_files = Ok entries
       ∧ list_sort (map (λ log, (dict_get log "timestamp" (PStr ""), log)) entries)
         = Ok logs) as Hload.
  { intros logs. unfold load_session_logs.
    destruct (entries_of_files sid fs log_files) as [entries|]; [|done].
    cbn [rbind]. intros Hs. by exists entries. }
  assert (∀ bases,
            (∀ base v, base ∈ bases → v ∈ items_of base → is_dict v = true) →
            entries_of_files sid fs bases = Ok (concat (map tagged bases)))
    as Hfiles.
  { induction bases as [|base bases IH]; intros Hd; [done|].
    cbn [entries_of_files map concat]. rewrite IH.
    2:{ intros b v Hb. apply Hd. by right. }
    assert (entries_of_file sid fs base = Ok (tagged base)) as ->; [|done].
    specialize (Hd base). unfold entries_of_file, tagged, items_of in *.
    unfold json_name.
    destruct (fs !! (base +:+ ".json")) as [[|[| | | |items|]]|]; try done.
    apply session_entries_tagged, Forall_forall. intros v Hv.
    apply Hd; [by left|done]. }
  split_and!.
  - intros Hd. unfold load_session_logs.
    change log_files with names. by rewrite (Hfiles names Hd).
  - intros d base k. split; [apply dict_get_set_eq|].
    intros Hne. apply dict_get_set_other. congruence.
  - intros base v Hb Hv Hd. unfold load_session_logs, items_of in *.
    destruct (fs !! (base +:+ ".json")) as [[|[| | | |items|]]|] eqn:Ef;
      try by apply not_elem_of_nil in Hv.
    by rewrite (entries_of_files_raise sid fs log_files base items v).
  - intros Hperm logs e (entries & He & Hs)%Hload Hin.
    apply Hperm in Hs. rewrite Hs, map_map in Hin. cbn [snd] in Hin.
    rewrite map_id in Hin.
    apply (entries_of_files_elem _ _ _ _ He) in Hin
      as (base & items & d & Hb & Hf & Hd & Hsid & ->).
    exists base, d. split_and!; [done| |done|done|apply dict_get_set_eq].
    unfold items_of. unfold json_name in Hf. by rewrite Hf.
Qed.

End WithSort.

Lemma insert_by_text_perm k x l :
  SessionSamples.insert_by_text k x l ≡ₚ (k, x) :: l.
Proof.
  induction l as [|[k' y] l IH]; cbn; [done|].
  destruct (String.ltb k' k); [|done]. rewrite IH. apply Permutation_swap.
Qed.

Lemma sort_by_text_perm items sorted :
  SessionSamples.sort_by_text items = Ok sorted → sorted ≡ₚ map snd items.
Proof.
  unfold SessionSamples.sort_by_text.
  destruct (SessionSamples.text_keys items) as [kl|] eqn:Ek; [|done].
  intros [= <-].
  assert (map snd kl = map snd items) as <-.
  { revert kl Ek. induction items as [|[k x] items IH]; intros kl.
    - by intros [= <-].
    - cbn. destruct k; try done.
      destruct (SessionSamples.text_keys items) as [kl'|]; [|done].
      cbn. intros [= <-]. cbn. by rewrite (IH kl'). }
  apply Permutation_map. clear Ek.
  induction kl as [|[k x] kl IH]; cbn; [done|].
  by rewrite insert_by_text_perm, IH.
Qed.

Lemma session_logs_are_filtered_and_tagged_witness :
  ∃ logs,
    load_session_logs SessionSamples.sort_by_text (PStr "s1")
      (files SessionSamples.sample_world)
    = Ok logs
    ∧ ∀ e, e ∈ logs →
        ∃ base d,
          base ∈ log_files
          ∧ py_eqb (dict_get d "session_id" PNone) (PStr "s1") = true
          ∧ e = dict_set d "log_type" (PStr base)
          ∧ dict_get e "log_type" PNone = PStr base.
Proof.
  eexists. split; [vm_compute; reflexivity|]. intros e He.
  destruct (session_logs_are_filtered_and_tagged SessionSamples.sort_by_text
              (PStr "s1") (files SessionSamples.sample_world))
    as (_ & _ & _ & Htag).
  destruct (Htag sort_by_text_perm _ e ltac:(vm_compute; reflexivity) He)
    as (base & d & Hb & _ & Hsid & He' & Hty).
  by exists base, d.
Defined.

End SessionLogs.

(** ** Groups of errors *)

Module ErrorGroups.
Import Py SessionImprovement SessionMore.

Lemma dict_lookup_set_eq (d : dict) (k : string) (v : pyval) :
  dict_lookup (dict_set d k v) k = Some v.
Proof.
  induction d as [|[k0 v0] d IH]; cbn.
  - by rewrite String.eqb_refl.
  - destruct (String.eqb k0 k) eqn:E; cbn; rewrite E; [done | apply IH].
Qed.

Lemma dict_lookup_set_other (d : dict) (k k' : string) (v : pyval) :
  k ≠ k' → dict_lookup (dict_set d k v) k' = dict_lookup d k'.
Proof.
  intros Hne. apply String.eqb_neq in Hne.
  induction d as [|[k0 v0] d IH]; cbn; [by rewrite Hne|].
  destruct (String.eqb k0 k) eqn:E0; cbn.
  - apply String.eqb_eq in E0 as ->. by rewrite Hne.
  - destruct (String.eqb k0 k'); [done | apply IH].
Qed.

Lemma dict_get_app_l (d d' : dict) (k : string) (v default : pyval) :
  dict_lookup d k = Some v → dict_get (d ++ d') k default = v.
Proof.
  unfold dict_get. induction d as [|[k0 v0] d IH]; cbn; [done|].
  destruct (String.eqb k0 k); [by intros [= ->] | apply IH].
Qed.

Lemma dict_get_app_r (d d' : dict) (k : string) (default : pyval) :
  dict_lookup d k = None → dict_get (d ++ d') k default = dict_get d' k default.
Proof.
  unfold dict_get. induction d as [|[k0 v0] d IH]; cbn; [done|].
  destruct (String.eqb k0 k); [done | apply IH].
Qed.

Lemma bump_group_ok d n tss ts :
  length tss = n → group_ok (bump_group (d, n, tss) ts).
Proof.
  intros Hlen. cbn -[dict_lookup dict_set]. split_and!.
  - by rewrite dict_lookup_set_other, dict_lookup_set_eq.
  - by rewrite dict_lookup_set_eq.
  - rewrite length_app. cbn. lia.
  - lia.
Qed.

Lemma bump_group_error d n tss ts :
  dict_lookup (fst (fst (bump_group (d, n, tss) ts))) "error"
  = dict_lookup d "error".
Proof. cbn -[dict_lookup dict_set]. by rewrite !dict_lookup_set_other. Qed.

Abbreviation groups_ok groups := (Forall (λ kg, group_ok (snd kg)) groups).

Lemma group_add_ok key log groups :
  groups_ok groups → groups_ok (group_add key log groups).
Proof.
  induction 1 as [|[k [[d n] tss]] groups Hg Hall IH]; cbn [group_add].
  - constructor; [|constructor]. by apply bump_group_ok.
  - destruct (String.eqb k key).
    + constructor; [|done]. destruct Hg as (_ & _ & Hlen & _).
      by apply bump_group_ok.
    + by constructor.
Qed.

Lemma group_add_grouped key log groups :
  grouped (group_add key log groups) = S (grouped groups).
Proof.
  unfold grouped.
  induction groups as [|[k [[d n] tss]] groups IH]; cbn [group_add]; [done|].
  destruct (String.eqb k key); cbn [foldr snd fst bump_group] in *;
    [done|]. rewrite IH. lia.
Qed.

Section WithText.
Variable repr_value : pyval -> string.

Lemma error_groups_from_ok logs groups groups' :
  error_groups_from repr_value groups logs = Ok groups' →
  groups_ok groups →
  groups_ok groups' ∧ grouped groups' = (grouped groups + failures logs)%nat.
Proof.
  revert groups. induction logs as [|log logs IH]; intros groups.
  - intros [= <-] Hok. split; [done|]. unfold failures. cbn. lia.
  - cbn [error_groups_from]. unfold failures. rewrite filter_cons.
    destruct (is_failure log) eqn:Ef.
    + destruct (error_key_of repr_value log) as [key|]; [|done]. cbn [rbind].
      intros Hr Hok. destruct (IH _ Hr (group_add_ok key log _ Hok)) as [H1 H2].
      split; [done|]. rewrite H2, group_add_grouped, decide_True by done.
      unfold failures. cbn [length]. lia.
    + intros Hr Hok. destruct (IH _ Hr Hok) as [H1 H2]. split; [done|].
      rewrite H2, decide_False by done. done.
Qed.

Lemma error_groups_from_none logs groups :
  failures logs = 0%nat → error_groups_from repr_value groups logs = Ok groups.
Proof.
  unfold failures. induction logs as [|log logs IH]; [done|].
  rewrite filter_cons. cbn [error_groups_from].
  destruct (is_failure log).
  - by rewrite decide_True.
  - by rewrite decide_False.
Qed.

Lemma repeated_groups_bound (groups : list (string * (dict * nat * list pyval))) :
  (2 * length (filter (λ kg, (2 <= snd (fst (snd kg)))%nat) groups)
   <= grouped groups)%nat.
Proof.
  induction groups as [|[k [[d n] tss]] groups IH]; [done|].
  rewrite filter_cons. unfold grouped in *. cbn [snd fst foldr] in *.
  destruct (decide (2 <= n)%nat); cbn [length]; lia.
Qed.

Lemma map_r_same_length {A B} (f : A → result B) (l : list A) (l' : list B) :
  map_r f l = Ok l' → length l' = length l.
Proof.
  revert l'. induction l as [|x l IH]; intros l'; cbn.
  - by intros [= <-].
  - destruct (f x); [|done]. cbn. destruct (map_r f l) as [r|]; [|done].
    cbn. intros [= <-]. cbn. by rewrite (IH r).
Qed.

Lemma map_r_elem {A B} (f : A → result B) (l : list A) (l' : list B) (y : B) :
  map_r f l = Ok l' → y ∈ l' → ∃ x, x ∈ l ∧ f x = Ok y.
Proof.
  revert l'. induction l as [|x l IH]; intros l'; cbn.
  - intros [= <-] Hy. by apply not_elem_of_nil in Hy.
  - destruct (f x) as [y0|] eqn:Ex; [|done]. cbn.
    destruct (map_r f l) as [r|]; [|done]. cbn. intros [= <-].
    intros [->|Hy]%elem_of_cons.
    + exists x. split; [by left|done].
    + destruct (IH r eq_refl Hy) as (x' & Hx' & Hf). exists x'.
      split; [by right|done].
Qed.

(** X9. The error patterns of a session are groups of at least 2 failed
    events: every reported pattern shows a count of 2 or more, one
    timestamp for each counted event, and the hook type [PreToolUse]; the
    patterns account for distinct failed events, so there are at most half
    as many patterns as failed events, and none when no event failed. *)
Theorem error_patterns_count_repeats (logs : list dict) :
  (∀ ps,
     find_error_patterns repr_value logs = Ok ps →
     (2 * length ps <= failures logs)%nat
     ∧ ∀ p, p ∈ ps →
         ∃ d n tss,
           p = PDict d
           ∧ dict_get d "occurrences" PNone = PInt n
           ∧ (2 <= n <= failures logs)%nat
           ∧ dict_get d "timestamps" PNone = PList tss
           ∧ length tss = n)
  ∧ (failures logs = 0%nat → find_error_patterns repr_value logs = Ok []).
Proof.
  split.
  - intros ps. unfold find_error_patterns.
    destruct (error_groups_from repr_value [] logs) as [groups|] eqn:Eg; [|done].
    cbn [rbind]. intros Hps.
    destruct (error_groups_from_ok _ _ _ Eg) as [Hok Hsum]; [constructor|].
    cbn in Hsum. pose proof (repeated_groups_bound groups) as Hb. split.
    + rewrite (map_r_same_length _ _ _ Hps). lia.
    + intros p Hp.
      destruct (map_r_elem _ _ _ _ Hps Hp) as ([k [[d n] tss]] & Hin & Hpat).
      apply list_elem_of_filter in Hin as [Hn Hin]. cbn in Hn.
      assert (n <= grouped groups)%nat as Hle.
      { clear -Hin. induction groups as [|kg groups IH];
          [by apply not_elem_of_nil in Hin|].
        unfold grouped in *.
        apply elem_of_cons in Hin as [<-|Hin]; cbn [foldr snd fst]; [lia|].
        specialize (IH Hin). lia. }
      rewrite Forall_forall in Hok. destruct (Hok _ Hin) as (Ho & Ht & Hl & _).
      cbn [snd] in Hpat. unfold error_pattern_of in Hpat.
      destruct (py_slice_to 100 _); [|done]. cbn in Hpat. injection Hpat as <-.
      exists (d ++ [("potential_hook", PBool true);
                    ("suggested_hook_type", PStr "PreToolUse");
                    ("recommendation",
                      PStr ("Add validation to prevent '"
                            +:+ py_str repr_value a +:+ "'"))]), n, tss.
      split_and!; [done| |lia|lia| |done].
      * by apply dict_get_app_l.
      * by apply dict_get_app_l.
  - intros Hnone. unfold find_error_patterns.
    by rewrite (error_groups_from_none _ _ Hnone).
Qed.

Lemma head_group_add key m key' log groups :
  head_group key m groups →
  head_group key (if String.eqb key key' then S m else m)
             (group_add key' log groups).
Proof.
  intros (d & n & tss & rest & -> & Herr & Hm). cbn [group_add].
  destruct (String.eqb key key').
  - eexists _, _, _, _. split; [done|].
    cbn -[dict_lookup dict_set]. split; [|lia].
    by rewrite !dict_lookup_set_other.
  - by eexists _, _, _, _.
Qed.

Lemma head_group_weaken key m m' groups :
  (m' <= m)%nat → head_group key m groups → head_group key m' groups.
Proof.
  intros Hle (d & n & tss & rest & -> & Herr & Hm).
  eexists _, _, _, _. split_and!; [done..|lia].
Qed.

Lemma error_groups_from_head key m logs groups groups' :
  error_groups_from repr_value groups logs = Ok groups' →
  head_group key m groups → head_group key m groups'.
Proof.
  revert groups. induction logs as [|log logs IH]; intros groups.
  - by intros [= <-].
  - cbn [error_groups_from]. destruct (is_failure log); [|apply IH].
    destruct (error_key_of repr_value log) as [key'|]; [|done]. cbn [rbind].
    intros Hr Hh. apply (IH _ Hr).
    apply (head_group_add _ _ key' log) in Hh.
    destruct (String.eqb key key'); [|done].
    by apply (head_group_weaken _ (S m)); [lia|].
Qed.

Lemma error_groups_from_app groups logs logs' :
  error_groups_from repr_value groups (logs ++ logs')
  = (groups' <~ error_groups_from repr_value groups logs;
     error_groups_from repr_value groups' logs')%result.
Proof.
  revert groups. induction logs as [|log logs IH]; intros groups; [done|].
  cbn [app error_groups_from]. destruct (is_failure log); [|apply IH].
  destruct (error_key_of repr_value log) as [key|]; [|done]. cbn [rbind].
  apply IH.
Qed.

Lemma error_key_without_error log :
  dict_lookup log "error" = None →
  error_key_of repr_value log
  = Ok (py_str repr_value (tool_name_of log) +:+ ":unknown").
Proof.
  intros Hnone. unfold error_key_of, dict_get at 1. by rewrite Hnone.
Qed.

(** X10. A tool that fails twice without an [error] entry makes the error
    pass raise: when the first failed event of a session has no [error]
    key and a later failed event of the same tool has none either,
    [find_error_patterns] returns no patterns at all but raises, whatever
    the other events are. *)
Theorem repeated_silent_failure_raises (pre mid post : list dict) (a b : dict) :
  failures pre = 0%nat →
  is_failure a = true → is_failure b = true →
  dict_lookup a "error" = None → dict_lookup b "error" = None →
  tool_name_of a = tool_name_of b →
  ∃ e, find_error_patterns repr_value (pre ++ a :: mid ++ b :: post) = Raise e.
Proof.
  intros Hpre Ha Hb Hea Heb Htool. unfold find_error_patterns.
  rewrite error_groups_from_app, (error_groups_from_none _ _ Hpre).
  cbn [rbind error_groups_from]. rewrite Ha, (error_key_without_error _ Hea).
  cbn [rbind]. set (key := py_str repr_value (tool_name_of a) +:+ ":unknown").
  assert (head_group key 1 (group_add key a [])) as Hhead.
  { cbn [group_add]. eexists _, _, _, _. split; [done|].
    cbn -[dict_lookup dict_set]. split; [|lia].
    rewrite !dict_lookup_set_other by done. cbn.
    unfold dict_get. by rewrite Hea. }
  rewrite error_groups_from_app.
  destruct (error_groups_from repr_value _ mid) as [groups1|e] eqn:E1;
    [|by exists e].
  cbn [rbind error_groups_from]. rewrite Hb, (error_key_without_error _ Heb).
  cbn [rbind]. rewrite <- Htool. fold key.
  pose proof (head_group_add _ _ key b _ (error_groups_from_head _ _ _ _ _ E1 Hhead))
    as Hhead2.
  rewrite String.eqb_refl in Hhead2.
  destruct (error_groups_from repr_value _ post) as [groups2|e] eqn:E2;
    [|by exists e].
  cbn [rbind].
  destruct (error_groups_from_head _ _ _ _ _ E2 Hhead2)
    as (d & n & tss & rest & -> & Herr & Hn).
  rewrite filter_cons, decide_True by (cbn; lia).
  cbn [map_r snd]. unfold error_pattern_of, dict_get. rewrite Herr.
  cbn. by exists TypeError.
Qed.

End WithText.

End ErrorGroups.

Module ErrorGroupsWitness.
Import Py SessionImprovement SessionMore SessionSamples SessionMoreSamples.

Lemma error_patterns_count_repeats_witness :
  (2 * 1 <= failures [ failed_with "Bash" "exit 1" "t1";
                       failed_with "Bash" "exit 1" "t2" ])%nat.
Proof.
  destruct (ErrorGroups.error_patterns_count_repeats repr_text
              [ failed_with "Bash" "exit 1" "t1";
                failed_with "Bash" "exit 1" "t2" ]) as [H _].
  edestruct (H _ ltac:(vm_compute; reflexivity)) as [Hlen _].
  exact Hlen.
Defined.

Lemma repeated_silent_failure_raises_witness :
  ∃ e, find_error_patterns repr_text
         ([ tool_log "Read" ] ++ failed_silently "Bash" "t1"
            :: [ tool_log "Grep" ] ++ failed_silently "Bash" "t2" :: [])
       = Raise e.
Proof.
  apply ErrorGroups.repeated_silent_failure_raises;
    vm_compute; reflexivity.
Defined.

End ErrorGroupsWitness.

(** ** The metrics of a session *)

Module Metrics.
Import Py SessionImprovement SessionMore.




Lemma max_from_greatest (l : list (dict * Q)) (best : dict) (kbest : Q) :
  ∃ k, (max_from best kbest l, k) ∈ (best, kbest) :: l
       ∧ ∀ x kx, (x, kx) ∈ (best, kbest) :: l → (kx <= k)%Q.
Proof.
  revert best kbest. induction l as [|[log k] l IH]; intros best kbest.
  - exists kbest. split; [by left|]. intros x kx Hin.
    apply list_elem_of_singleton in Hin as [= -> ->]. apply Qle_refl.
  - cbn [max_from]. destruct (Qgtb k kbest) eqn:Eg.
    + destruct (IH log k) as (km & Hin & Hmax). exists km. split.
      * by right.
      * intros x kx [[= -> ->]|Hx]%elem_of_cons.
        -- apply Qle_trans with k; [|by apply (Hmax log); left].
           apply Qlt_le_weak. by apply DetectorLemmas.Qgtb_true.
        -- by apply (Hmax x).
    + destruct (IH best kbest) as (km & Hin & Hmax). exists km. split.
      * apply elem_of_cons in Hin as [Hin|Hin];
          [rewrite Hin; by left | by do 2 right].
      * intros x kx [[= -> ->]|[[= -> ->]|Hx]%elem_of_cons]%elem_of_cons.
        -- apply (Hmax best). by left.
        -- apply Qle_trans with kbest; [|by apply (Hmax best); left].
           apply Qnot_lt_le. by apply DetectorLemmas.Qgtb_false.
        -- apply (Hmax x). by right.
Qed.

Lemma nums_of_zip (f : dict → pyval) (l : list dict) (ks : list Q) :
  nums_of (map f l) = Some ks →
  length ks = length l
  ∧ (∀ x k, (x, k) ∈ zip l ks → x ∈ l ∧ as_num (f x) = Some k)
  ∧ (∀ x, x ∈ l → ∃ k, (x, k) ∈ zip l ks).
Proof.
  revert ks. induction l as [|a l IH]; intros ks; cbn.
  - intros [= <-]. split_and!; [done|..].
    + intros x k Hin. by apply not_elem_of_nil in Hin.
    + intros x Hin. by apply not_elem_of_nil in Hin.
  - destruct (as_num (f a)) as [q|] eqn:Ea; [|done].
    destruct (nums_of (map f l)) as [qs|]; [|done]. intros [= <-].
    destruct (IH qs eq_refl) as (Hlen & Hzip & Hall). cbn. split_and!.
    + by rewrite Hlen.
    + intros x k [[= -> ->]|Hin]%elem_of_cons; [by split; [left|]|].
      destruct (Hzip _ _ Hin). by split; [right|].
    + intros x [->|Hin]%elem_of_cons; [exists q; by left|].
      destruct (Hall _ Hin) as [k Hk]. exists k. by right.
Qed.




(** X12. The longest operation of the metrics is an event with a tool name
    whose execution time is the greatest of all such events, an event
    without a time counting as 0; it is [None] exactly when no event with
    a tool name has a non-zero time. *)
Theorem longest_operation_is_greatest (logs : list dict)
    (total unique : nat) (rate time average : Q) (longest : pyval) :
  calculate_session_metrics logs
  = Ok (metrics_dict total unique rate time average longest) →
  let tool_logs := filter (λ log, has_tool log = true) logs in
  (longest = PNone
   ∧ ∀ log, log ∈ tool_logs →
       truthy (dict_get log "execution_time" PNone) = false)
  ∨ (∃ m q,
       m ∈ tool_logs
       ∧ longest = PDict [ ("tool", tool_name_of m);
                           ("time", execution_time_of m) ]
       ∧ as_num (execution_time_of m) = Some q
       ∧ (∃ log, log ∈ tool_logs
                 ∧ truthy (dict_get log "execution_time" PNone) = true)
       ∧ ∀ log, log ∈ tool_logs →
           ∃ q', as_num (execution_time_of log) = Some q' ∧ (q' <= q)%Q).
Proof.
  intros Hr tool_logs. unfold calculate_session_metrics in Hr.
  fold tool_logs in Hr. clearbody tool_logs. cbv zeta in Hr.
  destruct (map_r _ tool_logs) as [keys|]; [|done]. cbn [rbind] in Hr.
  destruct tool_logs as [|t0 rest].
  { inversion Hr. left. split; [done|]. intros log Hin.
    by apply not_elem_of_nil in Hin. }
  cbv beta iota in Hr. set (tool_logs := t0 :: rest) in *.
  destruct (filter _ (map _ tool_logs)) as [|e0 es] eqn:Ex.
  { inversion Hr. left. split; [done|]. intros log Hin.
    destruct (truthy (dict_get log "execution_time" PNone)) eqn:Et; [|done].
    assert (dict_get log "execution_time" PNone
            ∈ filter (λ t, truthy t = true)
                (map (λ log, dict_get log "execution_time" PNone) tool_logs))
      as Hmem.
    { apply list_elem_of_filter. split; [done|].
      apply list_elem_of_fmap. by exists log. }
    rewrite Ex in Hmem. by apply not_elem_of_nil in Hmem. }
  destruct (py_sum (e0 :: es)); [|done]. cbn [rbind] in Hr.
  destruct (py_max_by_time tool_logs) as [m|] eqn:Em; [|done].
  cbn [rbind] in Hr. inversion Hr as [[Ht Hu Hra Hti Ha Hl]]. clear Hr.
  right. subst tool_logs. unfold py_max_by_time in Em.
  destruct (nums_of (map execution_time_of (t0 :: rest))) as [[|k ks]|] eqn:En;
    [done| |done].
  revert Em; intros [= <-].
  destruct (nums_of_zip execution_time_of (t0 :: rest) (k :: ks) En)
    as (_ & Hzip & Hall).
  change (zip (t0 :: rest) (k :: ks)) with ((t0, k) :: zip rest ks) in *.
  destruct (max_from_greatest (zip rest ks) t0 k) as (km & Hin & Hmax).
  destruct (Hzip _ _ Hin) as [Hm Hkm].
  exists (max_from t0 k (zip rest ks)), km. split_and!; [done..| |].
  - assert (e0 ∈ filter (λ t, truthy t = true)
                (map (λ log, dict_get log "execution_time" PNone) (t0 :: rest)))
      as Hmem by (rewrite Ex; by left).
    apply list_elem_of_filter in Hmem as [Ht0 Hmem].
    apply list_elem_of_fmap in Hmem as (log & -> & Hlog). by exists log.
  - intros log Hlog. destruct (Hall _ Hlog) as [q' Hq'].
    exists q'. split; [by destruct (Hzip _ _ Hq') | by apply (Hmax log)].
Qed.


End Metrics.

Module MetricsWitness.
Import Py SessionImprovement SessionMore SessionSamples SessionMoreSamples.
Import MetricsSamples.


Lemma longest_operation_is_greatest_witness :
  ∃ m q, m ∈ two_timed ∧ as_num (execution_time_of m) = Some q
         ∧ ∀ log, log ∈ two_timed →
             ∃ q', as_num (execution_time_of log) = Some q' ∧ (q' <= q)%Q.
Proof.
  destruct (Metrics.longest_operation_is_greatest two_timed 2 2
              (inject_Z 0 / inject_Z 2) (2 + (5 + 0))
              ((2 + (5 + 0)) / inject_Z 2)
              (PDict [ ("tool", PStr "Bash"); ("time", PNum 5) ])
              ltac:(vm_compute; reflexivity))
    as [[Hnone _]|(m & q & Hm & _ & Hq & _ & Hmax)]; [done|].
  by exists m, q.
Defined.


End MetricsWitness.

(** ** Failed events that are retried *)

Module Retries.
Import Py SessionImprovement.







End Retries.

Module RetriesWitness.
Import Py SessionImprovement SessionSamples SessionMoreSamples.


End RetriesWitness.

(** ** Events that no detector looks at *)

Module QuietEvents.
Import Py LogAnalyzer Quiet.

Section WithOutlierTest.
Variable is_outlier : list Q -> Q -> bool.

Lemma analyze_ignored (event : LogEvent) (self : PatternDetector) :
  ignored event = true →
  analyze_event is_outlier event self
  = (Ok no_findings, snd (append_recent event self)).
Proof.
  unfold ignored. intros Hq.
  unfold analyze_event, bind, append_recent at 1. cbn [fst snd].
  unfold _detect_performance_issues, _detect_error_patterns,
    _detect_success_indicators, _detect_anomalies.
  destruct (eq_str (event_type event) "tool_use") eqn:Et.
  - apply andb_true_iff in Hq as [Hm He].
    apply negb_true_iff in Hm, He. rewrite Hm, He. cbn [andb].
    destruct (event_type event) as [| | |s| |]; try done. cbn in Et.
    apply String.eqb_eq in Et as ->. by cbn.
  - apply andb_true_iff in Hq as [Ha Hs].
    apply negb_true_iff in Ha, Hs. rewrite Ha, Hs. by cbn.
Qed.

(** X15. Events that are not tool uses, agent completions or session ends,
    and tool uses with empty metrics and no error, leave no trace but in
    the window of recent events: each of them gets an analysis without
    findings, and the timings and the success flags of the detector are
    after the stream what they were before it. *)
Theorem ignored_events_leave_no_trace (events : list LogEvent)
    (self : PatternDetector) :
  Forall (λ e, ignored e = true) events →
  command_timings (run is_outlier events self) = command_timings self
  ∧ agent_success_rates (run is_outlier events self) = agent_success_rates self
  ∧ run_results is_outlier events self = map (λ _, Ok no_findings) events.
Proof.
  intros Hall. revert self.
  induction Hall as [|event events Hq _ IH]; intros self; [done|].
  cbn [run_results map]. unfold run in *. cbn [fold_left].
  rewrite (analyze_ignored _ _ Hq). cbn [snd].
  destruct (IH (snd (append_recent event self))) as (-> & -> & ->).
  done.
Qed.

End WithOutlierTest.

Lemma ignored_events_leave_no_trace_witness :
  run_results MoreSamples.all_outliers
    [ new_LogEvent (PStr "user_prompt") (PStr "s1") (PStr "t1") [] PNone;
      new_LogEvent (PStr "tool_use") (PStr "s1") (PStr "t2") [] PNone ]
    init
  = [ Ok no_findings; Ok no_findings ].
Proof.
  apply (ignored_events_leave_no_trace MoreSamples.all_outliers
           [ new_LogEvent (PStr "user_prompt") (PStr "s1") (PStr "t1") [] PNone;
             new_LogEvent (PStr "tool_use") (PStr "s1") (PStr "t2") [] PNone ]
           init).
  repeat constructor.
Defined.

End QuietEvents.

(** ** The score and the command sequences of a session *)

Module Scores.
Import Py CrossProject FloatFacts.











(** *** The sum of the execution times *)








End Scores.

Module Sequences.
Import Py CrossProject.

Lemma group_append_entries k sid entry groups k' :
  group_entries k' (group_append k sid entry groups)
  = group_entries k' groups ++ (if decide (k = k') then [entry] else []).
Proof.
  induction groups as [|[k0 [sid0 es0]] groups IH]; cbn [group_append].
  - cbn. by destruct (decide (k = k')).
  - destruct (decide (k0 = k)) as [->|Hne]; cbn [group_entries].
    + destruct (decide (k = k')); [done | by rewrite app_nil_r].
    + destruct (decide (k0 = k')) as [->|Hne'].
      * rewrite decide_False by done. by rewrite app_nil_r.
      * apply IH.
Qed.

Lemma group_append_keys k sid entry groups :
  map fst (group_append k sid entry groups)
  = if decide (k ∈ map fst groups) then map fst groups
    else map fst groups ++ [k].
Proof.
  induction groups as [|[k0 [sid0 es0]] groups IH]; cbn [group_append].
  - cbn. rewrite decide_False; [done | apply not_elem_of_nil].
  - destruct (decide (k0 = k)) as [->|Hne]; cbn [map fst].
    + rewrite decide_True; [done | by left].
    + rewrite IH. destruct (decide (k ∈ map fst groups)) as [Hin|Hnin].
      * rewrite decide_True; [done | by right].
      * rewrite decide_False; [done|].
        intros [?|?]%elem_of_cons; [congruence | done].
Qed.

Lemma group_append_elem k sid entry groups k' sid' es' :
  (k', (sid', es')) ∈ group_append k sid entry groups →
  (k' = k ∧ sid' = sid) ∨ ∃ es, (k', (sid', es)) ∈ groups.
Proof.
  induction groups as [|[k0 [sid0 es0]] groups IH]; cbn [group_append].
  - intros [= -> -> ->]%list_elem_of_singleton. by left.
  - destruct (decide (k0 = k)) as [->|Hne].
    + intros [[= -> -> ->]|Hin]%elem_of_cons; right.
      * exists es0. by left.
      * exists es'. by right.
    + intros [[= -> -> ->]|Hin]%elem_of_cons.
      * right. exists es0. by left.
      * destruct (IH Hin) as [?|[es Hes]]; [by left|].
        right. exists es. by right.
Qed.

Lemma group_append_total k sid entry groups :
  grouped_entries (group_append k sid entry groups)
  = S (grouped_entries groups).
Proof.
  unfold grouped_entries.
  induction groups as [|[k0 [sid0 es0]] groups IH]; cbn [group_append]; [done|].
  destruct (decide (k0 = k)); cbn [foldr snd] in *.
  - rewrite length_app. cbn. lia.
  - rewrite IH. lia.
Qed.

Lemma session_members_snoc k seen v :
  session_members k (seen ++ [v])
  = session_members k seen ++ match in_session k v with
                              | Some entry => [entry]
                              | None => []
                              end.
Proof.
  unfold session_members. rewrite omap_app. cbn.
  by destruct (in_session k v).
Qed.

Lemma with_session_snoc seen v :
  with_session (seen ++ [v])
  = (with_session seen + if has_session v then 1 else 0)%nat.
Proof.
  unfold with_session. rewrite filter_app, length_app, filter_cons.
  by destruct (has_session v).
Qed.

Lemma group_sessions_inv log_data seen groups groups' :
  group_sessions groups log_data = Ok groups' →
  groups_of seen groups → grouped_entries groups = with_session seen →
  groups_of (seen ++ log_data) groups'
  ∧ grouped_entries groups' = with_session (seen ++ log_data).
Proof.
  revert seen groups.
  induction log_data as [|v log_data IH]; intros seen groups.
  - intros [= <-]. by rewrite app_nil_r.
  - replace (seen ++ v :: log_data) with ((seen ++ [v]) ++ log_data)
      by by rewrite <- (assoc_L (++)).
    cbn [group_sessions].
    assert (in_session_none : ∀ k, has_session v = false → in_session k v = None).
    { intros k. unfold has_session, in_session. destruct v; try done.
      by destruct (dict_lookup _ _). }
    assert (∀ (Hn : has_session v = false),
              group_sessions groups log_data = Ok groups' →
              groups_of seen groups → grouped_entries groups = with_session seen →
              groups_of ((seen ++ [v]) ++ log_data) groups'
              ∧ grouped_entries groups' = with_session ((seen ++ [v]) ++ log_data))
      as Hskip.
    { intros Hn Hr (Hnd & Hkey & Hmem) Htot. apply (IH _ _ Hr).
      - split_and!; [done..|]. intros k.
        by rewrite session_members_snoc, (in_session_none k Hn), app_nil_r.
      - rewrite with_session_snoc, Hn. lia. }
    destruct v as [| | | | |entry]; try by apply Hskip.
    destruct (dict_lookup entry "session_id") as [sid|] eqn:Es;
      [|apply Hskip; unfold has_session; by rewrite Es].
    destruct (hash_key sid) as [k|] eqn:Ek; [|done]. cbn [rbind].
    intros Hr (Hnd & Hkey & Hmem) Htot. apply (IH _ _ Hr).
    + split_and!.
      * rewrite group_append_keys.
        destruct (decide (k ∈ map fst groups)); [done|].
        apply NoDup_app. split_and!; [done| |apply NoDup_singleton].
        intros x Hx ->%list_elem_of_singleton. done.
      * intros k' sid' es' Hin.
        destruct (group_append_elem _ _ _ _ _ _ _ Hin) as [[-> ->]|[es Hes]];
          [done | by apply (Hkey _ _ es)].
      * intros k'. rewrite group_append_entries, session_members_snoc, Hmem.
        f_equal. unfold in_session. rewrite Es, Ek.
        by destruct (decide (k = k')).
    + rewrite group_append_total, with_session_snoc, Htot.
      unfold has_session. rewrite Es. lia.
Qed.

Lemma group_entries_elem groups k sid es :
  NoDup (map fst groups) → (k, (sid, es)) ∈ groups →
  group_entries k groups = es.
Proof.
  induction groups as [|[k0 [sid0 es0]] groups IH]; cbn [map fst group_entries].
  - intros _ Hin. by apply not_elem_of_nil in Hin.
  - intros [Hnin Hnd]%NoDup_cons [[= -> -> ->]|Hin]%elem_of_cons.
    + by rewrite decide_True.
    + rewrite decide_False; [by apply IH|]. intros ->. apply Hnin.
      apply list_elem_of_fmap. by exists (k, (sid, es)).
Qed.

Lemma group_entries_found groups k :
  group_entries k groups ≠ [] →
  ∃ sid, (k, (sid, group_entries k groups)) ∈ groups.
Proof.
  induction groups as [|[k0 [sid0 es0]] groups IH]; cbn [group_entries]; [done|].
  destruct (decide (k0 = k)) as [->|Hne].
  - intros _. exists sid0. by left.
  - intros Hne'. destruct (IH Hne') as [sid Hsid]. exists sid. by right.
Qed.

Lemma long_groups_bound (groups : session_groups) :
  (3 * length (filter (λ g, (3 <= length (snd (snd g)))%nat) groups)
   <= grouped_entries groups)%nat.
Proof.
  unfold grouped_entries.
  induction groups as [|[k [sid es]] groups IH]; [done|].
  rewrite filter_cons. cbn [snd foldr] in *.
  destruct (decide (3 <= length es)%nat); cbn [length]; lia.
Qed.

Lemma map_r_image {A B} (f : A → result B) (l : list A) (l' : list B) (x : A) :
  map_r f l = Ok l' → x ∈ l → ∃ y, y ∈ l' ∧ f x = Ok y.
Proof.
  revert l'. induction l as [|x0 l IH]; intros l'; cbn.
  - intros _ Hin. by apply not_elem_of_nil in Hin.
  - destruct (f x0) as [y0|] eqn:Ex; [|done]. cbn.
    destruct (map_r f l) as [r|]; [|done]. cbn. intros [= <-].
    intros [->|Hin]%elem_of_cons.
    + exists y0. split; [by left|done].
    + destruct (IH r eq_refl Hin) as (y & Hy & Hf). exists y.
      split; [by right|done].
Qed.

(** X17. The command sequences of a tool log are its sessions of three
    entries or more: a record is given exactly for each such session, with
    the tool names of all the entries of the session in their order in the
    log and the score of these entries; entries that are no dicts or have
    no [session_id] are left out, and three times the number of records is
    at most the number of entries with a session. *)
Theorem command_sequences_are_sessions (log_data : pyval) (seqs : list pyval) :
  _extract_command_sequences log_data = Ok seqs →
  ∃ entries,
    py_iter log_data = Ok entries
    ∧ (∀ p, p ∈ seqs →
         ∃ sid k score,
           hash_key sid = Ok k
           ∧ (3 <= length (session_members k entries))%nat
           ∧ _calculate_success_score (session_members k entries) = Ok score
           ∧ p = PDict [ ("session_id", sid);
                         ("command_sequence",
                           PList (command_sequence (session_members k entries)));
                         ("success_indicators", PNum score) ])
    ∧ (∀ k, (3 <= length (session_members k entries))%nat →
         ∃ sid score,
           hash_key sid = Ok k
           ∧ PDict [ ("session_id", sid);
                     ("command_sequence",
                       PList (command_sequence (session_members k entries)));
                     ("success_indicators", PNum score) ] ∈ seqs)
    ∧ (3 * length seqs <= with_session entries)%nat.
Proof.
  unfold _extract_command_sequences.
  destruct (py_iter log_data) as [entries|]; [|done]. cbn [rbind].
  destruct (group_sessions [] entries) as [groups|] eqn:Eg; [|done].
  cbn [rbind]. intros Hseqs. exists entries. split; [done|].
  destruct (group_sessions_inv entries [] [] groups Eg) as [(Hnd & Hkey & Hmem) Htot].
  { split_and!; [constructor| |done].
    intros k sid es Hin. by apply not_elem_of_nil in Hin. }
  { done. }
  cbn [app] in *. split_and!.
  - intros p Hp.
    destruct (ErrorGroups.map_r_elem _ _ _ _ Hseqs Hp) as ([k [sid es]] & Hin & Hrec).
    apply list_elem_of_filter in Hin as [Hlen Hin]. cbn [snd] in *.
    pose proof (group_entries_elem _ _ _ _ Hnd Hin) as Hes.
    rewrite Hmem in Hes. subst es. unfold sequence_record in Hrec.
    destruct (_calculate_success_score (session_members k entries))
      as [score|] eqn:Es; [|done].
    cbn [rbind] in Hrec. revert Hrec; intros [= <-].
    exists sid, k, score. split_and!; [by apply (Hkey _ _ _ Hin)|done..].
  - intros k Hlen.
    destruct (group_entries_found groups k) as [sid Hsid].
    { rewrite Hmem. intros Hnil. rewrite Hnil in Hlen. cbn in Hlen. lia. }
    rewrite Hmem in Hsid.
    assert ((k, (sid, session_members k entries))
            ∈ filter (λ g, (3 <= length (snd (snd g)))%nat) groups) as Hin
      by (by apply list_elem_of_filter).
    destruct (map_r_image _ _ _ _ Hseqs Hin) as (y & Hy & Hrec).
    cbn [snd] in Hrec. unfold sequence_record in Hrec.
    destruct (_calculate_success_score (session_members k entries))
      as [score|] eqn:Es; [|done].
    cbn [rbind] in Hrec. revert Hrec; intros [= <-].
    exists sid, score. split; [by apply (Hkey _ _ _ Hsid)|done].
  - rewrite (ErrorGroups.map_r_same_length _ _ _ Hseqs), <- Htot.
    apply long_groups_bound.
Qed.

Lemma command_sequences_are_sessions_witness :
  ∃ entries,
    py_iter (PList (PStr "note" :: map PDict CrossProjectSamples.three_uses))
    = Ok entries
    ∧ (3 * 1 <= with_session entries)%nat.
Proof.
  destruct (command_sequences_are_sessions
              (PList (PStr "note" :: map PDict CrossProjectSamples.three_uses))
              [ PDict [ ("session_id", PStr "s1");
                        ("command_sequence",
                          PList [ PStr "Read"; PStr "Edit"; PStr "Bash" ]);
                        ("success_indicators",
                          PNum (3602879701896397 # 9007199254740992)) ] ]
              ltac:(vm_compute; reflexivity))
    as (entries & Hiter & _ & _ & Hlen).
  by exists entries.
Defined.

End Sequences.

(** ** The events that reach the recommendation engine *)

Module EngineEvents.
Import Py LogAnalyzer Engine.

Lemma new_LogEvent_constructed et sid ts d m :
  constructed (new_LogEvent et sid ts d m).
Proof. split; [|done]. by destruct m. Qed.

Lemma event_of_data_to_dict (now : string) (e : LogEvent) :
  constructed e → event_of_data now (to_dict e) = Some e.
Proof.
  intros [Hm Hp]. destruct e as [et sid ts d m pp]. cbn in *. subst pp.
  unfold event_of_data, to_dict, new_LogEvent. cbn. by destruct m.
Qed.

Lemma events_of_constructed now i entries :
  Forall constructed (events_of now i entries).
Proof.
  revert i. induction entries as [|entry entries IH]; intros i; [constructor|].
  cbn [events_of]. destruct entry; cbn; try apply IH.
  constructor; [apply new_LogEvent_constructed | apply IH].
Qed.

Lemma extract_constructed (now : nat → string)
    (patterns : list (LogEvent * event_analysis)) :
  Forall (λ p, constructed (fst p)) patterns →
  omap id (imap (λ i pattern, event_of_data (now i) (to_dict (fst pattern)))
                patterns)
  = map fst patterns.
Proof.
  intros Hall. revert now.
  induction Hall as [|p patterns Hp _ IH]; intros now; [done|].
  cbn [imap omap list_omap map]. rewrite (event_of_data_to_dict (now 0%nat) _ Hp).
  cbn. f_equal. apply (IH (now ∘ S)).
Qed.

Section WithOutlierTest.
Variable is_outlier : list Q -> Q -> bool.

Lemma analyze_events_patterns (events : list LogEvent) (self : PatternDetector)
    (ps : list (LogEvent * event_analysis)) (self' : PatternDetector) :
  analyze_events is_outlier events self = (Ok ps, self') →
  ∀ p, p ∈ ps → fst p ∈ events ∧ any_values (snd p) = true.
Proof.
  revert self ps. induction events as [|ev events IH]; intros self ps.
  - cbn. intros [= <- <-] p Hp. by apply not_elem_of_nil in Hp.
  - cbn [analyze_events]. unfold bind, ret.
    destruct (analyze_event is_outlier ev self) as [[a|?] s]; [|done].
    destruct (analyze_events is_outlier events s) as [[ps'|?] s'] eqn:E; [|done].
    intros [= <- <-] p Hp.
    destruct (any_values a) eqn:Ea.
    + apply elem_of_cons in Hp as [->|Hp]; [by split; [left|]|].
      destruct (IH _ _ E p Hp). by split; [right|].
    + destruct (IH _ _ E p Hp). by split; [right|].
Qed.

Lemma analysis_constructed now file self :
  match fst (analyze_log_file is_outlier now file self) with
  | Results n patterns =>
      Forall (λ p, constructed (fst p)) patterns
      ∧ Forall (λ p, any_values (snd p) = true) patterns
  | _ => True
  end.
Proof.
  destruct file as [| |log_data]; cbn; try done.
  destruct (py_iter log_data) as [entries|]; cbn; [|done].
  destruct (analyze_events _ _ _) as [[ps|?] s] eqn:E; cbn; [|done].
  pose proof (events_of_constructed now 0 entries) as Hall.
  rewrite Forall_forall in Hall.
  split; apply Forall_forall; intros p Hp;
    destruct (analyze_events_patterns _ _ _ _ E p Hp) as [Hin Hany];
    [by apply Hall | done].
Qed.

(** X18. The events that the recommendation engine reads back from an
    analysis are exactly the events of its patterns, field by field as
    [analyze_log_file] built them, whatever the clock: an event without a
    finding never reaches the optimisers, and an analysis that ended in
    an error gives no event. Loading the two standard logs gives the
    events with findings of the first followed by those of the second,
    the second log being analysed by the detector that the first left. *)
Theorem engine_reads_events_with_findings
    (now now' : nat → string) (file : log_file) (self : PatternDetector) :
  (∀ e, constructed e → event_of_data (now' 0%nat) (to_dict e) = Some e)
  ∧ _extract_events_from_analysis now'
      (fst (analyze_log_file is_outlier now file self))
    = events_with_findings (fst (analyze_log_file is_outlier now file self))
  ∧ (∀ n patterns,
       fst (analyze_log_file is_outlier now file self) = Results n patterns →
       Forall (λ p, any_values (snd p) = true) patterns)
  ∧ ∀ now2 now4 file2,
      _load_recent_events is_outlier now now2 now' now4 file file2 self
      = (events_with_findings (fst (analyze_log_file is_outlier now file self))
         ++ events_with_findings
              (fst (analyze_log_file is_outlier now2 file2
                      (snd (analyze_log_file is_outlier now file self)))),
         snd (analyze_log_file is_outlier now2 file2
                (snd (analyze_log_file is_outlier now file self)))).
Proof.
  assert (∀ now now' file self,
            _extract_events_from_analysis now'
              (fst (analyze_log_file is_outlier now file self))
            = events_with_findings
                (fst (analyze_log_file is_outlier now file self))) as Hx.
  { intros n n' f s. pose proof (analysis_constructed n f s) as Hc.
    destruct (fst (analyze_log_file is_outlier n f s)); try done.
    cbn. apply (extract_constructed n'), Hc. }
  split_and!.
  - intros e. apply event_of_data_to_dict.
  - apply Hx.
  - intros n patterns Hr. pose proof (analysis_constructed now file self) as Hc.
    rewrite Hr in Hc. apply Hc.
  - intros now2 now4 file2. unfold _load_recent_events.
    pose proof (Hx now now' file self) as H1.
    destruct (analyze_log_file is_outlier now file self) as [r1 d1].
    cbn [fst snd] in *.
    pose proof (Hx now2 now4 file2 d1) as H2.
    destruct (analyze_log_file is_outlier now2 file2 d1) as [r2 d2].
    cbn [fst snd] in *. by rewrite H1, H2.
Qed.

End WithOutlierTest.

Lemma engine_reads_events_with_findings_witness :
  event_of_data "12:00" (to_dict (Samples.timed_tool_use "Bash" 1))
  = Some (Samples.timed_tool_use "Bash" 1).
Proof.
  apply (proj1 (engine_reads_events_with_findings MoreSamples.all_outliers
                  (λ _, "12:00") (λ _, "12:00") FileMissing init)).
  split; [discriminate | reflexivity].
Defined.

End EngineEvents.

(** ** The recommendations of an analysis *)

Module Recommendations.
Import Py LogAnalyzer Advice.




(** *** The findings of the detectors *)




Section WithOutlierTest.
Variable is_outlier : list Q -> Q -> bool.



End WithOutlierTest.

(** *** The groups *)

Lemma note_spec {A} (c : category) (issues : list A) (cs : list category) :
  NoDup cs →
  NoDup (note c issues cs)
  ∧ ∀ c', c' ∈ note c issues cs ↔ c' ∈ cs ∨ (c' = c ∧ issues ≠ []).
Proof.
  intros Hnd. unfold note. destruct issues as [|i issues].
  - split; [done|]. intros c'. split; [by left|]. by intros [?|[_ ?]].
  - destruct (decide (c ∈ cs)) as [Hin|Hnin].
    + split; [done|]. intros c'. split; [by left|].
      by intros [?|[-> _]].
    + split.
      * apply NoDup_app. split_and!; [done| |apply NoDup_singleton].
        by intros x Hx ->%list_elem_of_singleton.
      * intros c'. rewrite elem_of_app, list_elem_of_singleton.
        split; [intros [?|?]; [by left | by right]|].
        intros [?|[? _]]; [by left | by right].
Qed.

(** What the loop over the patterns leaves in the groups. *)
Lemma group_patterns_spec (patterns : list (LogEvent * event_analysis))
    (g : pattern_groups) :
  NoDup (categories g) →
  performance_group (fold_left group_pattern patterns g)
  = performance_group g ++ slow_tools patterns
  ∧ error_group (fold_left group_pattern patterns g)
    = error_group g ++ recurring_errors patterns
  ∧ success_group (fold_left group_pattern patterns g)
    = success_group g ++ successes_of patterns
  ∧ NoDup (categories (fold_left group_pattern patterns g))
  ∧ (performance_issues_key ∉ categories (fold_left group_pattern patterns g) →
     slow_tools patterns = [])
  ∧ (error_patterns_key ∉ categories (fold_left group_pattern patterns g) →
     recurring_errors patterns = [])
  ∧ (success_indicators_key ∉ categories (fold_left group_pattern patterns g) →
     successes_of patterns = [])
  ∧ ∀ c, c ∈ categories g → c ∈ categories (fold_left group_pattern patterns g).
Proof.
  revert g. induction patterns as [|[ev a] patterns IH]; intros g Hnd.
  - cbn. rewrite !app_nil_r. by split_and!.
  - cbn [fold_left].
    pose proof (note_spec performance_issues_key (performance_issues a)
                  (categories g) Hnd) as [Hn1 Hc1].
    pose proof (note_spec error_patterns_key (error_patterns a) _ Hn1)
      as [Hn2 Hc2].
    pose proof (note_spec success_indicators_key (success_indicators a) _ Hn2)
      as [Hn3 Hc3].
    pose proof (note_spec anomalies_key (anomalies a) _ Hn3) as [Hn4 Hc4].
    destruct (IH (group_pattern g (ev, a)) Hn4)
      as (Hp & He & Hs & Hnd' & Hnp & Hne & Hns & Hkeep).
    unfold slow_tools, recurring_errors, successes_of in *.
    cbn [map concat snd group_pattern performance_group error_group
         success_group categories] in *.
    rewrite Hp, He, Hs, <- !(assoc_L (++)).
    split_and!; [done..| | | |].
    + intros Hnin. rewrite (Hnp Hnin), app_nil_r.
      destruct (performance_issues a) as [|i l]; [done|].
      exfalso. apply Hnin, Hkeep. rewrite Hc4, Hc3, Hc2, Hc1.
      do 3 left. by right.
    + intros Hnin. rewrite (Hne Hnin), app_nil_r.
      destruct (error_patterns a) as [|i l]; [done|].
      exfalso. apply Hnin, Hkeep. rewrite Hc4, Hc3, Hc2.
      do 2 left. by right.
    + intros Hnin. rewrite (Hns Hnin), app_nil_r.
      destruct (success_indicators a) as [|i l]; [done|].
      exfalso. apply Hnin, Hkeep. rewrite Hc4, Hc3.
      left. by right.
    + intros c Hc. apply Hkeep. rewrite Hc4, Hc3, Hc2, Hc1. by do 4 left.
Qed.

Section WithTexts.
Variable repr_value : pyval -> string.
Variable format_value : string -> pyval -> result string.
Variable ratio_text : pyval -> Q -> result string.
Variable percent_text : Q -> string.

(** The recommendations of the categories that were written, when none
    raises, are those of each category one after the other. *)
Lemma recommend_each_ok (g : pattern_groups) (cs : list category)
    (recs : list pyval) :
  recommend_each repr_value format_value ratio_text percent_text g cs
  = Ok recs →
  (∀ c, c ∈ cs →
     ∃ l, recommend repr_value format_value ratio_text percent_text g c = Ok l)
  ∧ recs
    = concat (map (λ c, match recommend repr_value format_value ratio_text
                                percent_text g c with
                        | Ok l => l
                        | Raise _ => []
                        end) cs).
Proof.
  revert recs. induction cs as [|c cs IH]; intros recs; cbn [recommend_each].
  - intros [= <-]. split; [|done]. intros c Hc. by apply not_elem_of_nil in Hc.
  - destruct (recommend _ _ _ _ g c) as [l|] eqn:Ec; [|done]. cbn [rbind].
    destruct (recommend_each _ _ _ _ g cs) as [rest|]; [|done]. cbn [rbind].
    intros [= <-]. destruct (IH rest eq_refl) as [Hall ->]. split.
    + intros c' [->|Hin]%elem_of_cons; [by exists l | by apply Hall].
    + cbn [map concat]. by rewrite Ec.
Qed.


Lemma concat_written (r : category → list pyval) (cs : list category) :
  NoDup cs → (∀ c, c ∉ cs → r c = []) →
  concat (map r cs)
  ≡ₚ r performance_issues_key ++ r error_patterns_key
     ++ r success_indicators_key ++ r anomalies_key.
Proof.
  intros Hnd Hout.
  set (full := [ performance_issues_key; error_patterns_key;
                 success_indicators_key; anomalies_key ]).
  assert (NoDup full) as Hfull.
  { unfold full. apply (bool_decide_unpack _). by vm_compute. }
  assert (cs ⊆+ full) as Hsub.
  { apply NoDup_submseteq; [done|]. intros c _. unfold full.
    destruct c; rewrite !elem_of_cons; auto. }
  apply submseteq_Permutation in Hsub as [k Hk].
  assert (concat (map r k) = []) as Hnil.
  { assert (∀ c, c ∈ k → c ∉ cs) as Hdis.
    { intros c Hc Hin. rewrite Hk in Hfull.
      apply NoDup_app in Hfull as (_ & Hd & _). by apply (Hd c). }
    clear Hk. induction k as [|c k IHk]; [done|]. cbn.
    rewrite (Hout c) by (apply Hdis; by left). cbn. apply IHk.
    intros c' Hc'. apply Hdis. by right. }
  transitivity (concat (map r full)).
  - rewrite Hk, map_app, concat_app, Hnil. by rewrite app_nil_r.
  - unfold full. cbn. by rewrite app_nil_r.
Qed.

Lemma recommendations_by_category
    (patterns : list (LogEvent * event_analysis)) (recs : list pyval) :
  _generate_recommendations repr_value format_value ratio_text percent_text
    patterns = Ok recs →
  ∃ fixes resolutions,
    _recommend_performance_fixes repr_value format_value ratio_text
      (slow_tools patterns) = Ok fixes
    ∧ _recommend_error_fixes repr_value (recurring_errors patterns)
      = Ok resolutions
    ∧ recs ≡ₚ fixes ++ resolutions
              ++ _recommend_success_amplification repr_value percent_text
                   (successes_of patterns).
Proof.
  unfold _generate_recommendations. intros Hr.
  destruct (group_patterns_spec patterns no_groups)
    as (Hp & He & Hs & Hnd & Hnp & Hne & Hns & _); [constructor|].
  cbn [no_groups performance_group error_group success_group app] in *.
  set (g := fold_left group_pattern patterns no_groups) in *.
  destruct (recommend_each_ok g _ _ Hr) as [Hall ->].
  set (r := λ c, match recommend repr_value format_value ratio_text
                         percent_text g c with
                 | Ok l => l
                 | Raise _ => []
                 end).
  assert (∀ c, c ∉ categories g →
            recommend repr_value format_value ratio_text percent_text g c
            = Ok []) as Hout.
  { intros [] Hc; cbn [recommend].
    - by rewrite Hp, (Hnp Hc).
    - by rewrite He, (Hne Hc).
    - by rewrite Hs, (Hns Hc).
    - done. }
  assert (∀ c, ∃ l,
            recommend repr_value format_value ratio_text percent_text g c
            = Ok l) as Hok.
  { intros c. destruct (decide (c ∈ categories g)) as [Hin|Hnin];
      [by apply Hall | exists []; by apply Hout]. }
  destruct (Hok performance_issues_key) as [fixes Hf].
  destruct (Hok error_patterns_key) as [resolutions Hres].
  exists fixes, resolutions.
  pose proof Hf as Hf'. pose proof Hres as Hres'.
  cbn [recommend] in Hf', Hres'. rewrite Hp in Hf'. rewrite He in Hres'.
  split_and!; [done|done|].
  rewrite (concat_written r (categories g) Hnd).
  - unfold r. rewrite Hf, Hres. cbn [recommend]. rewrite Hs.
    by rewrite app_nil_r.
  - intros c Hc. unfold r. by rewrite (Hout c Hc).
Qed.

(** X19. The recommendations of a list of patterns are those of its slow
    tools, of its recurring errors and of its successful agents, all of
    them and nothing else, in some order (category by category, in the
    order in which the categories first showed a finding): an anomaly
    never gives a recommendation, and the recommendations are computed
    only when those of the slow tools and of the recurring errors are. *)
Theorem recommendations_follow_findings
    (patterns : list (LogEvent * event_analysis)) (recs : list pyval) :
  _generate_recommendations repr_value format_value ratio_text percent_text
    patterns = Ok recs →
  ∃ fixes resolutions,
    _recommend_performance_fixes repr_value format_value ratio_text
      (slow_tools patterns) = Ok fixes
    ∧ _recommend_error_fixes repr_value (recurring_errors patterns)
      = Ok resolutions
    ∧ recs ≡ₚ fixes ++ resolutions
              ++ _recommend_success_amplification repr_value percent_text
                   (successes_of patterns)
    ∧ (length recs <= length (slow_tools patterns)
                      + length (recurring_errors patterns)
                      + length (successes_of patterns))%nat.
Proof.
  intros Hr.
  destruct (recommendations_by_category patterns recs Hr)
    as (fixes & resolutions & Hf & Hres & Hperm).
  exists fixes, resolutions. split_and!; [done..|].
  rewrite Hperm, !length_app.
  unfold _recommend_performance_fixes in Hf.
  unfold _recommend_error_fixes in Hres.
  rewrite (ErrorGroups.map_r_same_length _ _ _ Hf).
  rewrite (ErrorGroups.map_r_same_length _ _ _ Hres).
  unfold _recommend_success_amplification. rewrite length_map.
  pose proof (length_filter (λ i, pi_type i = "slow_tool_execution")
                (slow_tools patterns)).
  pose proof (length_filter (λ i, ep_type i = "recurring_error")
                (recurring_errors patterns)).
  pose proof (length_filter (λ i, si_type i = "high_success_agent")
                (successes_of patterns)).
  lia.
Qed.

(** The formats fit every number. *)
Hypothesis format_number :
  ∀ spec v t, as_num v = Some t → ∃ s, format_value spec v = Ok s.
Hypothesis ratio_number :
  ∀ v t baseline, as_num v = Some t → ∃ s, ratio_text v baseline = Ok s.





End WithTexts.

Lemma recommendations_follow_findings_witness :
  ∃ fixes resolutions,
    _recommend_performance_fixes SessionSamples.repr_text
      AdviceSamples.format_text AdviceSamples.ratio_of
      (slow_tools AdviceSamples.agent_and_anomaly) = Ok fixes
    ∧ _recommend_error_fixes SessionSamples.repr_text
        (recurring_errors AdviceSamples.agent_and_anomaly) = Ok resolutions
    ∧ length fixes = 0%nat ∧ length resolutions = 0%nat.
Proof.
  destruct (recommendations_follow_findings SessionSamples.repr_text
              AdviceSamples.format_text AdviceSamples.ratio_of
              AdviceSamples.percent_of AdviceSamples.agent_and_anomaly
              [ success_amplification SessionSamples.repr_text
                  AdviceSamples.percent_of
                  {| si_type := "high_success_agent";
                     si_agent_name := PStr "planner";
                     si_success_rate := 1;
                     si_sample_size := 5 |} ]
              ltac:(vm_compute; reflexivity))
    as (fixes & resolutions & Hf & Hr & _ & _).
  exists fixes, resolutions. split_and!; [exact Hf | exact Hr | |].
  - vm_compute in Hf. by injection Hf as <-.
  - vm_compute in Hr. by injection Hr as <-.
Defined.


End Recommendations.
